(** * settings_object.appsettings: a shallow embedding and its properties

    The module [settings_object/appsettings.py] declares lazily resolved
    settings on a settings object: plain settings with an optional default,
    merged dictionaries, nested settings objects, dotted-path imports and
    object factories.  This file embeds those functions in Rocq and proves
    the properties its specification states about them.

    Python values are a tree-shaped inductive type; dictionaries are
    insertion-ordered association lists with string keys.  The interpreter
    services the package relies on (importing a module, reading an
    attribute, the code of a callable, Django's settings registry) are the
    fields of a [Host] record.  Every function runs in a small monad that
    carries the raised exception, if any, and the log of host operations
    performed. *)

From Stdlib Require Import String Ascii List ZArith Lia Bool Arith.
From Equations Require Import Equations.
From stdpp Require gmap strings.
Import ListNotations.

Set Warnings "-register-all".
Local Open Scope string_scope.
Local Open Scope list_scope.

(** ** Python strings

    A string is the sequence of its characters.  The functions that depend
    on the character database of Python, namely the classes [\w] and [\d] of
    [re] and the methods [upper] and [lower], are given here as they are on
    the characters of the ASCII range; [is_ascii] is the test [str.isascii],
    and a property of a text that may lie outside that range is stated under
    it. *)

Module PyStr.

(** ['{}.{}'.format(a, b)] and friends are written with [cat]. *)
Definition cat (a b : string) : string := String.append a b.

(** [sep.join(parts)] *)
Definition join (sep : string) (parts : list string) : string :=
  String.concat sep parts.

(** [s.split(c)] for a one-character separator: never an empty list. *)
Fixpoint split (sep : ascii) (s : string) : list string :=
  match s with
  | EmptyString => [EmptyString]
  | String c rest =>
      if Ascii.eqb c sep then EmptyString :: split sep rest
      else match split sep rest with
           | [] => [String c EmptyString]
           | w :: ws => String c w :: ws
           end
  end.

Definition is_upper (c : ascii) : bool :=
  let n := nat_of_ascii c in (65 <=? n)%nat && (n <=? 90)%nat.
Definition is_lower (c : ascii) : bool :=
  let n := nat_of_ascii c in (97 <=? n)%nat && (n <=? 122)%nat.
Definition is_digit (c : ascii) : bool :=
  let n := nat_of_ascii c in (48 <=? n)%nat && (n <=? 57)%nat.

(** [s.isascii()] *)
Definition is_ascii_char (c : ascii) : bool := (nat_of_ascii c <? 128)%nat.

Fixpoint is_ascii (s : string) : bool :=
  match s with
  | EmptyString => true
  | String c rest => is_ascii_char c && is_ascii rest
  end.

(** The class [\w] of [re], on ASCII text; [is_digit] is the class [\d]. *)
Definition is_word (c : ascii) : bool :=
  is_upper c || is_lower c || is_digit c || Ascii.eqb c "_"%char.

Definition upper_char (c : ascii) : ascii :=
  if is_lower c then ascii_of_nat (nat_of_ascii c - 32) else c.
Definition lower_char (c : ascii) : ascii :=
  if is_upper c then ascii_of_nat (nat_of_ascii c + 32) else c.

Fixpoint map_chars (f : ascii -> ascii) (s : string) : string :=
  match s with
  | EmptyString => EmptyString
  | String c rest => String (f c) (map_chars f rest)
  end.

(** [s.upper()] and [s.lower()] on ASCII text. *)
Definition upper : string -> string := map_chars upper_char.
Definition lower : string -> string := map_chars lower_char.

(** [sub in s] *)
Fixpoint contains (sub s : string) : bool :=
  String.prefix sub s ||
  match s with
  | EmptyString => false
  | String _ rest => contains sub rest
  end.

(** Decimal rendering of a count or an index, as ['%d'] and ['{}'] give. *)
Fixpoint digits_of (fuel n : nat) (acc : string) : string :=
  let acc' := String (ascii_of_nat (48 + n mod 10)) acc in
  match fuel with
  | O => acc'
  | S fuel' => if (n <? 10)%nat then acc' else digits_of fuel' (n / 10) acc'
  end.
Definition of_nat (n : nat) : string := digits_of n n EmptyString.

End PyStr.

Notation "a +.+ b" := (PyStr.cat a b) (at level 60, right associativity).

(** ** Exceptions, results and the log of host operations *)

Inductive exn : Type :=
| ModuleNotFoundError (msg : string)
| ImportError (msg : string)
| AttributeError (msg : string)
| TypeError (msg : string)
| KeyError (key : string)
| ImproperlyConfigured (msg : string)
| OtherError (cls msg : string).

(** [ModuleNotFoundError] is a subclass of [ImportError]. *)
Definition is_import_error (e : exn) : bool :=
  match e with
  | ModuleNotFoundError _ | ImportError _ => true
  | _ => false
  end.

Definition is_attribute_error (e : exn) : bool :=
  match e with AttributeError _ => true | _ => false end.

Definition is_type_error (e : exn) : bool :=
  match e with TypeError _ => true | _ => false end.

Inductive result (A : Type) : Type :=
| Return (a : A)
| Raise (e : exn).
Arguments Return {A} a.
Arguments Raise {A} e.

(** ** Python values *)

Inductive value : Type :=
| VNone
| VBool (b : bool)
| VInt (n : Z)
| VStr (s : string)
| VDict (items : list (string * value))
| VList (items : list value)
| VTuple (items : list value)
| VModule (name : string)
| VCallable (qualname : string)
| VBuiltinDict
| VInstance (cls : string) (attrs : list (string * value))
| VSettingsObject (cls : string) (name : string) (user_settings : value).

Definition dict : Type := list (string * value).

(** [type(v).__name__], as error messages print it. *)
Definition type_name (v : value) : string :=
  match v with
  | VNone => "NoneType"
  | VBool _ => "bool"
  | VInt _ => "int"
  | VStr _ => "str"
  | VDict _ => "dict"
  | VList _ => "list"
  | VTuple _ => "tuple"
  | VModule _ => "module"
  | VCallable _ => "function"
  | VBuiltinDict => "type"
  | VInstance cls _ => cls
  | VSettingsObject cls _ _ => cls
  end.

(** *** Dictionaries

    The operations are generic in the type of the values stored, so that the
    same code serves for dictionaries of values and for dictionaries kept in
    a store. *)

Section Dict.

Context {V : Type}.

Fixpoint dict_get (d : list (string * V)) (k : string) : option V :=
  match d with
  | [] => None
  | (k', v) :: rest => if String.eqb k' k then Some v else dict_get rest k
  end.

(** [k in d] *)
Definition dict_contains (d : list (string * V)) (k : string) : bool :=
  match dict_get d k with Some _ => true | None => false end.

(** [d[k] = v]: an existing key keeps its position, a new key goes last. *)
Fixpoint dict_set (d : list (string * V)) (k : string) (v : V) : list (string * V) :=
  match d with
  | [] => [(k, v)]
  | (k', v') :: rest =>
      if String.eqb k' k then (k', v) :: rest else (k', v') :: dict_set rest k v
  end.

(** [d.update(other)] for a mapping [other]. *)
Definition dict_update (d other : list (string * V)) : list (string * V) :=
  fold_left (fun acc kv => dict_set acc (fst kv) (snd kv)) other d.

End Dict.

(** ** The monad: a result together with the host operations performed *)

Inductive event : Type :=
| EvImport (name : string)
| EvGetattr (obj : value) (attr : string)
| EvCall (f : value) (args : list value) (kwargs : dict)
| EvDjangoSetting (name : string).

Definition M (A : Type) : Type := (list event * result A)%type.

Definition ret {A} (a : A) : M A := ([], Return a).
Definition raise {A} (e : exn) : M A := ([], Raise e).

Definition bind {A B} (m : M A) (k : A -> M B) : M B :=
  match m with
  | (t, Return a) => let (t', r) := k a in (t ++ t', r)
  | (t, Raise e) => (t, Raise e)
  end.

(** [try: m  except <class>: handler] *)
Definition try_except {A} (m : M A) (catches : exn -> bool) (handler : exn -> M A) : M A :=
  match m with
  | (t, Return a) => (t, Return a)
  | (t, Raise e) =>
      if catches e then let (t', r) := handler e in (t ++ t', r)
      else (t, Raise e)
  end.

(** A host operation: logged, then its outcome. *)
Definition perform {A} (ev : event) (r : result A) : M A := ([ev], r).

Definition trace_of {A} (m : M A) : list event := fst m.
Definition outcome {A} (m : M A) : result A := snd m.

Declare Scope trace_scope.
Notation "'let*' x ':=' m 'in' k" := (bind m (fun x => k))
  (at level 10, x pattern, m at level 100, k at level 200) : trace_scope.
Open Scope trace_scope.

(** ** The host interpreter *)

(** A Python function: its qualified name, its positional-or-keyword
    parameters in declaration order ([true] marks a parameter with a default),
    whether it takes [**kwargs], and its body, run on the bound arguments. *)
Record pyfunc : Type := {
  fn_qualname : string;
  fn_params : list (string * bool);
  fn_var_keyword : bool;
  fn_body : dict -> result value
}.

Record Host : Type := {
  (** [importlib.import_module(name)]: the module, or the exception raised *)
  host_import_module : string -> result string;
  (** [getattr(obj, attr)] *)
  host_getattr : value -> string -> result value;
  (** the code behind a callable object *)
  host_function : string -> pyfunc;
  (** [from django.conf import settings] followed by a read of
      [settings.<name>]: [Return None] when the attribute does not exist *)
  host_django_setting : string -> result (option value);
  (** [d.update(seq)] for a [str], [list] or [tuple] argument *)
  host_update_from_sequence : dict -> value -> result dict;
  (** [obj[key]] for an object that is not a [dict] *)
  host_getitem : value -> string -> result value
}.

(** ** The dotted-path resolver *)

Section Resolver.

Variable host : Host.

Definition import_module (name : string) : M string :=
  perform (EvImport name) (host_import_module host name).

Definition getattr (obj : value) (attr : string) : M value :=
  perform (EvGetattr obj attr) (host_getattr host obj attr).

Definition is_module_not_found (e : exn) : bool :=
  match e with ModuleNotFoundError _ => true | _ => false end.

(** [reduce(function, iterable, initial)] *)
Fixpoint reduce (function : value -> string -> M value)
    (iterable : list string) (initial : value) : M value :=
  match iterable with
  | [] => ret initial
  | x :: rest => let* acc := function initial x in reduce function rest acc
  end.

(** The [while imported_mod is None and module_parts] loop of
    [import_callable].  It returns [imported_mod] and [attribute_parts] as
    they stand when the loop exits. *)
Equations? find_module (module_parts attribute_parts : list string)
    : M (option string * list string) by wf (length module_parts) lt :=
find_module [] attribute_parts := ret (None, attribute_parts);
find_module (p :: ps) attribute_parts :=
  try_except
    (let* imported_mod := import_module (PyStr.join "." (p :: ps)) in
     ret (Some imported_mod, attribute_parts))
    is_module_not_found
    (fun _ => find_module (List.removelast (p :: ps))
                          (List.last (p :: ps) EmptyString :: attribute_parts)).
Proof.
  clear. revert p. induction ps as [|q ps IH]; intros p; simpl in *.
  - lia.
  - specialize (IH q). lia.
Qed.

Definition import_callable (python_path : string) : M value :=
  let module_parts := PyStr.split "." python_path in
  let* (imported_mod, attribute_parts) := find_module module_parts [] in
  match imported_mod with
  | Some m => reduce getattr attribute_parts (VModule m)
  | None =>
      let* _ := import_module python_path in
      reduce getattr attribute_parts VNone
  end.

End Resolver.

(** ** Calling a Python callable *)

Module Call.

Definition quote (name : string) : string := "'" +.+ name +.+ "'".

(** The list of names at the end of CPython's "missing arguments" message:
    ['a'], ['a' and 'b'], ['a', 'b', and 'c']. *)
Fixpoint format_more (names : list string) : string :=
  match names with
  | [] => EmptyString
  | [z] => "and " +.+ quote z
  | a :: rest => quote a +.+ ", " +.+ format_more rest
  end.

Definition format_names (names : list string) : string :=
  match names with
  | [] => EmptyString
  | [a] => quote a
  | [a; b] => quote a +.+ " and " +.+ quote b
  | _ => format_more names
  end.

Definition plural (n : nat) : string := if Nat.eqb n 1 then EmptyString else "s".

Definition missing_message (qualname : string) (names : list string) : string :=
  qualname +.+ "() missing " +.+ PyStr.of_nat (length names)
    +.+ " required positional argument" +.+ plural (length names) +.+ ": "
    +.+ format_names names.

Definition unexpected_message (qualname key : string) : string :=
  qualname +.+ "() got an unexpected keyword argument " +.+ quote key.

Definition multiple_message (qualname key : string) : string :=
  qualname +.+ "() got multiple values for argument " +.+ quote key.

Definition too_many_message (f : pyfunc) (given : nat) : string :=
  let total := length (fn_params f) in
  let defaults := length (filter (fun p => snd p) (fn_params f)) in
  let sig := if Nat.eqb defaults 0 then PyStr.of_nat total
             else "from " +.+ PyStr.of_nat (total - defaults) +.+ " to " +.+ PyStr.of_nat total in
  fn_qualname f +.+ "() takes " +.+ sig +.+ " positional argument" +.+ plural total
    +.+ " but " +.+ PyStr.of_nat given
    +.+ (if Nat.eqb given 1 then " was" else " were") +.+ " given".

Definition has_param (f : pyfunc) (k : string) : bool :=
  existsb (String.eqb k) (map fst (fn_params f)).

(** Keyword arguments are bound in the order given; the first one that
    names no parameter, or a parameter already filled, raises. *)
Fixpoint bind_keywords (f : pyfunc) (bound : dict) (kwargs : dict) : result dict :=
  match kwargs with
  | [] => Return bound
  | (k, v) :: rest =>
      if has_param f k then
        if dict_contains bound k then Raise (TypeError (multiple_message (fn_qualname f) k))
        else bind_keywords f (bound ++ [(k, v)]) rest
      else if fn_var_keyword f then bind_keywords f (bound ++ [(k, v)]) rest
      else Raise (TypeError (unexpected_message (fn_qualname f) k))
  end.

(** The required parameters left without a value. *)
Definition missing (f : pyfunc) (bound : dict) : list string :=
  map fst (filter (fun p => negb (snd p) && negb (dict_contains bound (fst p)))
                  (fn_params f)).

(** Argument binding, in CPython's order of checks: keyword arguments,
    then too many positional arguments, then missing ones. *)
Definition bind_arguments (f : pyfunc) (args : list value) (kwargs : dict) : result dict :=
  let positional := combine (map fst (fn_params f)) args in
  match bind_keywords f positional kwargs with
  | Raise e => Raise e
  | Return bound =>
      if (length (fn_params f) <? length args)%nat
      then Raise (TypeError (too_many_message f (length args)))
      else match missing f bound with
           | [] => Return bound
           | names => Raise (TypeError (missing_message (fn_qualname f) names))
           end
  end.

Definition call_function (f : pyfunc) (args : list value) (kwargs : dict) : result value :=
  match bind_arguments f args kwargs with
  | Raise e => Raise e
  | Return bound => fn_body f bound
  end.

Section WithHost.
Variable host : Host.

Definition not_iterable (v : value) : exn :=
  TypeError ("'" +.+ type_name v +.+ "' object is not iterable").

(** [d.update(other)] *)
Definition update (d : dict) (other : value) : result dict :=
  match other with
  | VDict o => Return (dict_update d o)
  | VStr _ | VList _ | VTuple _ => host_update_from_sequence host d other
  | _ => Raise (not_iterable other)
  end.

(** The builtin [dict], called with positional and keyword arguments. *)
Definition builtin_dict (args : list value) (kwargs : dict) : result value :=
  match args with
  | [] => Return (VDict kwargs)
  | [x] => match update [] x with
           | Return d => Return (VDict (dict_update d kwargs))
           | Raise e => Raise e
           end
  | _ => Raise (TypeError ("dict expected at most 1 argument, got "
                           +.+ PyStr.of_nat (length args)))
  end.

(** [callable(obj)] *)
Definition callable (obj : value) : bool :=
  match obj with
  | VCallable _ | VBuiltinDict => true
  | _ => false
  end.

(** A call of [f] with positional and keyword arguments. *)
Definition call (f : value) (args : list value) (kwargs : dict) : M value :=
  perform (EvCall f args kwargs)
    match f with
    | VCallable q => call_function (host_function host q) args kwargs
    | VBuiltinDict => builtin_dict args kwargs
    | _ => Raise (TypeError ("'" +.+ type_name f +.+ "' object is not callable"))
    end.

(** [obj[key]] *)
Definition getitem (obj : value) (key : string) : M value :=
  match obj with
  | VDict d => match dict_get d key with
               | Some v => ret v
               | None => raise (KeyError key)
               end
  | _ => ([], host_getitem host obj key)
  end.

End WithHost.

End Call.

(** ** [SettingsObject] *)

Module SettingsObject.

Record t : Type := {
  class : string;
  name : string;
  user_settings : value
}.

Definition to_value (self : t) : value :=
  VSettingsObject (class self) (name self) (user_settings self).

Section WithHost.
Variable host : Host.

(** [getattr(settings, name, {})] after [from django.conf import settings] *)
Definition django_setting (name : string) : M value :=
  let* found := perform (EvDjangoSetting name) (host_django_setting host name) in
  ret (match found with Some v => v | None => VDict [] end).

(** [cls(name, user_settings)] for a class that inherits
    [SettingsObject.__init__]. *)
Definition __init__ (cls name : string) (user_settings : value) : M t :=
  let* user_settings :=
    match user_settings with
    | VNone => django_setting name
    | _ => ret user_settings
    end in
  ret {| class := cls; name := name; user_settings := user_settings |}.

End WithHost.

End SettingsObject.

(** ** [Setting] *)

Module Setting.

(** The [default] argument: the sentinel [NO_DEFAULT], which is no value a
    user can write, or a Python value ([None] included). *)
Inductive default_arg : Type :=
| NO_DEFAULT
| Default (v : value).

Record t : Type := {
  name : string;
  default : default_arg
}.

Definition is_key_error (e : exn) : bool :=
  match e with KeyError _ => true | _ => false end.

Section WithHost.
Variable host : Host.

Definition _get_default (self : t) (instance : SettingsObject.t) : M value :=
  match default self with
  | NO_DEFAULT =>
      raise (ImproperlyConfigured
               ("Required setting: " +.+ SettingsObject.name instance +.+ "." +.+ name self))
  | Default d =>
      if Call.callable d then
        try_except (Call.call host d [SettingsObject.to_value instance] [])
          is_type_error
          (fun _ => Call.call host d [] [])
      else ret d
  end.

(** [instance] is [None] when the setting is read on the class. *)
Definition __get__ (self : t) (instance : option SettingsObject.t) : M value :=
  match instance with
  | None => raise (TypeError "Settings cannot be accessed as class attributes")
  | Some instance =>
      try_except
        (Call.getitem host (SettingsObject.user_settings instance) (name self))
        is_key_error
        (fun _ => _get_default self instance)
  end.

Definition __set__ (self : t) (instance : option SettingsObject.t) (v : value) : M unit :=
  raise (AttributeError "Settings are read-only").

End WithHost.

End Setting.

(** ** [MergedDictSetting] *)

Module MergedDictSetting.

Record t : Type := {
  name : string;
  defaults : dict
}.

(** [super().__init__(default = dict)] *)
Definition super (self : t) : Setting.t :=
  {| Setting.name := name self; Setting.default := Setting.Default VBuiltinDict |}.

Section WithHost.
Variable host : Host.

Definition __get__ (self : t) (instance : option SettingsObject.t) : M value :=
  let merged := defaults self in
  let* raw := Setting.__get__ host (super self) instance in
  let* merged := ([], Call.update host merged raw) in
  ret (VDict merged).

End WithHost.

End MergedDictSetting.

(** ** [NestedSetting] *)

Module NestedSetting.

(** [settings_class] names a subclass of [SettingsObject] that keeps the
    inherited constructor. *)
Record t : Type := {
  name : string;
  settings_class : string
}.

Definition super (self : t) : Setting.t :=
  {| Setting.name := name self; Setting.default := Setting.Default VBuiltinDict |}.

Section WithHost.
Variable host : Host.

(** The arguments of [settings_class(...)] are evaluated left to right:
    [instance.name] is read before [super().__get__] runs. *)
Definition __get__ (self : t) (instance : option SettingsObject.t) : M value :=
  match instance with
  | None => raise (AttributeError "'NoneType' object has no attribute 'name'")
  | Some owner =>
      let nested_name := SettingsObject.name owner +.+ "." +.+ name self in
      let* raw := Setting.__get__ host (super self) instance in
      let* nested := SettingsObject.__init__ host (settings_class self) nested_name raw in
      ret (SettingsObject.to_value nested)
  end.

End WithHost.

End NestedSetting.

(** ** [ImportStringSetting] *)

Module ImportStringSetting.

Section WithHost.
Variable host : Host.

(** [import_callable(v)] for the value found in the settings: only a
    [str] has the [split] method the resolver starts with. *)
Definition import_value (python_path : value) : M value :=
  match python_path with
  | VStr s => import_callable host s
  | other => raise (AttributeError
                      ("'" +.+ type_name other +.+ "' object has no attribute 'split'"))
  end.

Definition __get__ (self : Setting.t) (instance : option SettingsObject.t) : M value :=
  let* python_path := Setting.__get__ host self instance in
  import_value python_path.

End WithHost.

End ImportStringSetting.

(** ** [ObjectFactorySetting] *)

Module ObjectFactorySetting.

(** *** The three patterns applied to the message of a [TypeError]

    The classes [\d] and [\w] of the patterns are [PyStr.is_digit] and
    [PyStr.is_word]: the functions below are the searches of [re] on a
    message of ASCII characters. *)

Definition INVALID_ARG_MATCH : string := "got an unexpected keyword argument".

(** [s] without the prefix [p], when it has it. *)
Fixpoint strip_prefix (p s : string) : option string :=
  match p, s with
  | EmptyString, _ => Some s
  | String a p', String b s' => if Ascii.eqb a b then strip_prefix p' s' else None
  | String _ _, EmptyString => None
  end.

Fixpoint skip_digits (s : string) : string :=
  match s with
  | EmptyString => EmptyString
  | String c rest => if PyStr.is_digit c then skip_digits rest else s
  end.

(** A match of [MISSING_ARG_REGEX], that is of
    [missing \d+ required positional arguments?: ], at the start of [s].
    The text after [\d+] starts with a space and the text after [s?] with
    a colon, so the longest run of digits and the optional [s] are the
    only candidates. *)
Definition match_missing_arg (s : string) : bool :=
  match strip_prefix "missing " s with
  | Some (String c rest) =>
      PyStr.is_digit c &&
      match strip_prefix " required positional argument" (skip_digits rest) with
      | Some t =>
          match strip_prefix "s" t with
          | Some t' => String.prefix ": " t'
          | None => String.prefix ": " t
          end
      | None => false
      end
  | _ => false
  end.

(** [re.search(MISSING_ARG_REGEX, message)] finds a match. *)
Fixpoint search_missing_arg (message : string) : bool :=
  match_missing_arg message ||
  match message with
  | EmptyString => false
  | String _ rest => search_missing_arg rest
  end.

(** The matches of [ARG_NAME_REGEX], that is of ['(\w+)'], read left to
    right.  [pending] is [Some w] after an opening quote followed by the
    word characters [w]. *)
Fixpoint scan_arg_names (s : string) (pending : option string) : list string :=
  match s with
  | EmptyString => []
  | String c rest =>
      match pending with
      | None =>
          scan_arg_names rest (if Ascii.eqb c "'" then Some EmptyString else None)
      | Some w =>
          if PyStr.is_word c then scan_arg_names rest (Some (w +.+ String c EmptyString))
          else if Ascii.eqb c "'" then
            match w with
            | EmptyString => scan_arg_names rest (Some EmptyString)
            | _ => w :: scan_arg_names rest None
            end
          else scan_arg_names rest None
      end
  end.

(** [re.findall(ARG_NAME_REGEX, message)] *)
Definition findall_arg_name (message : string) : list string :=
  scan_arg_names message None.

(** [re.search(ARG_NAME_REGEX, message)]: the first match, or [None]. *)
Definition search_arg_name (message : string) : option string :=
  match findall_arg_name message with
  | [] => None
  | name :: _ => Some name
  end.

Section WithHost.
Variable host : Host.

(** The [except TypeError as exc] handler around the call of the factory. *)
Definition on_type_error (prefix : string) (exc : exn) : M value :=
  match exc with
  | TypeError message =>
      if search_missing_arg message then
        let required :=
          map (fun name => prefix +.+ ".PARAMS." +.+ PyStr.upper name)
              (findall_arg_name message) in
        raise (ImproperlyConfigured
                 ("Required setting(s): " +.+ PyStr.join ", " required))
      else if PyStr.contains INVALID_ARG_MATCH message then
        match search_arg_name message with
        | Some name =>
            raise (ImproperlyConfigured
                     ("Invalid setting: " +.+ prefix +.+ ".PARAMS." +.+ PyStr.upper name))
        | None =>
            raise (AttributeError "'NoneType' object has no attribute 'group'")
        end
      else raise exc
  | _ => raise exc
  end.

(** The call of the factory with the keyword arguments [kwargs], inside
    its [try] block. *)
Definition invoke (factory : value) (kwargs : dict) (prefix : string) : M value :=
  try_except (Call.call host factory [] kwargs) is_type_error (on_type_error prefix).

(** [_process_item].  The recursion is on the structure of [item]; the
    value under [PARAMS] is looked up by the local function [params] so
    that the recursive calls stay on sub-terms of [item]. *)
Fixpoint _process_item (item : value) (prefix : string) {struct item} : M value :=
  match item with
  | VDict d =>
      if dict_contains d "FACTORY" then
        let* factory :=
          match dict_get d "FACTORY" with
          | Some python_path => ImportStringSetting.import_value host python_path
          | None => raise (KeyError "FACTORY")
          end in
        let* kwargs :=
          (fix params (entries : list (string * value)) : M dict :=
             match entries with
             | [] => ret []
             | (key, v) :: rest =>
                 if String.eqb key "PARAMS" then
                   match v with
                   | VDict ps =>
                       (fix each (items : list (string * value)) (kwargs : dict) : M dict :=
                          match items with
                          | [] => ret kwargs
                          | (k, v) :: items' =>
                              let* r := _process_item v (prefix +.+ ".PARAMS." +.+ k) in
                              each items' (dict_set kwargs (PyStr.lower k) r)
                          end) ps []
                   | other =>
                       raise (AttributeError
                                ("'" +.+ type_name other +.+ "' object has no attribute 'items'"))
                   end
                 else params rest
             end) d in
        invoke factory kwargs prefix
      else
        let* processed :=
          (fix each (items : list (string * value)) (acc : dict) : M dict :=
             match items with
             | [] => ret acc
             | (k, v) :: items' =>
                 let* r := _process_item v (prefix +.+ "." +.+ k) in
                 each items' (dict_set acc k r)
             end) d [] in
        ret (VDict processed)
  | VList l | VTuple l =>
      let* processed :=
        (fix each (elements : list value) (i : nat) : M (list value) :=
           match elements with
           | [] => ret []
           | v :: elements' =>
               let* r := _process_item v (prefix +.+ "[" +.+ PyStr.of_nat i +.+ "]") in
               let* rs := each elements' (S i) in
               ret (r :: rs)
           end) l 0%nat in
      ret (VList processed)
  | other => ret other
  end.

Definition __get__ (self : Setting.t) (instance : option SettingsObject.t) : M value :=
  let* raw := Setting.__get__ host self instance in
  match instance with
  | Some owner =>
      _process_item raw (SettingsObject.name owner +.+ "." +.+ Setting.name self)
  | None => raise (AttributeError "'NoneType' object has no attribute 'name'")
  end.

End WithHost.

End ObjectFactorySetting.

(** ** A sample host, for running the functions on concrete inputs *)

Module Sample.

Definition bound_or_none (bound : dict) (k : string) : value :=
  match dict_get bound k with Some v => v | None => VNone end.

(** [def connect(host, port)] *)
Definition connect : pyfunc := {|
  fn_qualname := "connect";
  fn_params := [("host", false); ("port", false)];
  fn_var_keyword := false;
  fn_body bound := Return (VInstance "Connection" bound)
|}.

(** The code of the callables of the sample package [pkg]. *)
Definition functions (qualname : string) : pyfunc :=
  if String.eqb qualname "make" then
    (* def make(host, port, timeout=30) *)
    {| fn_qualname := "make";
       fn_params := [("host", false); ("port", false); ("timeout", true)];
       fn_var_keyword := false;
       fn_body bound := Return (VInstance "Made" bound) |}
  else if String.eqb qualname "Serializer" then
    (* class Serializer: def __init__(self, fmt="json") *)
    {| fn_qualname := "Serializer.__init__";
       fn_params := [("fmt", true)];
       fn_var_keyword := false;
       fn_body bound := Return (VInstance "Serializer" bound) |}
  else if String.eqb qualname "Cache" then
    (* class Cache: def __init__(self, serializer) *)
    {| fn_qualname := "Cache.__init__";
       fn_params := [("serializer", false)];
       fn_var_keyword := false;
       fn_body bound := Return (VInstance "Cache" bound) |}
  else if String.eqb qualname "open_connection" then
    (* def open_connection(host): return connect(host) *)
    {| fn_qualname := "open_connection";
       fn_params := [("host", false)];
       fn_var_keyword := false;
       fn_body bound := Call.call_function connect [bound_or_none bound "host"] [] |}
  else if String.eqb qualname "owner_name" then
    (* def owner_name(settings): return settings.name *)
    {| fn_qualname := "owner_name";
       fn_params := [("settings", false)];
       fn_var_keyword := false;
       fn_body bound :=
         match bound_or_none bound "settings" with
         | VSettingsObject _ name _ => Return (VStr name)
         | other => Raise (AttributeError
                             ("'" +.+ type_name other +.+ "' object has no attribute 'name'"))
         end |}
  else if String.eqb qualname "seven" then
    (* def seven(): return 7 *)
    {| fn_qualname := "seven";
       fn_params := [];
       fn_var_keyword := false;
       fn_body _ := Return (VInt 7) |}
  else
    (* def broken(settings): return 1 + settings.name *)
    {| fn_qualname := "broken";
       fn_params := [("settings", false)];
       fn_var_keyword := false;
       fn_body _ := Raise (TypeError "unsupported operand type(s) for +: 'int' and 'str'") |}.

Definition host : Host := {|
  host_import_module name :=
    if String.eqb name "pkg" then Return "pkg"
    else if String.eqb name "pkg.mod" then Return "pkg.mod"
    else Raise (ModuleNotFoundError ("No module named '" +.+ name +.+ "'"));
  host_getattr obj attr :=
    match obj with
    | VModule "pkg" =>
        if String.eqb attr "make" then Return (VCallable "make")
        else if String.eqb attr "Serializer" then Return (VCallable "Serializer")
        else if String.eqb attr "Cache" then Return (VCallable "Cache")
        else if String.eqb attr "open_connection" then Return (VCallable "open_connection")
        else Raise (AttributeError ("module 'pkg' has no attribute '" +.+ attr +.+ "'"))
    | VModule "pkg.mod" =>
        if String.eqb attr "Class" then Return (VCallable "Class")
        else Raise (AttributeError ("module 'pkg.mod' has no attribute '" +.+ attr +.+ "'"))
    | VCallable "Class" =>
        if String.eqb attr "method" then Return (VCallable "Class.method")
        else Raise (AttributeError
                      ("type object 'Class' has no attribute '" +.+ attr +.+ "'"))
    | _ => Raise (AttributeError
                    ("'" +.+ type_name obj +.+ "' object has no attribute '" +.+ attr +.+ "'"))
    end;
  host_function := functions;
  host_django_setting _ := Return None;
  host_update_from_sequence d _ := Return d;
  host_getitem obj _ :=
    Raise (TypeError ("'" +.+ type_name obj +.+ "' object is not subscriptable"))
|}.

Definition ROOT (user_settings : dict) : SettingsObject.t :=
  {| SettingsObject.class := "SettingsObject";
     SettingsObject.name := "ROOT";
     SettingsObject.user_settings := VDict user_settings |}.

End Sample.

(** ** The same accessors over a store of shared objects

    [Setting.__get__] and [MergedDictSetting.__get__] hand out and update
    objects that other parts of a program hold too: the settings object, its
    [user_settings] dictionary, the [defaults] dictionary of a merged
    setting.  In this module those objects live in a store and are named by
    their location, a value may be a reference, [d.copy()] allocates and
    [d.update(other)] writes at the location of [d], so that what an access
    changes can be stated. *)

Module Store.

Import stdpp.base stdpp.gmap.

Definition loc : Type := nat.

Inductive sval : Type :=
| SNone
| SBool (b : bool)
| SInt (n : Z)
| SStr (s : string)
| SRef (l : loc)
| SBuiltinDict
| SCallable (qualname : string).

Inductive object : Type :=
| ODict (items : list (string * sval))
| OList (items : list sval)
| OTuple (items : list sval)
| OSettings (cls name : string) (user_settings : sval).

Abbreviation store := (gmap loc object).

(** A computation reads and writes the store; the store survives an
    exception. *)
Definition S (A : Type) : Type := store -> result A * store.

Definition ret {A} (a : A) : S A := fun h => (Return a, h).
Definition raise {A} (e : exn) : S A := fun h => (Raise e, h).

Definition bind {A B} (m : S A) (k : A -> S B) : S B :=
  fun h => match m h with
           | (Return a, h') => k a h'
           | (Raise e, h') => (Raise e, h')
           end.

Definition try_except {A} (m : S A) (catches : exn -> bool) (handler : exn -> S A) : S A :=
  fun h => match m h with
           | (Return a, h') => (Return a, h')
           | (Raise e, h') => if catches e then handler e h' else (Raise e, h')
           end.

Declare Scope store_scope.
Notation "'let*' x ':=' m 'in' k" := (bind m (fun x => k))
  (at level 10, x pattern, m at level 100, k at level 200) : store_scope.
Local Open Scope store_scope.

(** A new object, at a location not in use. *)
Definition alloc (o : object) : S loc :=
  fun h => let l := fresh (dom h) in (Return l, <[l := o]> h).

Definition type_name (h : store) (v : sval) : string :=
  match v with
  | SNone => "NoneType"
  | SBool _ => "bool"
  | SInt _ => "int"
  | SStr _ => "str"
  | SBuiltinDict => "type"
  | SCallable _ => "function"
  | SRef l =>
      match h !! l with
      | Some (ODict _) => "dict"
      | Some (OList _) => "list"
      | Some (OTuple _) => "tuple"
      | Some (OSettings cls _ _) => cls
      | None => "object"
      end
  end.

Record Host : Type := {
  (** a call of a user-defined callable: it may read and write the store *)
  host_call : string -> list sval -> S sval;
  (** [d.update(seq)] for a [str], [list] or [tuple] argument: the items
      of [d] when the update stops, and the exception if it stops early *)
  host_update_from_sequence :
    store -> list (string * sval) -> sval -> list (string * sval) * option exn;
  (** [obj[key]] for an object that is not a [dict] *)
  host_getitem : store -> sval -> string -> result sval
}.

Section WithHost.
Variable host : Host.

Definition not_iterable (h : store) (v : sval) : exn :=
  TypeError ("'" +.+ type_name h v +.+ "' object is not iterable").

(** [merged.update(other)] for the dictionary at location [merged]. *)
Definition update (merged : loc) (other : sval) : S unit :=
  fun h =>
    match h !! merged with
    | Some (ODict items) =>
        let from_sequence :=
          match host_update_from_sequence host h items other with
          | (items', None) => (Return tt, <[merged := ODict items']> h)
          | (items', Some e) => (Raise e, <[merged := ODict items']> h)
          end in
        match other with
        | SStr _ => from_sequence
        | SRef l =>
            match h !! l with
            | Some (ODict o) => (Return tt, <[merged := ODict (dict_update items o)]> h)
            | Some (OList _) | Some (OTuple _) => from_sequence
            | _ => (Raise (not_iterable h other), h)
            end
        | _ => (Raise (not_iterable h other), h)
        end
    | _ => (Raise (AttributeError "object has no attribute 'update'"), h)
    end.

(** [d.copy()] for the dictionary at location [d]. *)
Definition copy (d : loc) : S loc :=
  fun h =>
    match h !! d with
    | Some (ODict items) => alloc (ODict items) h
    | _ => (Raise (AttributeError "object has no attribute 'copy'"), h)
    end.

(** The builtin [dict], called with positional arguments. *)
Definition builtin_dict (args : list sval) : S sval :=
  match args with
  | [] => let* d := alloc (ODict []) in ret (SRef d)
  | [x] =>
      let* d := alloc (ODict []) in
      let* _ := update d x in
      ret (SRef d)
  | _ => raise (TypeError ("dict expected at most 1 argument, got "
                           +.+ PyStr.of_nat (length args)))
  end.

Definition callable (v : sval) : bool :=
  match v with
  | SBuiltinDict | SCallable _ => true
  | _ => false
  end.

Definition call (f : sval) (args : list sval) : S sval :=
  match f with
  | SBuiltinDict => builtin_dict args
  | SCallable q => host_call host q args
  | _ => fun h => (Raise (TypeError ("'" +.+ type_name h f +.+ "' object is not callable")), h)
  end.

(** [obj[key]] *)
Definition getitem (obj : sval) (key : string) : S sval :=
  fun h =>
    match obj with
    | SRef l =>
        match h !! l with
        | Some (ODict d) =>
            match dict_get d key with
            | Some v => (Return v, h)
            | None => (Raise (KeyError key), h)
            end
        | _ => (host_getitem host h obj key, h)
        end
    | _ => (host_getitem host h obj key, h)
    end.

(** [instance.user_settings] and [instance.name] *)
Definition user_settings_of (instance : loc) : S sval :=
  fun h =>
    match h !! instance with
    | Some (OSettings _ _ us) => (Return us, h)
    | _ => (Raise (AttributeError "object has no attribute 'user_settings'"), h)
    end.

Definition name_of (instance : loc) : S string :=
  fun h =>
    match h !! instance with
    | Some (OSettings _ name _) => (Return name, h)
    | _ => (Raise (AttributeError "object has no attribute 'name'"), h)
    end.

End WithHost.

Module Setting.

Inductive default_arg : Type :=
| NO_DEFAULT
| Default (v : sval).

Record t : Type := {
  name : string;
  default : default_arg
}.

Section WithHost.
Variable host : Host.

Definition _get_default (self : t) (instance : loc) : S sval :=
  match default self with
  | NO_DEFAULT =>
      let* owner := name_of instance in
      raise (ImproperlyConfigured
               ("Required setting: " +.+ owner +.+ "." +.+ name self))
  | Default d =>
      if callable d then
        try_except (call host d [SRef instance])
          is_type_error
          (fun _ => call host d [])
      else ret d
  end.

Definition __get__ (self : t) (instance : option loc) : S sval :=
  match instance with
  | None => raise (TypeError "Settings cannot be accessed as class attributes")
  | Some instance =>
      try_except
        (let* us := user_settings_of instance in getitem host us (name self))
        Setting.is_key_error
        (fun _ => _get_default self instance)
  end.

End WithHost.

End Setting.

Module MergedDictSetting.

(** [defaults] is the location of the dictionary given to the
    constructor. *)
Record t : Type := {
  name : string;
  defaults : loc
}.

Definition super (self : t) : Setting.t :=
  {| Setting.name := name self; Setting.default := Setting.Default SBuiltinDict |}.

Section WithHost.
Variable host : Host.

Definition __get__ (self : t) (instance : option loc) : S sval :=
  let* merged := copy (defaults self) in
  let* raw := Setting.__get__ host (super self) instance in
  let* _ := update host merged raw in
  ret (SRef merged).

End WithHost.

End MergedDictSetting.


(** A sample store: the settings object [ROOT] at location 0, its raw
    mapping at 1, the user's mapping for the setting [M] at 2 and the
    declared defaults of [M] at 3. *)
Module SampleStore.

Definition host : Host := {|
  host_call _ _ := ret SNone;
  host_update_from_sequence _ items _ := (items, None);
  host_getitem h obj _ :=
    Raise (TypeError ("'" +.+ type_name h obj +.+ "' object is not subscriptable"))
|}.

Definition objects : store :=
  <[3%nat := ODict [("A", SInt 1); ("B", SInt 2)]]>
  (<[2%nat := ODict [("B", SInt 3); ("C", SInt 4)]]>
  (<[1%nat := ODict [("M", SRef 2)]]>
  (<[0%nat := OSettings "SettingsObject" "ROOT" (SRef 1)]> ∅))).

Definition M_setting : MergedDictSetting.t :=
  {| MergedDictSetting.name := "M"; MergedDictSetting.defaults := 3%nat |}.

End SampleStore.

End Store.

(** ** [SettingsObject.__init__] and [NestedSetting.__get__] over the store *)

Module StoreNested.

Import stdpp.base stdpp.gmap.
Import Store.
Local Open Scope store_scope.

Record t : Type := {
  name : string;
  settings_class : string
}.

Definition super (self : t) : Setting.t :=
  {| Setting.name := name self; Setting.default := Setting.Default SBuiltinDict |}.

Section WithHost.

Variable host : Host.

(** [from django.conf import settings]: the exception, if the import
    fails. *)
Variable django_import : store -> option exn.

(** [getattr(settings, name, default)], on the current store. *)
Variable django_getattr : string -> sval -> store -> result sval.

(** [cls(name, user_settings)] for a class that inherits
    [SettingsObject.__init__]: the new object, with its two attributes set.
    The dictionary display that is the default of [getattr] is evaluated,
    hence allocated, after the import and before the call. *)
Definition __init__ (cls name : string) (user_settings : sval) : S loc :=
  let* user_settings :=
    match user_settings with
    | SNone =>
        let* _ := (fun h => match django_import h with
                            | Some e => (Raise e, h)
                            | None => (Return tt, h)
                            end) in
        let* empty := alloc (ODict []) in
        fun h => (django_getattr name (SRef empty) h, h)
    | _ => ret user_settings
    end in
  alloc (OSettings cls name user_settings).

(** [instance.name] is read first, then the inherited accessor runs, then
    the class is called. *)
Definition __get__ (self : t) (instance : option loc) : S sval :=
  match instance with
  | None => raise (AttributeError "'NoneType' object has no attribute 'name'")
  | Some owner =>
      let* owner_name := name_of owner in
      let* raw := Setting.__get__ host (super self) instance in
      let* nested := __init__ (settings_class self) (owner_name +.+ "." +.+ name self) raw in
      ret (SRef nested)
  end.

End WithHost.

(** The sample store of [Store.SampleStore] with a nested mapping [SUB] at
    location 5, held by the raw mapping at location 4 of a settings object
    [ROOT] at location 6. *)
Definition objects : store :=
  <[6%nat := OSettings "SettingsObject" "ROOT" (SRef 4)]>
  (<[5%nat := ODict [("X", SInt 1)]]>
  (<[4%nat := ODict [("SUB", SRef 5)]]> SampleStore.objects)).

Definition SUB : t := {| name := "SUB"; settings_class := "SubSettings" |}.

End StoreNested.

(** ** Notions used to state the properties *)

(** The module name tried after [j] segments have been moved from the
    module part to the attribute part. *)
Definition attempt (segments : list string) (j : nat) : string :=
  PyStr.join "." (firstn (length segments - j) segments).

(** The import of [name] fails because there is no such module. *)
Definition not_found (host : Host) (name : string) : Prop :=
  exists msg, host_import_module host name = Raise (ModuleNotFoundError msg).

Definition prepend {A} (t : list event) (m : M A) : M A := (t ++ fst m, snd m).

(** Sequential attribute lookup, left to right, from [obj]. *)
Fixpoint lookup_chain (host : Host) (obj : value) (parts : list string) : result value :=
  match parts with
  | [] => Return obj
  | attr :: rest =>
      match host_getattr host obj attr with
      | Return v => lookup_chain host v rest
      | Raise e => Raise e
      end
  end.


(** The call of [f] with the positional arguments [args] fails before the
    body runs, because the arguments do not fit the parameters. *)
Definition arity_mismatch (host : Host) (f : value) (args : list value) : bool :=
  match f with
  | VCallable q =>
      match Call.bind_arguments (host_function host q) args [] with
      | Raise _ => true
      | Return _ => false
      end
  | VBuiltinDict => (1 <? length args)%nat
  | _ => false
  end.

(** The message of the error raised for a required setting that is absent. *)
Definition required_message (instance : SettingsObject.t) (self : Setting.t) : string :=
  "Required setting: " +.+ SettingsObject.name instance +.+ "." +.+ Setting.name self.

(** The three comprehensions of [_process_item] and the lookup of [PARAMS],
    as functions of their own. *)
Section ProcessNotions.

Variable host : Host.
Variable prefix : string.

(** The keyword arguments built from the items of [PARAMS]. *)
Fixpoint process_params (items : dict) (kwargs : dict) : M dict :=
  match items with
  | [] => ret kwargs
  | (k, v) :: items' =>
      let* r := ObjectFactorySetting._process_item host v (prefix +.+ ".PARAMS." +.+ k) in
      process_params items' (dict_set kwargs (PyStr.lower k) r)
  end.

(** [item.get('PARAMS', {}).items()], processed. *)
Definition factory_kwargs (d : dict) : M dict :=
  match dict_get d "PARAMS" with
  | None => ret []
  | Some (VDict ps) => process_params ps []
  | Some other =>
      raise (AttributeError
               ("'" +.+ type_name other +.+ "' object has no attribute 'items'"))
  end.

(** The values of a dictionary without [FACTORY], processed. *)
Fixpoint process_values (items : dict) (acc : dict) : M dict :=
  match items with
  | [] => ret acc
  | (k, v) :: items' =>
      let* r := ObjectFactorySetting._process_item host v (prefix +.+ "." +.+ k) in
      process_values items' (dict_set acc k r)
  end.

(** The elements of a list or tuple, processed; [i] is the index of the
    first one. *)
Fixpoint process_elements (elements : list value) (i : nat)
    : M (list value) :=
  match elements with
  | [] => ret []
  | v :: elements' =>
      let* r := ObjectFactorySetting._process_item host v
                  (prefix +.+ "[" +.+ PyStr.of_nat i +.+ "]") in
      let* rs := process_elements elements' (S i) in
      ret (r :: rs)
  end.

End ProcessNotions.

(** The path label of the element of index [i] under [prefix]. *)
Definition element_prefix (prefix : string) (i : nat) : string :=
  prefix +.+ "[" +.+ PyStr.of_nat i +.+ "]".

(** Nodes that are neither a mapping nor a sequence. *)
Definition is_leaf (item : value) : bool :=
  match item with
  | VDict _ | VList _ | VTuple _ => false
  | _ => true
  end.

(** Data without factory specifications, whose dictionaries have each key
    once. *)
Fixpoint plain_data (item : value) : bool :=
  match item with
  | VDict d =>
      negb (dict_contains d "FACTORY") &&
      (fix keys_once (items : list (string * value)) : bool :=
         match items with
         | [] => true
         | (k, v) :: rest =>
             negb (existsb (String.eqb k) (map fst rest)) && plain_data v && keys_once rest
         end) d
  | VList l | VTuple l =>
      (fix all (items : list value) : bool :=
         match items with
         | [] => true
         | v :: rest => plain_data v && all rest
         end) l
  | _ => true
  end.

(** The same data with every tuple replaced by the list of its elements. *)
Fixpoint tuples_to_lists (item : value) : value :=
  match item with
  | VDict d =>
      VDict ((fix each (items : list (string * value)) : list (string * value) :=
                match items with
                | [] => []
                | (k, v) :: rest => (k, tuples_to_lists v) :: each rest
                end) d)
  | VList l | VTuple l =>
      VList ((fix each (items : list value) : list value :=
                match items with
                | [] => []
                | v :: rest => tuples_to_lists v :: each rest
                end) l)
  | other => other
  end.

(** Whether a value contains a tuple. *)
Fixpoint has_tuple (item : value) : bool :=
  match item with
  | VTuple _ => true
  | VDict d =>
      (fix any (items : list (string * value)) : bool :=
         match items with
         | [] => false
         | (_, v) :: rest => has_tuple v || any rest
         end) d
  | VList l =>
      (fix any (items : list value) : bool :=
         match items with
         | [] => false
         | v :: rest => has_tuple v || any rest
         end) l
  | _ => false
  end.

(** The path label of the value under the key [k] of [PARAMS]. *)
Definition param_prefix (prefix k : string) : string := prefix +.+ ".PARAMS." +.+ k.

(** The element of index [fst iv] of a sequence, [snd iv], is processed into
    [r]. *)
Definition element_result (host : Host) (prefix : string)
    (iv : nat * value) (r : value) : Prop :=
  outcome (ObjectFactorySetting._process_item host (snd iv)
             (element_prefix prefix (fst iv))) = Return r.

(** Each key once, and plain values. *)
Fixpoint keys_once (items : list (string * value)) : bool :=
  match items with
  | [] => true
  | (k, v) :: rest =>
      negb (existsb (String.eqb k) (map fst rest)) && plain_data v && keys_once rest
  end.


(** Plain data are processed into themselves, tuples apart. *)
Definition plain_result (host : Host) (item : value) : Prop :=
  plain_data item = true ->
  forall prefix,
    ObjectFactorySetting._process_item host item prefix
    = ([], Return (tuples_to_lists item)).

(** *** Induction on values, with the elements of dictionaries and sequences *)

Section ValueInduction.

Variable P : value -> Prop.

Hypothesis P_none : P VNone.
Hypothesis P_bool : forall b, P (VBool b).
Hypothesis P_int : forall n, P (VInt n).
Hypothesis P_str : forall s, P (VStr s).
Hypothesis P_dict : forall items, Forall (fun kv => P (snd kv)) items -> P (VDict items).
Hypothesis P_list : forall items, Forall P items -> P (VList items).
Hypothesis P_tuple : forall items, Forall P items -> P (VTuple items).
Hypothesis P_module : forall name, P (VModule name).
Hypothesis P_callable : forall q, P (VCallable q).
Hypothesis P_builtin_dict : P VBuiltinDict.
Hypothesis P_instance : forall cls attrs, P (VInstance cls attrs).
Hypothesis P_settings : forall cls name us, P (VSettingsObject cls name us).

Fixpoint value_nested_ind (v : value) : P v :=
  match v with
  | VNone => P_none
  | VBool b => P_bool b
  | VInt n => P_int n
  | VStr s => P_str s
  | VDict items =>
      P_dict items
        ((fix each (l : list (string * value)) : Forall (fun kv => P (snd kv)) l :=
            match l with
            | [] => Forall_nil _
            | (k, x) :: rest =>
                @Forall_cons _ (fun kv => P (snd kv)) (k, x) rest
                  (value_nested_ind x) (each rest)
            end) items)
  | VList items =>
      P_list items
        ((fix each (l : list value) : Forall P l :=
            match l with
            | [] => Forall_nil _
            | x :: rest => @Forall_cons _ P x rest (value_nested_ind x) (each rest)
            end) items)
  | VTuple items =>
      P_tuple items
        ((fix each (l : list value) : Forall P l :=
            match l with
            | [] => Forall_nil _
            | x :: rest => @Forall_cons _ P x rest (value_nested_ind x) (each rest)
            end) items)
  | VModule name => P_module name
  | VCallable q => P_callable q
  | VBuiltinDict => P_builtin_dict
  | VInstance cls attrs => P_instance cls attrs
  | VSettingsObject cls name us => P_settings cls name us
  end.

End ValueInduction.


(** Properties of names and messages. *)

Fixpoint all_chars (p : ascii -> bool) (s : string) : bool :=
  match s with
  | EmptyString => true
  | String c rest => p c && all_chars p rest
  end.

(** A Python identifier, in ASCII: a word that is not empty. *)
Definition identifier (s : string) : bool :=
  match s with
  | EmptyString => false
  | _ => all_chars PyStr.is_word s
  end.

Definition no_quote (s : string) : bool :=
  all_chars (fun c => negb (Ascii.eqb c "'")) s.

Definition no_space (s : string) : bool :=
  all_chars (fun c => negb (Ascii.eqb c " ")) s.

(** The qualified name of a function has neither a quote nor a space. *)
Definition plain_name (s : string) : bool := no_quote s && no_space s.

(** Some space of [s] is followed by a digit. *)
Fixpoint space_then_digit (s : string) : bool :=
  match s with
  | EmptyString => false
  | String a rest =>
      match rest with
      | String b _ => Ascii.eqb a " " && PyStr.is_digit b
      | EmptyString => false
      end || space_then_digit rest
  end.

(** ** Notions used by the further properties *)

(** The event is an attribute lookup. *)
Definition is_getattr (ev : event) : Prop := exists obj attr, ev = EvGetattr obj attr.

(** The value [snd kv] under the key [fst kv] of a mapping without
    [FACTORY] is processed into [r]. *)
Definition value_result (host : Host) (prefix : string)
    (kv : string * value) (r : value) : Prop :=
  outcome (ObjectFactorySetting._process_item host (snd kv) (prefix +.+ "." +.+ fst kv))
  = Return r.

(** ** Comprehensions *)

(** A comprehension whose element expressions are the computations [ms]:
    they run in order, the first exception ends the comprehension, and the
    results are collected in that order. *)
Fixpoint comprehension {A} (ms : list (M A)) : M (list A) :=
  match ms with
  | [] => ret []
  | m :: ms' =>
      let* r := m in
      let* rs := comprehension ms' in
      ret (r :: rs)
  end.

(** The dictionary that holds the items [items], stored in that order: a
    later item replaces the value of an equal key and keeps its place. *)
Definition dict_of_items (items : list (string * value)) : dict :=
  fold_left (fun acc kv => dict_set acc (fst kv) (snd kv)) items [].

(** The computation [m] returns [snd tr] after the log [fst tr]. *)
Definition returns {A} (m : M A) (tr : list event * A) : Prop :=
  m = (fst tr, Return (snd tr)).

(** Every key of the mapping is made of ASCII characters. *)
Definition ascii_keys (d : dict) : bool :=
  forallb (fun kv => PyStr.is_ascii (fst kv)) d.

(** * Properties *)

(** ** The monad *)

Lemma outcome_bind {A B} (m : M A) (k : A -> M B) :
  outcome (bind m k) =
  match outcome m with Return a => outcome (k a) | Raise e => Raise e end.
Proof.
  destruct m as [t [a|e]]; simpl; [|reflexivity]. now destruct (k a).
Qed.

Lemma trace_bind {A B} (m : M A) (k : A -> M B) :
  trace_of (bind m k) =
  trace_of m ++ match outcome m with Return a => trace_of (k a) | Raise _ => [] end.
Proof.
  destruct m as [t [a|e]]; simpl; [|now rewrite app_nil_r]. now destruct (k a).
Qed.

Lemma M_eq {A} (m : M A) : m = (trace_of m, outcome m).
Proof. now destruct m. Qed.

(** ** The dotted-path resolver *)

Section ResolverFacts.
Variable host : Host.

Lemma split_not_nil sep s : PyStr.split sep s <> [].
Proof.
  destruct s as [|c s]; simpl; [discriminate|].
  destruct (Ascii.eqb c sep); [discriminate|].
  destruct (PyStr.split sep s); discriminate.
Qed.

Lemma join_split s : PyStr.join "." (PyStr.split "." s) = s.
Proof.
  unfold PyStr.join.
  induction s as [|c s IH]; [reflexivity|].
  pose proof (split_not_nil "." s) as Hn.
  simpl PyStr.split. destruct (Ascii.eqb c ".") eqn:E.
  - apply Ascii.eqb_eq in E. subst c.
    destruct (PyStr.split "." s) as [|w ws]; [contradiction|].
    change (String.concat "." (EmptyString :: w :: ws))
      with (String "." (String.concat "." (w :: ws))).
    now rewrite IH.
  - destruct (PyStr.split "." s) as [|w ws]; [contradiction|].
    destruct ws as [|w' ws].
    + simpl in *. now rewrite IH.
    + change (String.concat "." (String c w :: w' :: ws))
        with (String c (String.concat "." (w :: w' :: ws))).
      now rewrite IH.
Qed.

Lemma find_module_step parts attrs :
  parts <> [] ->
  find_module host parts attrs =
  match host_import_module host (PyStr.join "." parts) with
  | Return m => ([EvImport (PyStr.join "." parts)], Return (Some m, attrs))
  | Raise e =>
      if is_module_not_found e
      then prepend [EvImport (PyStr.join "." parts)]
             (find_module host (removelast parts) (last parts EmptyString :: attrs))
      else ([EvImport (PyStr.join "." parts)], Raise e)
  end.
Proof.
  destruct parts as [|p ps]; [congruence|]. intros _.
  rewrite find_module_equation_2.
  unfold try_except, bind, import_module, perform, prepend.
  destruct (host_import_module host _) as [m|e]; [reflexivity|].
  destruct (is_module_not_found e); [|reflexivity].
  now destruct (find_module host _ _).
Qed.

Lemma attempt_0 parts : attempt parts 0 = PyStr.join "." parts.
Proof. unfold attempt. now rewrite Nat.sub_0_r, firstn_all. Qed.

Lemma length_removelast (parts : list string) :
  length (removelast parts) = length parts - 1.
Proof. rewrite removelast_firstn_len, length_firstn. lia. Qed.

Lemma attempt_removelast parts j :
  j < length (removelast parts) ->
  attempt (removelast parts) j = attempt parts (S j).
Proof.
  intros Hj. unfold attempt. pose proof (length_removelast parts) as Hl.
  rewrite firstn_removelast by lia. f_equal. f_equal. lia.
Qed.

Lemma attempts_shift parts n :
  n <= length (removelast parts) ->
  map (attempt parts) (seq 0 (S n)) =
  PyStr.join "." parts :: map (attempt (removelast parts)) (seq 0 n).
Proof.
  intros Hn. change (seq 0 (S n)) with (0 :: seq 1 n).
  rewrite <- seq_shift, map_cons, map_map, attempt_0. f_equal.
  apply map_ext_in. intros j Hj. apply in_seq in Hj.
  symmetry. apply attempt_removelast. lia.
Qed.

Lemma find_module_found k : forall parts attrs m,
  k < length parts ->
  (forall j, j < k -> not_found host (attempt parts j)) ->
  host_import_module host (attempt parts k) = Return m ->
  find_module host parts attrs =
    (map EvImport (map (attempt parts) (seq 0 (S k))),
     Return (Some m, skipn (length parts - k) parts ++ attrs)).
Proof.
  induction k as [|k IH]; intros parts attrs m Hk Hnf Hm.
  - rewrite find_module_step by (destruct parts; [simpl in Hk; lia|discriminate]).
    rewrite attempt_0 in Hm. rewrite Hm.
    rewrite Nat.sub_0_r, skipn_all. simpl. now rewrite attempt_0.
  - assert (Hne : parts <> []) by (destruct parts; [simpl in Hk; lia|discriminate]).
    pose proof (length_removelast parts) as Hl.
    rewrite find_module_step by exact Hne.
    destruct (Hnf 0) as [msg H0]; [lia|].
    rewrite attempt_0 in H0. rewrite H0.
    simpl is_module_not_found. cbv iota.
    rewrite (IH (removelast parts) (last parts EmptyString :: attrs) m).
    + unfold prepend. cbn [fst snd]. rewrite (attempts_shift parts (S k)) by lia.
      f_equal. f_equal. f_equal.
      pose proof (app_removelast_last EmptyString Hne) as Hsplit.
      set (init := removelast parts) in *. set (final := last parts EmptyString) in *.
      clearbody init final. subst parts. rewrite length_app in *. simpl in Hl, Hk.
      rewrite skipn_app.
      replace (length init + length [final] - S k - length init) with 0 by (simpl; lia).
      cbn [skipn]. rewrite <- app_assoc. f_equal. f_equal. simpl. lia.
    + lia.
    + intros j Hj. rewrite attempt_removelast by lia. apply Hnf. lia.
    + rewrite attempt_removelast by lia. exact Hm.
Qed.

Lemma find_module_exhausted n : forall parts attrs,
  length parts = n ->
  (forall j, j < n -> not_found host (attempt parts j)) ->
  find_module host parts attrs =
    (map EvImport (map (attempt parts) (seq 0 n)), Return (None, parts ++ attrs)).
Proof.
  induction n as [|n IH]; intros parts attrs Hlen Hnf.
  - destruct parts; [|discriminate]. now rewrite find_module_equation_1.
  - assert (Hne : parts <> []) by (destruct parts; [discriminate|discriminate]).
    pose proof (length_removelast parts) as Hl.
    rewrite find_module_step by exact Hne.
    destruct (Hnf 0) as [msg H0]; [lia|].
    rewrite attempt_0 in H0. rewrite H0.
    simpl is_module_not_found. cbv iota.
    rewrite (IH (removelast parts) (last parts EmptyString :: attrs)).
    + unfold prepend. cbn [fst snd]. rewrite (attempts_shift parts n) by lia.
      f_equal. f_equal. f_equal.
      pose proof (app_removelast_last EmptyString Hne) as Hsplit.
      set (init := removelast parts) in *. set (final := last parts EmptyString) in *.
      clearbody init final. subst parts. now rewrite <- app_assoc.
    + lia.
    + intros j Hj. rewrite attempt_removelast by lia. apply Hnf. lia.
Qed.

Lemma reduce_getattr_outcome parts : forall obj,
  outcome (reduce (getattr host) parts obj) = lookup_chain host obj parts.
Proof.
  induction parts as [|a rest IH]; intros obj; [reflexivity|].
  cbn [reduce lookup_chain]. rewrite outcome_bind.
  change (outcome (getattr host obj a)) with (host_getattr host obj a).
  destruct (host_getattr host obj a) as [v|e]; [apply IH|reflexivity].
Qed.

Lemma lookup_chain_app done : forall obj rest,
  lookup_chain host obj (done ++ rest) =
  match lookup_chain host obj done with
  | Return v => lookup_chain host v rest
  | Raise e => Raise e
  end.
Proof.
  induction done as [|a done IH]; intros obj rest; [reflexivity|].
  simpl. destruct (host_getattr host obj a); [apply IH|reflexivity].
Qed.
End ResolverFacts.

(** C1. [import_callable] splits the path on dots and tries to import the
    module named by the whole list of segments, then by the list without its
    last segment, and so on, as long as the attempts fail with "module not
    found".  When the attempt with [k] segments moved to the attribute part
    succeeds, the result is the sequential attribute lookup of the remaining
    segments, left to right, from the imported module; a segment missing on
    the object reached raises that object's [AttributeError].  When every
    attempt fails, the path itself is imported once more and the
    [ModuleNotFoundError] of that import, an [ImportError], is raised. *)
Theorem import_callable_resolution (host : Host) (python_path : string) :
  let segments := PyStr.split "." python_path in
  attempt segments 0 = python_path /\
  (forall k m,
     k < length segments ->
     (forall j, j < k -> not_found host (attempt segments j)) ->
     host_import_module host (attempt segments k) = Return m ->
     let suffix := skipn (length segments - k) segments in
     firstn (length segments - k) segments ++ suffix = segments /\
     trace_of (import_callable host python_path) =
       map EvImport (map (attempt segments) (seq 0 (S k)))
       ++ trace_of (reduce (getattr host) suffix (VModule m)) /\
     outcome (import_callable host python_path) = lookup_chain host (VModule m) suffix /\
     (forall done obj attr rest msg,
        suffix = done ++ attr :: rest ->
        lookup_chain host (VModule m) done = Return obj ->
        host_getattr host obj attr = Raise (AttributeError msg) ->
        outcome (import_callable host python_path) = Raise (AttributeError msg))) /\
  ((forall j, j < length segments -> not_found host (attempt segments j)) ->
   exists msg,
     host_import_module host python_path = Raise (ModuleNotFoundError msg) /\
     is_import_error (ModuleNotFoundError msg) = true /\
     import_callable host python_path =
       (map EvImport (map (attempt segments) (seq 0 (length segments)) ++ [python_path]),
        Raise (ModuleNotFoundError msg))).
Proof.
  intros segments.
  assert (H0 : attempt segments 0 = python_path).
  { rewrite attempt_0. apply join_split. }
  split; [exact H0|]. split.
  - intros k m Hk Hnf Hm suffix.
    assert (Hrun : import_callable host python_path =
                   prepend (map EvImport (map (attempt segments) (seq 0 (S k))))
                           (reduce (getattr host) suffix (VModule m))).
    { unfold import_callable. fold segments.
      rewrite (find_module_found host k segments [] m Hk Hnf Hm).
      rewrite app_nil_r. fold suffix. unfold bind, prepend.
      now destruct (reduce (getattr host) suffix (VModule m)). }
    assert (Hout : outcome (import_callable host python_path)
                   = lookup_chain host (VModule m) suffix).
    { rewrite Hrun. unfold prepend, outcome. cbn [snd].
      apply reduce_getattr_outcome. }
    repeat split.
    + apply firstn_skipn.
    + now rewrite Hrun.
    + exact Hout.
    + intros done obj attr rest msg Hs Hdone Hattr.
      rewrite Hout, Hs, lookup_chain_app, Hdone. simpl. now rewrite Hattr.
  - intros Hnf.
    destruct (Hnf 0) as [msg Hmsg]; [pose proof (split_not_nil "." python_path);
      fold segments in H; destruct segments; [congruence|simpl; lia]|].
    rewrite H0 in Hmsg. exists msg. repeat split; [exact Hmsg|].
    unfold import_callable. fold segments.
    rewrite (find_module_exhausted host (length segments) segments [] eq_refl Hnf).
    unfold bind, import_module, perform. rewrite Hmsg. now rewrite map_app.
Qed.

Lemma import_callable_resolution_witness :
  outcome (import_callable Sample.host "pkg.mod.Class.method")
    = Return (VCallable "Class.method") /\
  outcome (import_callable Sample.host "pkg.mod.Class.nope")
    = Raise (AttributeError "type object 'Class' has no attribute 'nope'") /\
  exists msg,
    outcome (import_callable Sample.host "nope.mod") = Raise (ModuleNotFoundError msg).
Proof.
  split; [|split].
  - destruct (import_callable_resolution Sample.host "pkg.mod.Class.method")
      as (_ & Hfound & _).
    destruct (Hfound 2 "pkg.mod") as (_ & _ & Hout & _).
    + simpl; lia.
    + intros [|[|j]] Hj; [eexists; reflexivity|eexists; reflexivity|lia].
    + reflexivity.
    + exact Hout.
  - destruct (import_callable_resolution Sample.host "pkg.mod.Class.nope")
      as (_ & Hfound & _).
    destruct (Hfound 2 "pkg.mod") as (_ & _ & _ & Hattr).
    + simpl; lia.
    + intros [|[|j]] Hj; [eexists; reflexivity|eexists; reflexivity|lia].
    + reflexivity.
    + apply (Hattr ["Class"] (VCallable "Class") "nope" []); reflexivity.
  - destruct (import_callable_resolution Sample.host "nope.mod") as (_ & _ & Hnone).
    destruct Hnone as (msg & _ & _ & Hrun).
    + intros [|[|j]] Hj; [eexists; reflexivity|eexists; reflexivity|simpl in Hj; lia].
    + exists msg. now rewrite Hrun.
Defined.

(** ** Dictionaries *)

Section DictFacts.

Context {V : Type}.
Implicit Types d other : list (string * V).

Lemma dict_get_set d k v k' :
  dict_get (dict_set d k v) k' = if String.eqb k k' then Some v else dict_get d k'.
Proof.
  induction d as [|[k0 v0] d IH]; simpl.
  - reflexivity.
  - destruct (String.eqb k0 k) eqn:E0; simpl.
    + apply String.eqb_eq in E0. subst k0.
      destruct (String.eqb k k'); reflexivity.
    + destruct (String.eqb k0 k') eqn:E1.
      * apply String.eqb_eq in E1. subst k0.
        rewrite String.eqb_sym in E0. now rewrite E0.
      * exact IH.
Qed.

Lemma dict_get_absent d k : ~ In k (map fst d) -> dict_get d k = None.
Proof.
  induction d as [|[k0 v0] d IH]; simpl; intros Hk; [reflexivity|].
  destruct (String.eqb k0 k) eqn:E.
  - apply String.eqb_eq in E. tauto.
  - apply IH. tauto.
Qed.

(** After [d.update(other)], a key of [other] has the value [other] gives
    it and every other key has the value it had in [d]. *)
Lemma dict_get_update other : forall d k,
  NoDup (map fst other) ->
  dict_get (dict_update d other) k =
  match dict_get other k with
  | Some v => Some v
  | None => dict_get d k
  end.
Proof.
  unfold dict_update.
  induction other as [|[k0 v0] other IH]; intros d k Hnd; simpl; [reflexivity|].
  inversion Hnd as [|? ? Hnotin Hnd']; subst.
  rewrite IH by exact Hnd'. rewrite dict_get_set.
  destruct (String.eqb k0 k) eqn:E; [|reflexivity].
  apply String.eqb_eq in E. subst k0.
  now rewrite (dict_get_absent other k Hnotin).
Qed.

End DictFacts.

(** ** [Setting] *)

Lemma prefix_refl s : String.prefix s s = true.
Proof.
  induction s as [|c s IH]; simpl; [reflexivity|].
  now destruct (ascii_dec c c).
Qed.

Lemma contains_suffix sub pre : PyStr.contains sub (pre +.+ sub) = true.
Proof.
  induction pre as [|c pre IH].
  - destruct sub; simpl; [reflexivity|].
    rewrite prefix_refl. now destruct (ascii_dec a a).
  - change (String c pre +.+ sub) with (String c (pre +.+ sub)).
    cbn [PyStr.contains]. rewrite IH. apply orb_true_r.
Qed.

Section SettingFacts.

Variable host : Host.

Lemma Setting_get_absent self instance (d : dict) :
  SettingsObject.user_settings instance = VDict d ->
  dict_get d (Setting.name self) = None ->
  Setting.__get__ host self (Some instance) = Setting._get_default host self instance.
Proof.
  intros Hus Habs. unfold Setting.__get__, Call.getitem, try_except, raise.
  rewrite Hus, Habs. simpl.
  now destruct (Setting._get_default host self instance).
Qed.

Lemma Setting_get_present self instance (d : dict) v :
  SettingsObject.user_settings instance = VDict d ->
  dict_get d (Setting.name self) = Some v ->
  Setting.__get__ host self (Some instance) = ret v.
Proof.
  intros Hus Hv. unfold Setting.__get__, Call.getitem, try_except.
  now rewrite Hus, Hv.
Qed.

(** The two calls that the default [dict] of a merged or nested setting
    goes through: [dict(instance)] raises a [TypeError] and [dict()] gives
    the empty dictionary. *)
Lemma get_default_builtin_dict self instance :
  Setting.default self = Setting.Default VBuiltinDict ->
  Setting._get_default host self instance =
    ([EvCall VBuiltinDict [SettingsObject.to_value instance] [];
      EvCall VBuiltinDict [] []],
     Return (VDict [])).
Proof.
  intros Hd. unfold Setting._get_default. rewrite Hd. reflexivity.
Qed.

End SettingFacts.

(** C4. When the key of a setting is absent from the raw mapping of its
    owner: without a declared default the access raises the required-setting
    error, whose message contains the name of the owner, a dot and the name
    of the setting; with a declared default that is not a callable the access
    returns exactly that default, [None] included; and for such settings the
    access raises a configuration error if and only if no default was
    declared. *)
Theorem absent_key_default (host : Host) (self : Setting.t)
    (instance : SettingsObject.t) (d : dict) :
  SettingsObject.user_settings instance = VDict d ->
  dict_get d (Setting.name self) = None ->
  let access := Setting.__get__ host self (Some instance) in
  (Setting.default self = Setting.NO_DEFAULT ->
   access = ([], Raise (ImproperlyConfigured (required_message instance self)))) /\
  PyStr.contains (SettingsObject.name instance +.+ "." +.+ Setting.name self)
                 (required_message instance self) = true /\
  (forall v, Setting.default self = Setting.Default v -> Call.callable v = false ->
             access = ([], Return v)) /\
  (Setting.default self = Setting.Default VNone -> access = ([], Return VNone)) /\
  ((forall v, Setting.default self = Setting.Default v -> Call.callable v = false) ->
   ((exists msg, outcome access = Raise (ImproperlyConfigured msg)) <->
    Setting.default self = Setting.NO_DEFAULT)).
Proof.
  intros Hus Habs access. unfold access.
  rewrite (Setting_get_absent host self instance d Hus Habs).
  unfold Setting._get_default.
  assert (Hstatic : forall v, Setting.default self = Setting.Default v ->
                    Call.callable v = false ->
                    match Setting.default self with
                    | Setting.NO_DEFAULT =>
                        raise (ImproperlyConfigured
                                 ("Required setting: " +.+ SettingsObject.name instance
                                  +.+ "." +.+ Setting.name self))
                    | Setting.Default d0 =>
                        if Call.callable d0
                        then try_except
                               (Call.call host d0 [SettingsObject.to_value instance] [])
                               is_type_error (fun _ => Call.call host d0 [] [])
                        else ret d0
                    end = ([], Return v)).
  { intros v Hv Hc. now rewrite Hv, Hc. }
  split; [|split; [|split; [|split]]].
  - intros Hno. now rewrite Hno.
  - apply contains_suffix.
  - exact Hstatic.
  - intros Hnone. now apply Hstatic.
  - intros Hnc. split.
    + intros [msg Hmsg]. destruct (Setting.default self) as [|v] eqn:Hd; [reflexivity|].
      rewrite (Hnc v eq_refl) in Hmsg. discriminate Hmsg.
    + intros Hno. rewrite Hno. eexists. reflexivity.
Qed.

Lemma absent_key_default_witness :
  Setting.__get__ Sample.host
    {| Setting.name := "X"; Setting.default := Setting.Default VNone |}
    (Some (Sample.ROOT [("Y", VInt 1)])) = ([], Return VNone) /\
  Setting.__get__ Sample.host
    {| Setting.name := "X"; Setting.default := Setting.NO_DEFAULT |}
    (Some (Sample.ROOT [("Y", VInt 1)]))
  = ([], Raise (ImproperlyConfigured "Required setting: ROOT.X")).
Proof.
  split.
  - apply (absent_key_default Sample.host
             {| Setting.name := "X"; Setting.default := Setting.Default VNone |}
             (Sample.ROOT [("Y", VInt 1)]) [("Y", VInt 1)]); reflexivity.
  - apply (absent_key_default Sample.host
             {| Setting.name := "X"; Setting.default := Setting.NO_DEFAULT |}
             (Sample.ROOT [("Y", VInt 1)]) [("Y", VInt 1)]); reflexivity.
Defined.

Section DefaultFacts.

Variable host : Host.

Lemma bind_arguments_raises_type_error f args e :
  Call.bind_arguments f args [] = Raise e -> is_type_error e = true.
Proof.
  unfold Call.bind_arguments. cbn [Call.bind_keywords].
  destruct (length (fn_params f) <? length args)%nat; [now intros [= <-]|].
  destruct (Call.missing f _); [discriminate|now intros [= <-]].
Qed.

Lemma arity_mismatch_raises f args :
  arity_mismatch host f args = true ->
  exists msg, outcome (Call.call host f args []) = Raise (TypeError msg).
Proof.
  destruct f; try discriminate; cbn [arity_mismatch Call.call perform outcome snd].
  - unfold Call.call_function.
    destruct (Call.bind_arguments _ args []) as [bound|e] eqn:Hb; [discriminate|].
    intros _. apply bind_arguments_raises_type_error in Hb.
    destruct e; try discriminate. eauto.
  - destruct args as [|x [|y args]]; try discriminate.
    intros _. cbn [Call.builtin_dict]. eauto.
Qed.

End DefaultFacts.

(** C5, as the code has it.  When the key is absent and the declared default
    is a callable, the callable is first called with the owning settings
    object as its only argument.  The call without arguments follows exactly
    when that first call raises a [TypeError], whatever raised it: a mismatch
    between arguments and parameters does, and so does a [TypeError] from
    inside the callable.  Any other outcome of the first call is the outcome
    of the access. *)
Theorem callable_default_protocol (host : Host) (self : Setting.t)
    (instance : SettingsObject.t) (d : dict) (f : value) :
  SettingsObject.user_settings instance = VDict d ->
  dict_get d (Setting.name self) = None ->
  Setting.default self = Setting.Default f ->
  Call.callable f = true ->
  let owner := SettingsObject.to_value instance in
  let first := Call.call host f [owner] [] in
  let access := Setting.__get__ host self (Some instance) in
  (exists rest, trace_of access = EvCall f [owner] [] :: rest) /\
  (In (EvCall f [] []) (trace_of access) <->
   exists msg, outcome first = Raise (TypeError msg)) /\
  (forall msg, outcome first = Raise (TypeError msg) ->
     access = ([EvCall f [owner] []; EvCall f [] []], outcome (Call.call host f [] []))) /\
  ((forall msg, outcome first <> Raise (TypeError msg)) -> access = first) /\
  (arity_mismatch host f [owner] = true ->
   exists msg, outcome first = Raise (TypeError msg)).
Proof.
  intros Hus Habs Hd Hc owner first access. unfold access.
  rewrite (Setting_get_absent host self instance d Hus Habs).
  unfold Setting._get_default. rewrite Hd, Hc. fold owner.
  unfold try_except, Call.call, perform. cbn [outcome snd] in *.
  set (r1 := match f with
             | VCallable q => Call.call_function (host_function host q) [owner] []
             | VBuiltinDict => Call.builtin_dict host [owner] []
             | _ => Raise (TypeError ("'" +.+ type_name f +.+ "' object is not callable"))
             end).
  assert (Hfirst : outcome first = r1) by reflexivity.
  split; [|split; [|split; [|split]]].
  - destruct r1 as [v|e]; [eexists; reflexivity|].
    destruct (is_type_error e); eexists; reflexivity.
  - rewrite Hfirst. destruct r1 as [v|e].
    + split.
      * intros [Hin|[]]. discriminate Hin.
      * intros [msg Hmsg]. discriminate Hmsg.
    + destruct e; cbn [is_type_error trace_of fst app]; split;
        try (intros [Hin|[]]; discriminate Hin);
        try (intros [msg' Hmsg]; discriminate Hmsg).
      * intros _. eauto.
      * intros _. right. left. reflexivity.
  - intros msg Hmsg. rewrite Hfirst in Hmsg. rewrite Hmsg. reflexivity.
  - intros Hnot. rewrite Hfirst in Hnot. unfold first, Call.call, perform. fold r1.
    destruct r1 as [v|e]; [reflexivity|].
    destruct e; try reflexivity. now destruct (Hnot msg).
  - apply arity_mismatch_raises.
Qed.

Lemma callable_default_protocol_witness :
  Setting.__get__ Sample.host
    {| Setting.name := "X"; Setting.default := Setting.Default (VCallable "seven") |}
    (Some (Sample.ROOT []))
  = ([EvCall (VCallable "seven") [SettingsObject.to_value (Sample.ROOT [])] [];
      EvCall (VCallable "seven") [] []],
     Return (VInt 7)).
Proof.
  destruct (callable_default_protocol Sample.host
              {| Setting.name := "X"; Setting.default := Setting.Default (VCallable "seven") |}
              (Sample.ROOT []) [] (VCallable "seven"))
    as (_ & _ & Hretry & _); [reflexivity|reflexivity|reflexivity|reflexivity|].
  exact (Hretry "seven() takes 0 positional arguments but 1 was given" eq_refl).
Defined.

(** C5, as stated, fails: the default [dict] of a merged or nested setting
    takes one positional argument, so that its call with the settings object
    is no mismatch between arguments and parameters; that call raises a
    [TypeError] all the same, because a settings object is not iterable, and
    the call without arguments follows.  So does it for a function of one
    parameter whose body raises a [TypeError]. *)
Lemma retry_without_arity_mismatch :
  (arity_mismatch Sample.host VBuiltinDict [SettingsObject.to_value (Sample.ROOT [])] = false /\
   In (EvCall VBuiltinDict [] [])
      (trace_of (Setting.__get__ Sample.host
                   {| Setting.name := "M"; Setting.default := Setting.Default VBuiltinDict |}
                   (Some (Sample.ROOT []))))) /\
  (arity_mismatch Sample.host (VCallable "broken")
     [SettingsObject.to_value (Sample.ROOT [])] = false /\
   In (EvCall (VCallable "broken") [] [])
      (trace_of (Setting.__get__ Sample.host
                   {| Setting.name := "X";
                      Setting.default := Setting.Default (VCallable "broken") |}
                   (Some (Sample.ROOT []))))).
Proof.
  repeat split; simpl; auto.
Qed.

(** ** [MergedDictSetting] *)

(** C7. The result of an access to a merged-dictionary setting is the
    declared defaults with every key of the user's mapping applied on top:
    a key of the user's mapping has the user's value, any other key has its
    default.  When the key of the setting is absent the result is the
    declared defaults, so that the setting is optional. *)
Theorem merged_dict_overlay (host : Host) (self : MergedDictSetting.t)
    (instance : SettingsObject.t) (d : dict) :
  SettingsObject.user_settings instance = VDict d ->
  let access := MergedDictSetting.__get__ host self (Some instance) in
  (forall raw,
     dict_get d (MergedDictSetting.name self) = Some (VDict raw) ->
     access = ([], Return (VDict (dict_update (MergedDictSetting.defaults self) raw))) /\
     (NoDup (map fst raw) ->
      forall k,
        dict_get (dict_update (MergedDictSetting.defaults self) raw) k =
        match dict_get raw k with
        | Some v => Some v
        | None => dict_get (MergedDictSetting.defaults self) k
        end)) /\
  (dict_get d (MergedDictSetting.name self) = None ->
   outcome access = Return (VDict (MergedDictSetting.defaults self))).
Proof.
  intros Hus access. unfold access, MergedDictSetting.__get__. split.
  - intros raw Hraw.
    rewrite (Setting_get_present host (MergedDictSetting.super self) instance d
               (VDict raw) Hus Hraw).
    split; [reflexivity|]. intros Hnd k. now apply dict_get_update.
  - intros Habs.
    rewrite (Setting_get_absent host (MergedDictSetting.super self) instance d Hus Habs).
    rewrite (get_default_builtin_dict host (MergedDictSetting.super self) instance eq_refl).
    reflexivity.
Qed.

Lemma merged_dict_overlay_witness :
  MergedDictSetting.__get__ Sample.host
    {| MergedDictSetting.name := "M";
       MergedDictSetting.defaults := [("A", VInt 1); ("B", VInt 2)] |}
    (Some (Sample.ROOT [("M", VDict [("B", VInt 3); ("C", VInt 4)])]))
  = ([], Return (VDict [("A", VInt 1); ("B", VInt 3); ("C", VInt 4)])) /\
  outcome (MergedDictSetting.__get__ Sample.host
    {| MergedDictSetting.name := "M";
       MergedDictSetting.defaults := [("A", VInt 1); ("B", VInt 2)] |}
    (Some (Sample.ROOT [])))
  = Return (VDict [("A", VInt 1); ("B", VInt 2)]).
Proof.
  split.
  - destruct (merged_dict_overlay Sample.host
                {| MergedDictSetting.name := "M";
                   MergedDictSetting.defaults := [("A", VInt 1); ("B", VInt 2)] |}
                (Sample.ROOT [("M", VDict [("B", VInt 3); ("C", VInt 4)])])
                [("M", VDict [("B", VInt 3); ("C", VInt 4)])] eq_refl) as [Hpresent _].
    exact (proj1 (Hpresent [("B", VInt 3); ("C", VInt 4)] eq_refl)).
  - destruct (merged_dict_overlay Sample.host
                {| MergedDictSetting.name := "M";
                   MergedDictSetting.defaults := [("A", VInt 1); ("B", VInt 2)] |}
                (Sample.ROOT []) [] eq_refl) as [_ Habsent].
    exact (Habsent eq_refl).
Defined.

(** ** [NestedSetting] *)

(** C8, as the code has it.  An access to a nested setting returns a new
    settings object of the declared class whose name is the owner's name, a
    dot and the setting's name.  Its raw mapping is the value found under the
    setting's key, as it is, unless that value is [None]; it is the empty
    dictionary when the key is absent; and when the value found is [None] the
    constructor takes the mapping from Django's settings, under the name of
    the nested object, or the empty dictionary when Django has none. *)
Theorem nested_settings_object (host : Host) (self : NestedSetting.t)
    (owner : SettingsObject.t) (d : dict) :
  SettingsObject.user_settings owner = VDict d ->
  let access := NestedSetting.__get__ host self (Some owner) in
  let nested_name := SettingsObject.name owner +.+ "." +.+ NestedSetting.name self in
  let cls := NestedSetting.settings_class self in
  (forall raw,
     dict_get d (NestedSetting.name self) = Some raw -> raw <> VNone ->
     access = ([], Return (VSettingsObject cls nested_name raw))) /\
  (dict_get d (NestedSetting.name self) = None ->
   outcome access = Return (VSettingsObject cls nested_name (VDict []))) /\
  (dict_get d (NestedSetting.name self) = Some VNone ->
   access =
     ([EvDjangoSetting nested_name],
      match host_django_setting host nested_name with
      | Return (Some found) => Return (VSettingsObject cls nested_name found)
      | Return None => Return (VSettingsObject cls nested_name (VDict []))
      | Raise e => Raise e
      end)).
Proof.
  intros Hus access nested_name cls. unfold access, NestedSetting.__get__.
  fold nested_name. fold cls. split; [|split].
  - intros raw Hraw Hnone.
    rewrite (Setting_get_present host (NestedSetting.super self) owner d raw Hus Hraw).
    destruct raw; try reflexivity. congruence.
  - intros Habs.
    rewrite (Setting_get_absent host (NestedSetting.super self) owner d Hus Habs).
    rewrite (get_default_builtin_dict host (NestedSetting.super self) owner eq_refl).
    reflexivity.
  - intros Hnone.
    rewrite (Setting_get_present host (NestedSetting.super self) owner d VNone Hus Hnone).
    unfold SettingsObject.__init__, SettingsObject.django_setting, bind, ret, perform.
    destruct (host_django_setting host nested_name) as [[found|]|e]; reflexivity.
Qed.

Lemma nested_settings_object_witness :
  NestedSetting.__get__ Sample.host
    {| NestedSetting.name := "SUB"; NestedSetting.settings_class := "SubSettings" |}
    (Some (Sample.ROOT [("SUB", VDict [("X", VInt 1)])]))
  = ([], Return (VSettingsObject "SubSettings" "ROOT.SUB" (VDict [("X", VInt 1)]))).
Proof.
  destruct (nested_settings_object Sample.host
              {| NestedSetting.name := "SUB"; NestedSetting.settings_class := "SubSettings" |}
              (Sample.ROOT [("SUB", VDict [("X", VInt 1)])])
              [("SUB", VDict [("X", VInt 1)])] eq_refl) as [Hpresent _].
  apply (Hpresent (VDict [("X", VInt 1)]) eq_refl). discriminate.
Defined.

(** C8, as stated, fails when the value found under the key is [None]: the
    raw mapping of the nested object is then not that value. *)
Lemma nested_raw_mapping_not_the_raw_value :
  dict_get [("SUB", VNone)] "SUB" = Some VNone /\
  outcome (NestedSetting.__get__ Sample.host
             {| NestedSetting.name := "SUB"; NestedSetting.settings_class := "SubSettings" |}
             (Some (Sample.ROOT [("SUB", VNone)])))
  = Return (VSettingsObject "SubSettings" "ROOT.SUB" (VDict [])) /\
  VSettingsObject "SubSettings" "ROOT.SUB" (VDict [])
  <> VSettingsObject "SubSettings" "ROOT.SUB" VNone.
Proof.
  repeat split. discriminate.
Qed.

(** ** [ObjectFactorySetting._process_item] *)

Section ProcessFacts.

Variable host : Host.

Lemma process_item_sequence l prefix :
  ObjectFactorySetting._process_item host (VList l) prefix =
  let* processed := process_elements host prefix l 0 in ret (VList processed).
Proof. reflexivity. Qed.

Lemma process_item_tuple l prefix :
  ObjectFactorySetting._process_item host (VTuple l) prefix =
  ObjectFactorySetting._process_item host (VList l) prefix.
Proof. reflexivity. Qed.

Lemma process_item_mapping d prefix :
  dict_contains d "FACTORY" = false ->
  ObjectFactorySetting._process_item host (VDict d) prefix =
  let* processed := process_values host prefix d [] in ret (VDict processed).
Proof. intros Hf. cbn [ObjectFactorySetting._process_item]. rewrite Hf. reflexivity. Qed.

Lemma process_item_factory d prefix :
  dict_contains d "FACTORY" = true ->
  ObjectFactorySetting._process_item host (VDict d) prefix =
  let* factory :=
    match dict_get d "FACTORY" with
    | Some python_path => ImportStringSetting.import_value host python_path
    | None => raise (KeyError "FACTORY")
    end in
  let* kwargs := factory_kwargs host prefix d in
  ObjectFactorySetting.invoke host factory kwargs prefix.
Proof.
  intros Hf. cbn [ObjectFactorySetting._process_item]. rewrite Hf.
  f_equal.
  assert (Hk : forall entries,
    (fix params (entries : list (string * value)) : M dict :=
       match entries with
       | [] => ret []
       | (key, v) :: rest =>
           if String.eqb key "PARAMS" then
             match v with
             | VDict ps =>
                 (fix each (items : list (string * value)) (kwargs : dict) : M dict :=
                    match items with
                    | [] => ret kwargs
                    | (k, v) :: items' =>
                        let* r := ObjectFactorySetting._process_item host v
                                    (prefix +.+ ".PARAMS." +.+ k) in
                        each items' (dict_set kwargs (PyStr.lower k) r)
                    end) ps []
             | other =>
                 raise (AttributeError
                          ("'" +.+ type_name other +.+ "' object has no attribute 'items'"))
             end
           else params rest
       end) entries = factory_kwargs host prefix entries).
  { induction entries as [|[key v] rest IH]; [reflexivity|].
    unfold factory_kwargs. cbn [dict_get].
    destruct (String.eqb key "PARAMS"); [destruct v; reflexivity|exact IH]. }
  now rewrite Hk.
Qed.

Lemma process_item_leaf item prefix :
  is_leaf item = true ->
  ObjectFactorySetting._process_item host item prefix = ([], Return item).
Proof. destruct item; try discriminate; reflexivity. Qed.

End ProcessFacts.

Lemma bind_returns {A B} (m : M A) (k : A -> M B) t b :
  bind m k = (t, Return b) ->
  exists t1 a t2, m = (t1, Return a) /\ k a = (t2, Return b) /\ t = t1 ++ t2.
Proof.
  destruct m as [t1 [a|e]]; simpl; [|discriminate].
  destruct (k a) as [t2 r] eqn:Hk. intros [= <- ->]. now exists t1, a, t2.
Qed.

Lemma bind_ret {A B} (a : A) (k : A -> M B) : bind (ret a) k = k a.
Proof. unfold bind, ret. now destruct (k a). Qed.

Lemma bind_run {A B} (m : M A) (k : A -> M B) t1 a :
  m = (t1, Return a) -> bind m k = prepend t1 (k a).
Proof. intros ->. unfold bind, prepend. now destruct (k a). Qed.

Section ProcessResults.

Variable host : Host.
Variable prefix : string.

Local Abbreviation process := (ObjectFactorySetting._process_item host).

(** *** Sequences *)

Local Abbreviation element_result := (element_result host prefix).
Local Abbreviation param_prefix := (param_prefix prefix).

Lemma process_elements_results l : forall i rs,
  outcome (process_elements host prefix l i) = Return rs <->
  Forall2 element_result (combine (seq i (length l)) l) rs.
Proof.
  induction l as [|v l IH]; intros i rs; cbn [process_elements length seq combine].
  - split.
    + intros [= <-]. constructor.
    + intros H. inversion H. reflexivity.
  - rewrite outcome_bind. split.
    + destruct (outcome (process v _)) as [r|e] eqn:Hv; [|discriminate].
      rewrite outcome_bind.
      destruct (outcome (process_elements host prefix l (S i))) as [rs'|e] eqn:Hl;
        [|discriminate].
      intros [= <-]. constructor; [exact Hv|]. now apply IH.
    + intros H. inversion H as [|iv r ivs rs' Hr Hrs]; subst.
      unfold element_result, element_prefix in Hr. cbn [fst snd] in Hr. rewrite Hr.
      rewrite outcome_bind. apply IH in Hrs. now rewrite Hrs.
Qed.

Lemma process_sequence_results l x :
  outcome (process (VList l) prefix) = Return x <->
  exists rs, x = VList rs /\
             Forall2 element_result (combine (seq 0 (length l)) l) rs.
Proof.
  rewrite process_item_sequence, outcome_bind. split.
  - destruct (outcome (process_elements host prefix l 0)) as [rs|e] eqn:Hl; [|discriminate].
    intros [= <-]. exists rs. split; [reflexivity|]. now apply process_elements_results.
  - intros [rs [-> Hrs]]. apply process_elements_results in Hrs. now rewrite Hrs.
Qed.

(** *** The keyword arguments of a factory *)

Lemma process_params_untouched ps : forall acc t kwargs name,
  process_params host prefix ps acc = (t, Return kwargs) ->
  ~ In name (map (fun kv => PyStr.lower (fst kv)) ps) ->
  dict_get kwargs name = dict_get acc name.
Proof.
  induction ps as [|[k v] ps IH]; intros acc t kwargs name Hrun Hnot.
  - now injection Hrun as _ <-.
  - cbn [process_params] in Hrun.
    apply bind_returns in Hrun as (t1 & r & t2 & _ & Hrest & _).
    rewrite (IH _ _ _ name Hrest) by (simpl in Hnot; tauto).
    rewrite dict_get_set. destruct (String.eqb (PyStr.lower k) name) eqn:E; [|reflexivity].
    apply String.eqb_eq in E. simpl in Hnot. tauto.
Qed.

Lemma process_params_names ps : forall acc t kwargs,
  process_params host prefix ps acc = (t, Return kwargs) ->
  forall name,
    In name (map fst kwargs) <->
    In name (map fst acc) \/ In name (map (fun kv => PyStr.lower (fst kv)) ps).
Proof.
  assert (Hset : forall (d : dict) k r name,
             In name (map fst (dict_set d k r)) <-> In name (map fst d) \/ name = k).
  { induction d as [|[k1 v1] d IHd]; intros k r name; simpl.
    - split; [intros [ <- | [] ]; now right | intros [ [] | -> ]; now left].
    - destruct (String.eqb k1 k) eqn:E; simpl.
      + apply String.eqb_eq in E. subst k1. split; [tauto|].
        intros [H | ->]; [exact H|now left].
      + rewrite IHd. tauto. }
  induction ps as [|[k v] ps IH]; intros acc t kwargs Hrun name.
  - injection Hrun as _ <-. simpl. tauto.
  - cbn [process_params] in Hrun.
    apply bind_returns in Hrun as (t1 & r & t2 & _ & Hrest & _).
    rewrite (IH _ _ _ Hrest name), Hset. simpl.
    split; [intros [[H | ->] | H] | intros [H | [ <- | H]]]; auto.
Qed.

(** *** The call of the factory *)

Lemma on_type_error_trace exc :
  trace_of (ObjectFactorySetting.on_type_error prefix exc) = [].
Proof.
  unfold ObjectFactorySetting.on_type_error.
  destruct exc; try reflexivity.
  destruct (ObjectFactorySetting.search_missing_arg msg); [reflexivity|].
  destruct (PyStr.contains _ msg); [|reflexivity].
  now destruct (ObjectFactorySetting.search_arg_name msg).
Qed.

Lemma try_perform_trace {A} ev (r : result A) catches handler :
  (forall e, trace_of (handler e) = []) ->
  trace_of (try_except (perform ev r) catches handler) = [ev].
Proof.
  intros Hh. unfold try_except, perform. destruct r as [a|e]; [reflexivity|].
  destruct (catches e); [|reflexivity].
  specialize (Hh e). destruct (handler e) as [t r]. simpl in Hh. now subst t.
Qed.

Lemma invoke_trace factory kwargs :
  trace_of (ObjectFactorySetting.invoke host factory kwargs prefix)
  = [EvCall factory [] kwargs].
Proof.
  unfold ObjectFactorySetting.invoke, Call.call.
  apply try_perform_trace, on_type_error_trace.
Qed.

Lemma process_factory_run d python_path t0 factory t1 kwargs :
  dict_get d "FACTORY" = Some python_path ->
  ImportStringSetting.import_value host python_path = (t0, Return factory) ->
  factory_kwargs host prefix d = (t1, Return kwargs) ->
  process (VDict d) prefix =
    (t0 ++ t1 ++ [EvCall factory [] kwargs],
     outcome (ObjectFactorySetting.invoke host factory kwargs prefix)).
Proof.
  intros Hf Himp Hkw.
  rewrite process_item_factory by (unfold dict_contains; now rewrite Hf).
  rewrite Hf, (bind_run _ _ _ _ Himp), (bind_run _ _ _ _ Hkw).
  unfold prepend. cbn [fst snd]. fold (trace_of (ObjectFactorySetting.invoke host factory kwargs prefix)).
  rewrite invoke_trace. reflexivity.
Qed.

End ProcessResults.

(** *** Data without factory specifications *)

Lemma tuples_to_lists_sequence l :
  tuples_to_lists (VList l) = VList (map tuples_to_lists l) /\
  tuples_to_lists (VTuple l) = VList (map tuples_to_lists l).
Proof.
  cbn [tuples_to_lists].
  assert (H : (fix each (items : list value) : list value :=
                 match items with
                 | [] => []
                 | v :: rest => tuples_to_lists v :: each rest
                 end) l = map tuples_to_lists l).
  { induction l as [|v l IH]; [reflexivity|]. now rewrite IH. }
  now rewrite H.
Qed.

Lemma tuples_to_lists_mapping d :
  tuples_to_lists (VDict d) = VDict (map (fun kv => (fst kv, tuples_to_lists (snd kv))) d).
Proof.
  cbn [tuples_to_lists]. f_equal.
  induction d as [|[k v] d IH]; [reflexivity|]. now rewrite IH.
Qed.

Lemma plain_data_sequence l :
  plain_data (VList l) = forallb plain_data l /\
  plain_data (VTuple l) = forallb plain_data l.
Proof.
  cbn [plain_data].
  assert (H : (fix all (items : list value) : bool :=
                 match items with
                 | [] => true
                 | v :: rest => plain_data v && all rest
                 end) l = forallb plain_data l).
  { induction l as [|v l IH]; [reflexivity|]. simpl. now rewrite IH. }
  now rewrite H.
Qed.

Lemma plain_data_mapping d :
  plain_data (VDict d) = negb (dict_contains d "FACTORY") && keys_once d.
Proof.
  cbn [plain_data].
  assert (H : (fix keys_once (items : list (string * value)) : bool :=
                 match items with
                 | [] => true
                 | (k, v) :: rest =>
                     negb (existsb (String.eqb k) (map fst rest))
                     && plain_data v && keys_once rest
                 end) d = keys_once d).
  { induction d as [|[k v] d IH]; [reflexivity|]. simpl. now rewrite IH. }
  now rewrite H.
Qed.

Lemma dict_set_new {V} (d : list (string * V)) k v :
  ~ In k (map fst d) -> dict_set d k v = d ++ [(k, v)].
Proof.
  induction d as [|[k0 v0] d IH]; simpl; intros Hk; [reflexivity|].
  destruct (String.eqb k0 k) eqn:E.
  - apply String.eqb_eq in E. tauto.
  - rewrite IH by tauto. reflexivity.
Qed.

Lemma existsb_eqb_false k l :
  existsb (String.eqb k) l = false -> ~ In k l.
Proof.
  intros He Hin. assert (existsb (String.eqb k) l = true); [|congruence].
  apply existsb_exists. exists k. split; [exact Hin|apply String.eqb_refl].
Qed.

Section PlainData.

Variable host : Host.

Local Abbreviation process := (ObjectFactorySetting._process_item host).

Local Abbreviation plain_result := (plain_result host).

Lemma process_elements_plain l :
  Forall plain_result l -> forallb plain_data l = true ->
  forall prefix i,
    process_elements host prefix l i = ([], Return (map tuples_to_lists l)).
Proof.
  induction 1 as [|v l Hv Hl IH]; intros Hp prefix i; [reflexivity|].
  simpl in Hp. apply andb_prop in Hp as [Hpv Hpl].
  cbn [process_elements]. rewrite (Hv Hpv), (IH Hpl). reflexivity.
Qed.

Lemma process_values_plain d :
  Forall (fun kv => plain_result (snd kv)) d -> keys_once d = true ->
  forall prefix acc,
    (forall k, In k (map fst d) -> ~ In k (map fst acc)) ->
    process_values host prefix d acc =
      ([], Return (acc ++ map (fun kv => (fst kv, tuples_to_lists (snd kv))) d)).
Proof.
  induction 1 as [|[k v] d Hv Hd IH]; intros Hk prefix acc Hfresh.
  - simpl. now rewrite app_nil_r.
  - simpl in Hk. apply andb_prop in Hk as [Hk Hkd]. apply andb_prop in Hk as [Hnew Hpv].
    apply negb_true_iff, existsb_eqb_false in Hnew.
    cbn [process_values]. cbn [snd] in Hv. rewrite (Hv Hpv). cbn [bind app].
    rewrite IH.
    + rewrite dict_set_new by (apply Hfresh; now left).
      simpl. now rewrite <- app_assoc.
    + exact Hkd.
    + intros k' Hin. rewrite dict_set_new by (apply Hfresh; now left).
      rewrite map_app, in_app_iff. simpl. intros [Hacc|[<-|[]]].
      * apply (Hfresh k'); [now right|exact Hacc].
      * exact (Hnew Hin).
Qed.

Lemma process_plain_data item : plain_result item.
Proof.
  induction item using value_nested_ind; intros Hp prefix; try reflexivity.
  - rewrite plain_data_mapping in Hp. apply andb_prop in Hp as [Hf Hk].
    apply negb_true_iff in Hf.
    rewrite (process_item_mapping host items prefix Hf).
    rewrite (process_values_plain items H Hk prefix []) by (intros ? _ []).
    now rewrite tuples_to_lists_mapping.
  - rewrite (proj1 (plain_data_sequence items)) in Hp.
    rewrite process_item_sequence, (process_elements_plain items H Hp).
    now rewrite (proj1 (tuples_to_lists_sequence items)).
  - rewrite (proj2 (plain_data_sequence items)) in Hp.
    rewrite process_item_tuple, process_item_sequence,
      (process_elements_plain items H Hp).
    now rewrite (proj2 (tuples_to_lists_sequence items)).
Qed.

End PlainData.

Lemma tuples_to_lists_no_tuple item : has_tuple (tuples_to_lists item) = false.
Proof.
  induction item using value_nested_ind; try reflexivity.
  - rewrite tuples_to_lists_mapping. cbn [has_tuple].
    induction H as [|[k v] d Hv Hd IH]; [reflexivity|].
    simpl in *. now rewrite Hv, IH.
  - rewrite (proj1 (tuples_to_lists_sequence items)). cbn [has_tuple].
    induction H as [|v l Hv Hl IH]; [reflexivity|].
    simpl in *. now rewrite Hv, IH.
  - rewrite (proj2 (tuples_to_lists_sequence items)). cbn [has_tuple].
    induction H as [|v l Hv Hl IH]; [reflexivity|].
    simpl in *. now rewrite Hv, IH.
Qed.


(** ** Comprehensions *)

Lemma bind_assoc {A B C} (m : M A) (f : A -> M B) (g : B -> M C) :
  bind (bind m f) g = bind m (fun a => bind (f a) g).
Proof.
  destruct m as [t [a|e]]; [|reflexivity]. cbn [bind].
  destruct (f a) as [t1 [b|e1]]; cbn [bind]; [|reflexivity].
  destruct (g b) as [t2 r]. now rewrite app_assoc.
Qed.

Lemma bind_ext {A B} (m : M A) (f g : A -> M B) :
  (forall a, outcome m = Return a -> f a = g a) -> bind m f = bind m g.
Proof.
  destruct m as [t [a|e]]; [|reflexivity].
  intros H. cbn [bind]. now rewrite (H a eq_refl).
Qed.

Lemma comprehension_returns {A B} (f : A -> M B) xs trs :
  Forall2 (fun x tr => returns (f x) tr) xs trs ->
  comprehension (map f xs) = (concat (map fst trs), Return (map snd trs)).
Proof.
  induction 1 as [|x tr xs trs Hx _ IH]; [reflexivity|].
  cbn [map comprehension concat]. rewrite Hx, IH. cbn. now rewrite app_nil_r.
Qed.

Lemma comprehension_raises {A B} (f : A -> M B) xs1 trs x xs2 t e :
  Forall2 (fun x tr => returns (f x) tr) xs1 trs ->
  f x = (t, Raise e) ->
  comprehension (map f (xs1 ++ x :: xs2)) = (concat (map fst trs) ++ t, Raise e).
Proof.
  intros H Hx. induction H as [|x1 tr xs1 trs Hx1 _ IH].
  - cbn [app map comprehension concat]. now rewrite Hx.
  - cbn [app map comprehension concat]. rewrite Hx1, IH. cbn. now rewrite app_assoc.
Qed.

Lemma comprehension_outcome {A B} (f : A -> M B) xs rs :
  outcome (comprehension (map f xs)) = Return rs <->
  Forall2 (fun x r => outcome (f x) = Return r) xs rs.
Proof.
  revert rs. induction xs as [|x xs IH]; intros rs; cbn [map comprehension].
  - split; [intros [= <-]; constructor|intros H; now inversion H].
  - rewrite outcome_bind. split.
    + destruct (outcome (f x)) as [r|e] eqn:Hx; [|discriminate].
      rewrite outcome_bind.
      destruct (outcome (comprehension (map f xs))) as [rs'|e] eqn:Hxs; [|discriminate].
      intros [= <-]. constructor; [exact Hx|now apply IH].
    + intros H. inversion H as [|x' r xs' rs' Hr Hrs]; subst.
      rewrite Hr, outcome_bind. apply IH in Hrs. now rewrite Hrs.
Qed.

Lemma comprehension_length {A B} (f : A -> M B) xs rs :
  outcome (comprehension (map f xs)) = Return rs -> length rs = length xs.
Proof.
  intros H. apply comprehension_outcome, Forall2_length in H. now symmetry.
Qed.

Lemma keys_of_combine {A B} (ks : list A) (rs : list B) :
  length rs = length ks -> map fst (combine ks rs) = ks.
Proof.
  revert rs. induction ks as [|k ks IH]; intros [|r rs] Hl; try discriminate; [reflexivity|].
  cbn [combine map fst]. now rewrite IH by (simpl in Hl; lia).
Qed.

Lemma fold_dict_set_new (items : list (string * value)) : forall acc,
  NoDup (map fst acc ++ map fst items) ->
  fold_left (fun acc kv => dict_set acc (fst kv) (snd kv)) items acc = acc ++ items.
Proof.
  induction items as [|[k v] items IH]; intros acc Hnd; cbn [fold_left fst snd].
  - now rewrite app_nil_r.
  - cbn [map fst] in Hnd.
    rewrite dict_set_new.
    + rewrite IH; [now rewrite <- app_assoc|].
      rewrite map_app. cbn [map fst]. now rewrite <- app_assoc.
    + apply NoDup_remove_2 in Hnd. intros Hin. apply Hnd, in_or_app. now left.
Qed.

Lemma dict_of_items_nodup (items : list (string * value)) :
  NoDup (map fst items) -> dict_of_items items = items.
Proof. intros Hnd. unfold dict_of_items. now rewrite fold_dict_set_new. Qed.

Section ComprehensionFacts.

Variable host : Host.
Variable prefix : string.

Local Abbreviation process := (ObjectFactorySetting._process_item host).

Lemma process_params_comprehension ps : forall acc,
  process_params host prefix ps acc =
  let* rs := comprehension
               (map (fun kv => process (snd kv) (prefix +.+ ".PARAMS." +.+ fst kv)) ps) in
  ret (fold_left (fun acc kv => dict_set acc (fst kv) (snd kv))
                 (combine (map (fun kv => PyStr.lower (fst kv)) ps) rs) acc).
Proof.
  induction ps as [|[k v] ps IH]; intros acc; [reflexivity|].
  cbn [process_params map comprehension fst snd].
  rewrite bind_assoc. apply bind_ext. intros r _.
  rewrite IH, bind_assoc. apply bind_ext. intros rs _.
  now rewrite bind_ret.
Qed.

Lemma process_values_comprehension d : forall acc,
  process_values host prefix d acc =
  let* rs := comprehension
               (map (fun kv => process (snd kv) (prefix +.+ "." +.+ fst kv)) d) in
  ret (fold_left (fun acc kv => dict_set acc (fst kv) (snd kv))
                 (combine (map fst d) rs) acc).
Proof.
  induction d as [|[k v] d IH]; intros acc; [reflexivity|].
  cbn [process_values map comprehension fst snd].
  rewrite bind_assoc. apply bind_ext. intros r _.
  rewrite IH, bind_assoc. apply bind_ext. intros rs _.
  now rewrite bind_ret.
Qed.

Lemma process_elements_comprehension l : forall i,
  process_elements host prefix l i =
  comprehension
    (map (fun iv => process (snd iv) (prefix +.+ "[" +.+ PyStr.of_nat (fst iv) +.+ "]"))
         (combine (seq i (length l)) l)).
Proof.
  induction l as [|v l IH]; intros i; [reflexivity|].
  cbn [process_elements length seq combine map comprehension fst snd].
  apply bind_ext. intros r _. now rewrite IH.
Qed.

(** The four shapes of a node, each as a comprehension over its parts. *)

Lemma process_item_factory_comprehension d python_path ps :
  dict_get d "FACTORY" = Some python_path ->
  dict_get d "PARAMS" = Some (VDict ps) ->
  process (VDict d) prefix =
  let* factory := ImportStringSetting.import_value host python_path in
  let* rs := comprehension
               (map (fun kv => process (snd kv) (prefix +.+ ".PARAMS." +.+ fst kv)) ps) in
  ObjectFactorySetting.invoke host factory
    (dict_of_items (combine (map (fun kv => PyStr.lower (fst kv)) ps) rs)) prefix.
Proof.
  intros Hf Hp. rewrite process_item_factory by (unfold dict_contains; now rewrite Hf).
  rewrite Hf. apply bind_ext. intros factory _.
  unfold factory_kwargs. rewrite Hp, process_params_comprehension, bind_assoc.
  apply bind_ext. intros rs _. now rewrite bind_ret.
Qed.

Lemma process_item_mapping_comprehension d :
  dict_contains d "FACTORY" = false ->
  process (VDict d) prefix =
  let* rs := comprehension
               (map (fun kv => process (snd kv) (prefix +.+ "." +.+ fst kv)) d) in
  ret (VDict (dict_of_items (combine (map fst d) rs))).
Proof.
  intros Hf. rewrite (process_item_mapping host d prefix Hf).
  rewrite process_values_comprehension, bind_assoc.
  apply bind_ext. intros rs _. now rewrite bind_ret.
Qed.

Lemma process_item_sequence_comprehension l :
  process (VList l) prefix =
  let* rs := comprehension
               (map (fun iv => process (snd iv)
                                 (prefix +.+ "[" +.+ PyStr.of_nat (fst iv) +.+ "]"))
                    (combine (seq 0 (length l)) l)) in
  ret (VList rs).
Proof. now rewrite process_item_sequence, process_elements_comprehension. Qed.

(** The run of a factory specification whose parameters are all returned,
    and of one with a parameter that is not. *)

Lemma process_params_returns ps trs :
  Forall2 (fun kv tr => returns (process (snd kv) (prefix +.+ ".PARAMS." +.+ fst kv)) tr)
          ps trs ->
  process_params host prefix ps [] =
    (concat (map fst trs),
     Return (dict_of_items (combine (map (fun kv => PyStr.lower (fst kv)) ps) (map snd trs)))).
Proof.
  intros Hrs. rewrite process_params_comprehension.
  rewrite (comprehension_returns _ _ _ Hrs). cbn. now rewrite app_nil_r.
Qed.

Lemma process_factory_returns d python_path ps t0 factory trs :
  dict_get d "FACTORY" = Some python_path ->
  dict_get d "PARAMS" = Some (VDict ps) ->
  ImportStringSetting.import_value host python_path = (t0, Return factory) ->
  Forall2 (fun kv tr => returns (process (snd kv) (prefix +.+ ".PARAMS." +.+ fst kv)) tr)
          ps trs ->
  process (VDict d) prefix =
    (t0 ++ concat (map fst trs)
        ++ [EvCall factory []
              (dict_of_items (combine (map (fun kv => PyStr.lower (fst kv)) ps)
                                      (map snd trs)))],
     outcome (ObjectFactorySetting.invoke host factory
                (dict_of_items (combine (map (fun kv => PyStr.lower (fst kv)) ps)
                                        (map snd trs))) prefix)).
Proof.
  intros Hf Hp Himp Hrs.
  apply (process_factory_run host prefix d python_path); try assumption.
  unfold factory_kwargs. rewrite Hp. now apply process_params_returns.
Qed.

Lemma process_factory_param_raises d python_path ps1 k v ps2 t0 factory trs t e :
  dict_get d "FACTORY" = Some python_path ->
  dict_get d "PARAMS" = Some (VDict (ps1 ++ (k, v) :: ps2)) ->
  ImportStringSetting.import_value host python_path = (t0, Return factory) ->
  Forall2 (fun kv tr => returns (process (snd kv) (prefix +.+ ".PARAMS." +.+ fst kv)) tr)
          ps1 trs ->
  process v (prefix +.+ ".PARAMS." +.+ k) = (t, Raise e) ->
  process (VDict d) prefix = (t0 ++ concat (map fst trs) ++ t, Raise e).
Proof.
  intros Hf Hp Himp Hrs Hv.
  rewrite (process_item_factory_comprehension d python_path _ Hf Hp).
  rewrite (bind_run _ _ _ _ Himp).
  rewrite (comprehension_raises
             (fun kv => process (snd kv) (prefix +.+ ".PARAMS." +.+ fst kv))
             ps1 trs (k, v) ps2 t e Hrs Hv).
  reflexivity.
Qed.

Lemma process_mapping_value_raises d1 k v d2 trs t e :
  dict_contains (d1 ++ (k, v) :: d2) "FACTORY" = false ->
  Forall2 (fun kv tr => returns (process (snd kv) (prefix +.+ "." +.+ fst kv)) tr) d1 trs ->
  process v (prefix +.+ "." +.+ k) = (t, Raise e) ->
  process (VDict (d1 ++ (k, v) :: d2)) prefix = (concat (map fst trs) ++ t, Raise e).
Proof.
  intros Hf Hrs Hv.
  rewrite (process_item_mapping_comprehension _ Hf).
  rewrite (comprehension_raises
             (fun kv => process (snd kv) (prefix +.+ "." +.+ fst kv))
             d1 trs (k, v) d2 t e Hrs Hv).
  reflexivity.
Qed.

End ComprehensionFacts.

(** ** The structure of the processing *)

(** C3. The processing of an object-factory value follows the structure of
    the value: each kind of node is the comprehension over its parts, which
    are processed in order, each one completely, and the first failure ends
    the processing.  For a factory specification the factory is imported
    first, then the values under [PARAMS] are processed, and the factory is
    called last, with the results as keyword arguments: a parameter that is
    itself a factory specification reaches the outer factory as the object
    its own factory returned.  A mapping without [FACTORY] yields the mapping
    of its processed values.  A list and a tuple yield the list of the
    processed elements in the original order, and return exactly when each
    element does.  A node that is neither a mapping nor a sequence is
    returned as it is.  The keys of [PARAMS] are taken to be ASCII, where
    the names of the keyword arguments are those [str.lower] gives. *)
Theorem process_item_structure (host : Host) (prefix : string) :
  let process := ObjectFactorySetting._process_item host in
  let params ps :=
    comprehension
      (map (fun kv => process (snd kv) (prefix +.+ ".PARAMS." +.+ fst kv)) ps) in
  let names ps := map (fun kv => PyStr.lower (fst kv)) ps in
  let values d :=
    comprehension (map (fun kv => process (snd kv) (prefix +.+ "." +.+ fst kv)) d) in
  let elements l :=
    comprehension
      (map (fun iv => process (snd iv) (prefix +.+ "[" +.+ PyStr.of_nat (fst iv) +.+ "]"))
           (combine (seq 0 (length l)) l)) in
  (forall d python_path ps,
     dict_get d "FACTORY" = Some python_path ->
     dict_get d "PARAMS" = Some (VDict ps) ->
     ascii_keys ps = true ->
     process (VDict d) prefix =
       let* factory := ImportStringSetting.import_value host python_path in
       let* rs := params ps in
       ObjectFactorySetting.invoke host factory
         (dict_of_items (combine (names ps) rs)) prefix) /\
  (forall d python_path ps t0 factory trs,
     dict_get d "FACTORY" = Some python_path ->
     dict_get d "PARAMS" = Some (VDict ps) ->
     ascii_keys ps = true ->
     ImportStringSetting.import_value host python_path = (t0, Return factory) ->
     Forall2 (fun kv tr =>
                returns (process (snd kv) (prefix +.+ ".PARAMS." +.+ fst kv)) tr) ps trs ->
     let kwargs := dict_of_items (combine (names ps) (map snd trs)) in
     process (VDict d) prefix =
       (t0 ++ concat (map fst trs) ++ [EvCall factory [] kwargs],
        outcome (ObjectFactorySetting.invoke host factory kwargs prefix))) /\
  (forall d,
     dict_contains d "FACTORY" = false ->
     process (VDict d) prefix =
       let* rs := values d in
       ret (VDict (dict_of_items (combine (map fst d) rs)))) /\
  (forall l, process (VList l) prefix = let* rs := elements l in ret (VList rs)) /\
  (forall l, process (VTuple l) prefix = let* rs := elements l in ret (VList rs)) /\
  (forall l x,
     outcome (process (VList l) prefix) = Return x <->
     exists rs, x = VList rs /\
                Forall2 (element_result host prefix) (combine (seq 0 (length l)) l) rs) /\
  (forall l x,
     outcome (process (VTuple l) prefix) = Return x <->
     exists rs, x = VList rs /\
                Forall2 (element_result host prefix) (combine (seq 0 (length l)) l) rs) /\
  (forall item, is_leaf item = true -> process item prefix = ([], Return item)).
Proof.
  intros process params names values elements.
  split; [|split; [|split; [|split; [|split; [|split; [|split]]]]]].
  - intros d python_path ps Hf Hp _.
    exact (process_item_factory_comprehension host prefix d python_path ps Hf Hp).
  - intros d python_path ps t0 factory trs Hf Hp _ Himp Hrs kwargs.
    exact (process_factory_returns host prefix d python_path ps t0 factory trs Hf Hp Himp Hrs).
  - intros d Hf. exact (process_item_mapping_comprehension host prefix d Hf).
  - intros l. exact (process_item_sequence_comprehension host prefix l).
  - intros l. unfold process. rewrite process_item_tuple.
    exact (process_item_sequence_comprehension host prefix l).
  - intros l x. apply process_sequence_results.
  - intros l x. unfold process. rewrite process_item_tuple. apply process_sequence_results.
  - intros item. apply process_item_leaf.
Qed.

Lemma process_item_structure_witness :
  ObjectFactorySetting._process_item Sample.host
    (VDict [("FACTORY", VStr "pkg.Cache");
            ("PARAMS", VDict [("SERIALIZER", VDict [("FACTORY", VStr "pkg.Serializer")])])])
    "ROOT.OBJ"
  = ([EvImport "pkg.Cache"; EvImport "pkg"; EvGetattr (VModule "pkg") "Cache"]
     ++ [EvImport "pkg.Serializer"; EvImport "pkg"; EvGetattr (VModule "pkg") "Serializer";
         EvCall (VCallable "Serializer") [] []]
     ++ [EvCall (VCallable "Cache") [] [("serializer", VInstance "Serializer" [])]],
     Return (VInstance "Cache" [("serializer", VInstance "Serializer" [])])) /\
  outcome (ObjectFactorySetting._process_item Sample.host
             (VTuple [VDict [("FACTORY", VStr "pkg.Serializer")]; VInt 1]) "ROOT.OBJ")
  = Return (VList [VInstance "Serializer" []; VInt 1]) /\
  ObjectFactorySetting._process_item Sample.host
    (VDict [("A", VDict [("FACTORY", VStr "pkg.Serializer")]); ("B", VTuple [VInt 1])])
    "ROOT.OBJ"
  = ([EvImport "pkg.Serializer"; EvImport "pkg"; EvGetattr (VModule "pkg") "Serializer";
      EvCall (VCallable "Serializer") [] []],
     Return (VDict [("A", VInstance "Serializer" []); ("B", VList [VInt 1])])).
Proof.
  destruct (process_item_structure Sample.host "ROOT.OBJ")
    as (_ & Hfactory & Hmapping & _ & _ & _ & Htuple & _).
  split; [|split].
  - apply (Hfactory _ (VStr "pkg.Cache")
             [("SERIALIZER", VDict [("FACTORY", VStr "pkg.Serializer")])]
             [EvImport "pkg.Cache"; EvImport "pkg"; EvGetattr (VModule "pkg") "Cache"]
             (VCallable "Cache")
             [([EvImport "pkg.Serializer"; EvImport "pkg";
                EvGetattr (VModule "pkg") "Serializer"; EvCall (VCallable "Serializer") [] []],
               VInstance "Serializer" [])]);
      [reflexivity|reflexivity|reflexivity|reflexivity|].
    constructor; [reflexivity|constructor].
  - apply Htuple. exists [VInstance "Serializer" []; VInt 1]. split; [reflexivity|].
    constructor; [reflexivity|]. constructor; [reflexivity|constructor].
  - rewrite Hmapping; reflexivity.
Defined.

(** C6, as the code has it.  The value of each entry of [PARAMS] is processed
    under the prefix extended with [.PARAMS.] and the key exactly as it is
    written in the mapping: when the value of an entry fails under that
    label, the values before it having been returned, the processing of the
    specification fails with that very error, and the factory is not called.
    When every value is returned, the factory is called with the results
    under the keys in lower case: the names of the keyword arguments are the
    keys of [PARAMS] in lower case, in the order of the mapping when they are
    distinct.  The keys are taken to be ASCII where they are put in lower
    case. *)
Theorem params_prefix_and_keyword (host : Host) (prefix : string)
    (d : dict) (python_path : value) (ps : dict) (t0 : list event) (factory : value) :
  let process := ObjectFactorySetting._process_item host in
  let label k := prefix +.+ ".PARAMS." +.+ k in
  let names := map (fun kv => PyStr.lower (fst kv)) ps in
  dict_get d "FACTORY" = Some python_path ->
  dict_get d "PARAMS" = Some (VDict ps) ->
  ImportStringSetting.import_value host python_path = (t0, Return factory) ->
  (forall ps1 k v ps2 trs t e,
     ps = ps1 ++ (k, v) :: ps2 ->
     Forall2 (fun kv tr => returns (process (snd kv) (label (fst kv))) tr) ps1 trs ->
     process v (label k) = (t, Raise e) ->
     process (VDict d) prefix = (t0 ++ concat (map fst trs) ++ t, Raise e)) /\
  (forall trs,
     ascii_keys ps = true ->
     Forall2 (fun kv tr => returns (process (snd kv) (label (fst kv))) tr) ps trs ->
     let kwargs := dict_of_items (combine names (map snd trs)) in
     process (VDict d) prefix =
       (t0 ++ concat (map fst trs) ++ [EvCall factory [] kwargs],
        outcome (ObjectFactorySetting.invoke host factory kwargs prefix)) /\
     (forall name,
        In name (map fst kwargs) <-> exists k, In k (map fst ps) /\ name = PyStr.lower k) /\
     (NoDup names -> kwargs = combine names (map snd trs))).
Proof.
  intros process label names Hf Hp Himp. split.
  - intros ps1 k v ps2 trs t e -> Hrs Hv.
    exact (process_factory_param_raises host prefix d python_path ps1 k v ps2 t0 factory
             trs t e Hf Hp Himp Hrs Hv).
  - intros trs _ Hrs kwargs. split; [|split].
    + exact (process_factory_returns host prefix d python_path ps t0 factory trs
               Hf Hp Himp Hrs).
    + intros name. unfold kwargs, names.
      rewrite (process_params_names host prefix ps [] _ _
                 (process_params_returns host prefix ps trs Hrs) name).
      cbn [map In]. split.
      * intros [[]|Hin]. apply in_map_iff in Hin as [[k v] [<- Hin]].
        exists k. split; [|reflexivity]. apply in_map_iff. now exists (k, v).
      * intros [k [Hin ->]]. right. apply in_map_iff.
        apply in_map_iff in Hin as [[k' v] [<- Hin]]. now exists (k', v).
    + intros Hnd. unfold kwargs. apply dict_of_items_nodup.
      rewrite keys_of_combine; [exact Hnd|].
      unfold names. rewrite !length_map. symmetry. exact (Forall2_length Hrs).
Qed.

Lemma params_prefix_and_keyword_witness :
  ObjectFactorySetting._process_item Sample.host
    (VDict [("FACTORY", VStr "pkg.Cache");
            ("PARAMS", VDict [("serializer", VDict [("FACTORY", VStr "pkg.make")])])])
    "ROOT.OBJ"
  = ([EvImport "pkg.Cache"; EvImport "pkg"; EvGetattr (VModule "pkg") "Cache";
      EvImport "pkg.make"; EvImport "pkg"; EvGetattr (VModule "pkg") "make";
      EvCall (VCallable "make") [] []],
     Raise (ImproperlyConfigured
              "Required setting(s): ROOT.OBJ.PARAMS.serializer.PARAMS.HOST, ROOT.OBJ.PARAMS.serializer.PARAMS.PORT")) /\
  ObjectFactorySetting._process_item Sample.host
    (VDict [("FACTORY", VStr "pkg.make");
            ("PARAMS", VDict [("HOST", VStr "x"); ("Port", VInt 5432)])])
    "ROOT.OBJ"
  = ([EvImport "pkg.make"; EvImport "pkg"; EvGetattr (VModule "pkg") "make";
      EvCall (VCallable "make") [] [("host", VStr "x"); ("port", VInt 5432)]],
     Return (VInstance "Made" [("host", VStr "x"); ("port", VInt 5432)])).
Proof.
  split.
  - destruct (params_prefix_and_keyword Sample.host "ROOT.OBJ"
                [("FACTORY", VStr "pkg.Cache");
                 ("PARAMS", VDict [("serializer", VDict [("FACTORY", VStr "pkg.make")])])]
                (VStr "pkg.Cache")
                [("serializer", VDict [("FACTORY", VStr "pkg.make")])]
                [EvImport "pkg.Cache"; EvImport "pkg"; EvGetattr (VModule "pkg") "Cache"]
                (VCallable "Cache") eq_refl eq_refl eq_refl) as [Hfails _].
    apply (Hfails [] "serializer" (VDict [("FACTORY", VStr "pkg.make")]) [] []);
      [reflexivity|constructor|reflexivity].
  - destruct (params_prefix_and_keyword Sample.host "ROOT.OBJ"
                [("FACTORY", VStr "pkg.make");
                 ("PARAMS", VDict [("HOST", VStr "x"); ("Port", VInt 5432)])]
                (VStr "pkg.make")
                [("HOST", VStr "x"); ("Port", VInt 5432)]
                [EvImport "pkg.make"; EvImport "pkg"; EvGetattr (VModule "pkg") "make"]
                (VCallable "make") eq_refl eq_refl eq_refl) as [_ Hreturns].
    destruct (Hreturns [([], VStr "x"); ([], VInt 5432)]) as [Hrun _];
      [reflexivity|repeat constructor|exact Hrun].
Defined.

(** C6, as stated, fails: the key is not put in upper case in the path
    label.  Under the key [serializer] a factory specification that lacks
    its required parameters is reported with the label
    [ROOT.OBJ.PARAMS.serializer], which is not what processing it under
    [ROOT.OBJ.PARAMS.SERIALIZER] reports. *)
Lemma params_label_keeps_case :
  outcome (ObjectFactorySetting._process_item Sample.host
             (VDict [("FACTORY", VStr "pkg.Cache");
                     ("PARAMS", VDict [("serializer", VDict [("FACTORY", VStr "pkg.make")])])])
             "ROOT.OBJ")
  = Raise (ImproperlyConfigured
             "Required setting(s): ROOT.OBJ.PARAMS.serializer.PARAMS.HOST, ROOT.OBJ.PARAMS.serializer.PARAMS.PORT") /\
  outcome (ObjectFactorySetting._process_item Sample.host
             (VDict [("FACTORY", VStr "pkg.make")])
             ("ROOT.OBJ" +.+ ".PARAMS." +.+ PyStr.upper "serializer"))
  = Raise (ImproperlyConfigured
             "Required setting(s): ROOT.OBJ.PARAMS.SERIALIZER.PARAMS.HOST, ROOT.OBJ.PARAMS.SERIALIZER.PARAMS.PORT") /\
  outcome (ObjectFactorySetting._process_item Sample.host
             (VDict [("FACTORY", VStr "pkg.Cache");
                     ("PARAMS", VDict [("serializer", VDict [("FACTORY", VStr "pkg.make")])])])
             "ROOT.OBJ")
  <> outcome (ObjectFactorySetting._process_item Sample.host
                (VDict [("FACTORY", VStr "pkg.make")])
                ("ROOT.OBJ" +.+ ".PARAMS." +.+ PyStr.upper "serializer")).
Proof.
  split; [reflexivity|]. split; [reflexivity|]. discriminate.
Qed.

(** C10. A tuple is processed as the list of its elements: the result, when
    there is one, is a list, never a tuple, of the processed elements in the
    original order.  This holds where the tuple is the raw value of the
    setting and wherever the recursion meets one; on data without factory
    specifications the result is the data with every tuple replaced by a
    list, and it contains no tuple. *)
Theorem tuples_become_lists (host : Host) :
  (forall l prefix,
     ObjectFactorySetting._process_item host (VTuple l) prefix =
     ObjectFactorySetting._process_item host (VList l) prefix) /\
  (forall l prefix x,
     outcome (ObjectFactorySetting._process_item host (VTuple l) prefix) = Return x <->
     exists rs, x = VList rs /\
                Forall2 (element_result host prefix) (combine (seq 0 (length l)) l) rs) /\
  (forall l prefix x,
     outcome (ObjectFactorySetting._process_item host (VTuple l) prefix) = Return x ->
     (exists rs, x = VList rs /\ length rs = length l) /\
     forall l', x <> VTuple l') /\
  (forall self owner d l,
     SettingsObject.user_settings owner = VDict d ->
     dict_get d (Setting.name self) = Some (VTuple l) ->
     ObjectFactorySetting.__get__ host self (Some owner) =
     ObjectFactorySetting._process_item host (VList l)
       (SettingsObject.name owner +.+ "." +.+ Setting.name self)) /\
  (forall item prefix,
     plain_data item = true ->
     ObjectFactorySetting._process_item host item prefix
       = ([], Return (tuples_to_lists item)) /\
     has_tuple (tuples_to_lists item) = false).
Proof.
  split; [reflexivity|]. split; [|split; [|split]].
  - intros l prefix x. rewrite process_item_tuple. apply process_sequence_results.
  - intros l prefix x Hx. rewrite process_item_tuple in Hx.
    apply process_sequence_results in Hx as [rs [-> Hrs]].
    apply Forall2_length in Hrs. rewrite length_combine, length_seq, Nat.min_id in Hrs.
    split; [|discriminate]. exists rs. now split.
  - intros self owner d l Hus Hraw. unfold ObjectFactorySetting.__get__.
    rewrite (Setting_get_present host self owner d (VTuple l) Hus Hraw), bind_ret.
    reflexivity.
  - intros item prefix Hp. split.
    + now apply process_plain_data.
    + apply tuples_to_lists_no_tuple.
Qed.

Lemma tuples_become_lists_witness :
  ObjectFactorySetting.__get__ Sample.host
    {| Setting.name := "OBJ"; Setting.default := Setting.NO_DEFAULT |}
    (Some (Sample.ROOT [("OBJ", VTuple [VInt 1; VTuple [VStr "a"]])]))
  = ObjectFactorySetting._process_item Sample.host
      (VList [VInt 1; VTuple [VStr "a"]]) "ROOT.OBJ" /\
  ObjectFactorySetting._process_item Sample.host
    (VTuple [VInt 1; VTuple [VStr "a"]]) "ROOT.OBJ"
  = ([], Return (VList [VInt 1; VList [VStr "a"]])).
Proof.
  destruct (tuples_become_lists Sample.host) as (_ & _ & _ & Htop & Hplain).
  split.
  - apply (Htop {| Setting.name := "OBJ"; Setting.default := Setting.NO_DEFAULT |}
                (Sample.ROOT [("OBJ", VTuple [VInt 1; VTuple [VStr "a"]])])
                [("OBJ", VTuple [VInt 1; VTuple [VStr "a"]])]); reflexivity.
  - apply (Hplain (VTuple [VInt 1; VTuple [VStr "a"]]) "ROOT.OBJ"). reflexivity.
Defined.

(** ** The text of a [TypeError] *)

Lemma cat_cons c a b : String c a +.+ b = String c (a +.+ b).
Proof. reflexivity. Qed.

Lemma cat_nil_r a : a +.+ EmptyString = a.
Proof. induction a as [|c a IH]; [reflexivity|]. now rewrite cat_cons, IH. Qed.

Lemma cat_assoc a b c : (a +.+ b) +.+ c = a +.+ (b +.+ c).
Proof. induction a as [|x a IH]; [reflexivity|]. now rewrite !cat_cons, IH. Qed.

Lemma all_chars_cat p a b : all_chars p (a +.+ b) = all_chars p a && all_chars p b.
Proof.
  induction a as [|c a IH]; [reflexivity|].
  rewrite cat_cons. simpl. now rewrite IH, andb_assoc.
Qed.

Lemma all_chars_weaken (p q : ascii -> bool) s :
  (forall c, p c = true -> q c = true) -> all_chars p s = true -> all_chars q s = true.
Proof.
  intros Hpq. induction s as [|c s IH]; [reflexivity|]. simpl.
  intros H. apply andb_prop in H as [Hc Hs]. now rewrite (Hpq c Hc), IH.
Qed.

Lemma digit_char n : PyStr.is_digit (ascii_of_nat (48 + n mod 10)) = true.
Proof.
  pose proof (Nat.mod_upper_bound n 10) as Hlt.
  destruct (n mod 10) as [|[|[|[|[|[|[|[|[|[|k]]]]]]]]]]; try reflexivity. lia.
Qed.

Lemma digits_of_digits fuel : forall n acc,
  all_chars PyStr.is_digit acc = true ->
  exists c ds, PyStr.digits_of fuel n acc = String c ds /\
               PyStr.is_digit c = true /\ all_chars PyStr.is_digit ds = true.
Proof.
  induction fuel as [|fuel IH]; intros n acc Hacc; cbn [PyStr.digits_of].
  - eexists _, acc. repeat split; [apply digit_char|exact Hacc].
  - destruct (n <? 10)%nat.
    + eexists _, acc. repeat split; [apply digit_char|exact Hacc].
    + apply IH. cbn [all_chars]. now rewrite digit_char, Hacc.
Qed.

Lemma of_nat_digits n :
  exists c ds, PyStr.of_nat n = String c ds /\
               PyStr.is_digit c = true /\ all_chars PyStr.is_digit ds = true.
Proof. apply digits_of_digits. reflexivity. Qed.

Lemma digit_not_quote c : PyStr.is_digit c = true -> negb (Ascii.eqb c "'") = true.
Proof.
  intros Hc. destruct (Ascii.eqb c "'") eqn:E; [|reflexivity].
  apply Ascii.eqb_eq in E. subst c. discriminate Hc.
Qed.

Lemma word_not_quote c : PyStr.is_word c = true -> negb (Ascii.eqb c "'") = true.
Proof.
  intros Hc. destruct (Ascii.eqb c "'") eqn:E; [|reflexivity].
  apply Ascii.eqb_eq in E. subst c. discriminate Hc.
Qed.


Lemma of_nat_no_quote n : no_quote (PyStr.of_nat n) = true.
Proof.
  destruct (of_nat_digits n) as (c & ds & -> & Hc & Hds).
  unfold no_quote. simpl. rewrite (digit_not_quote c Hc).
  apply (all_chars_weaken PyStr.is_digit); [apply digit_not_quote|exact Hds].
Qed.

Lemma identifier_word s : identifier s = true -> all_chars PyStr.is_word s = true.
Proof. destruct s; [discriminate|trivial]. Qed.

Module TextFacts.

Import ObjectFactorySetting.

(** *** [ARG_NAME_REGEX] *)

Lemma scan_skip a : forall b,
  no_quote a = true -> scan_arg_names (a +.+ b) None = scan_arg_names b None.
Proof.
  induction a as [|c a IH]; intros b Ha; [reflexivity|].
  unfold no_quote in Ha. simpl in Ha. apply andb_prop in Ha as [Hc Ha].
  rewrite cat_cons. cbn [scan_arg_names].
  apply negb_true_iff in Hc. rewrite Hc. now apply IH.
Qed.

Lemma scan_word w : forall acc rest,
  all_chars PyStr.is_word w = true -> acc +.+ w <> EmptyString ->
  scan_arg_names (w +.+ String "'" rest) (Some acc)
  = (acc +.+ w) :: scan_arg_names rest None.
Proof.
  induction w as [|c w IH]; intros acc rest Hw Hne.
  - rewrite cat_nil_r in *. cbn. destruct acc; [congruence|reflexivity].
  - simpl in Hw. apply andb_prop in Hw as [Hc Hw].
    rewrite cat_cons. cbn [scan_arg_names]. rewrite Hc.
    rewrite (IH (acc +.+ String c EmptyString) rest Hw).
    + now rewrite cat_assoc.
    + rewrite cat_assoc. exact Hne.
Qed.

Lemma scan_quoted w rest :
  identifier w = true ->
  scan_arg_names (Call.quote w +.+ rest) None = w :: scan_arg_names rest None.
Proof.
  intros Hw. unfold Call.quote. rewrite !cat_assoc.
  change ("'" +.+ w +.+ "'" +.+ rest) with (String "'" (w +.+ String "'" rest)).
  cbn [scan_arg_names]. change (Ascii.eqb "'" "'") with true. cbv iota.
  rewrite (scan_word w EmptyString _ (identifier_word w Hw)); [reflexivity|].
  destruct w; [discriminate|discriminate].
Qed.

Lemma findall_format_more names :
  names <> [] -> Forall (fun n => identifier n = true) names ->
  findall_arg_name (Call.format_more names) = names.
Proof.
  unfold findall_arg_name.
  induction names as [|a rest IH]; intros Hne Hall; [congruence|].
  inversion Hall as [|? ? Ha Hrest]; subst.
  destruct rest as [|b rest].
  - cbn [Call.format_more]. rewrite (scan_skip "and ") by reflexivity.
    rewrite <- (cat_nil_r (Call.quote a)), scan_quoted by exact Ha. reflexivity.
  - change (Call.format_more (a :: b :: rest))
      with (Call.quote a +.+ ", " +.+ Call.format_more (b :: rest)).
    rewrite scan_quoted by exact Ha. rewrite (scan_skip ", ") by reflexivity.
    rewrite IH; [reflexivity|discriminate|exact Hrest].
Qed.

Lemma findall_format_names names :
  names <> [] -> Forall (fun n => identifier n = true) names ->
  findall_arg_name (Call.format_names names) = names.
Proof.
  intros Hne Hall. destruct names as [|a [|b [|c rest]]]; [congruence| | |].
  - inversion Hall; subst. unfold findall_arg_name. cbn [Call.format_names].
    rewrite <- (cat_nil_r (Call.quote a)), scan_quoted by assumption. reflexivity.
  - inversion Hall as [|? ? Ha Hb]; subst. inversion Hb; subst.
    unfold findall_arg_name. cbn [Call.format_names].
    rewrite scan_quoted by assumption. rewrite (scan_skip " and ") by reflexivity.
    rewrite <- (cat_nil_r (Call.quote b)), scan_quoted by assumption. reflexivity.
  - now apply findall_format_more.
Qed.

Lemma plural_no_quote n : no_quote (Call.plural n) = true.
Proof. unfold Call.plural. now destruct (Nat.eqb n 1). Qed.

Lemma findall_missing_message qualname names :
  no_quote qualname = true ->
  names <> [] -> Forall (fun n => identifier n = true) names ->
  findall_arg_name (Call.missing_message qualname names) = names.
Proof.
  intros Hq Hne Hall. unfold Call.missing_message.
  pose proof (findall_format_names names Hne Hall) as Hn.
  unfold findall_arg_name in *.
  rewrite (scan_skip qualname) by exact Hq.
  rewrite (scan_skip "() missing ") by reflexivity.
  rewrite (scan_skip (PyStr.of_nat _)) by apply of_nat_no_quote.
  rewrite (scan_skip " required positional argument") by reflexivity.
  rewrite (scan_skip (Call.plural _)) by apply plural_no_quote.
  rewrite (scan_skip ": ") by reflexivity.
  exact Hn.
Qed.


End TextFacts.

Module SearchFacts.

Import ObjectFactorySetting.

(** *** [MISSING_ARG_REGEX] *)

Lemma strip_prefix_cat p : forall t, strip_prefix p (p +.+ t) = Some t.
Proof.
  induction p as [|c p IH]; intros t; [now destruct t|].
  rewrite cat_cons. cbn [strip_prefix]. now rewrite Ascii.eqb_refl.
Qed.

Lemma strip_prefix_sound p : forall s t, strip_prefix p s = Some t -> s = p +.+ t.
Proof.
  induction p as [|c p IH]; intros s t.
  - destruct s; intros [= <-]; reflexivity.
  - destruct s as [|b s]; [discriminate|]. cbn [strip_prefix].
    destruct (Ascii.eqb c b) eqn:E; [|discriminate].
    apply Ascii.eqb_eq in E. subst b. intros H. now rewrite (IH s t H).
Qed.

Lemma prefix_cat p : forall t, String.prefix p (p +.+ t) = true.
Proof.
  induction p as [|c p IH]; intros t; [now destruct t|].
  rewrite cat_cons. cbn [String.prefix].
  destruct (ascii_dec c c); [apply IH|congruence].
Qed.

Lemma skip_digits_cat ds : forall x rest,
  all_chars PyStr.is_digit ds = true -> PyStr.is_digit x = false ->
  skip_digits (ds +.+ String x rest) = String x rest.
Proof.
  induction ds as [|c ds IH]; intros x rest Hds Hx.
  - change (EmptyString +.+ String x rest) with (String x rest).
    cbn [skip_digits]. now rewrite Hx.
  - simpl in Hds. apply andb_prop in Hds as [Hc Hds].
    rewrite cat_cons. cbn [skip_digits]. rewrite Hc. now apply IH.
Qed.

Lemma search_skip a : forall b,
  search_missing_arg b = true -> search_missing_arg (a +.+ b) = true.
Proof.
  induction a as [|c a IH]; intros b Hb; [exact Hb|].
  rewrite cat_cons. cbn [search_missing_arg]. rewrite (IH b Hb). apply orb_true_r.
Qed.

Lemma search_here s : match_missing_arg s = true -> search_missing_arg s = true.
Proof. intros H. destruct s; cbn [search_missing_arg]; now rewrite H. Qed.

Lemma match_missing_text n rest :
  match_missing_arg
    ("missing " +.+ PyStr.of_nat n +.+ " required positional argument"
     +.+ Call.plural n +.+ ": " +.+ rest) = true.
Proof.
  unfold match_missing_arg. rewrite strip_prefix_cat.
  destruct (of_nat_digits n) as (c & ds & -> & Hc & Hds).
  rewrite cat_cons, Hc. cbn [andb].
  change (" required positional argument" +.+ Call.plural n +.+ ": " +.+ rest)
    with (String " " ("required positional argument" +.+ Call.plural n +.+ ": " +.+ rest)).
  rewrite (skip_digits_cat ds " " _ Hds eq_refl).
  change (String " " ("required positional argument" +.+ Call.plural n +.+ ": " +.+ rest))
    with (" required positional argument" +.+ Call.plural n +.+ ": " +.+ rest).
  rewrite strip_prefix_cat. unfold Call.plural.
  destruct (Nat.eqb n 1).
  - change (EmptyString +.+ ": " +.+ rest) with (": " +.+ rest).
    change (strip_prefix "s" (": " +.+ rest)) with (@None string).
    apply prefix_cat.
  - rewrite strip_prefix_cat. apply prefix_cat.
Qed.

Lemma search_missing_message qualname names :
  search_missing_arg (Call.missing_message qualname names) = true.
Proof.
  unfold Call.missing_message. apply search_skip.
  change ("() missing " +.+ PyStr.of_nat (length names)
          +.+ " required positional argument" +.+ Call.plural (length names)
          +.+ ": " +.+ Call.format_names names)
    with ("() " +.+ "missing " +.+ PyStr.of_nat (length names)
          +.+ " required positional argument" +.+ Call.plural (length names)
          +.+ ": " +.+ Call.format_names names).
  apply search_skip, search_here, match_missing_text.
Qed.

(** A match of the pattern has a space followed by a digit; the message
    for an unexpected keyword has none. *)
Lemma space_then_digit_tail c s :
  space_then_digit s = true -> space_then_digit (String c s) = true.
Proof. intros H. cbn [space_then_digit]. rewrite H. apply orb_true_r. Qed.

Lemma match_space_then_digit s :
  match_missing_arg s = true -> space_then_digit s = true.
Proof.
  unfold match_missing_arg.
  destruct (strip_prefix "missing " s) as [[|c rest]|] eqn:Hs; try discriminate.
  intros H. apply andb_prop in H as [Hc _].
  apply strip_prefix_sound in Hs. subst s.
  change ("missing " +.+ String c rest)
    with (String "m" (String "i" (String "s" (String "s" (String "i" (String "n"
           (String "g" (String " " (String c rest))))))))).
  do 7 apply space_then_digit_tail.
  cbn [space_then_digit]. rewrite Hc. reflexivity.
Qed.

Lemma search_space_then_digit s :
  search_missing_arg s = true -> space_then_digit s = true.
Proof.
  induction s as [|c s IH]; cbn [search_missing_arg].
  - rewrite orb_false_r. apply match_space_then_digit.
  - intros H. apply orb_prop in H as [H|H].
    + now apply match_space_then_digit.
    + apply space_then_digit_tail, IH, H.
Qed.

Lemma space_then_digit_skip a : forall b,
  no_space a = true -> space_then_digit (a +.+ b) = space_then_digit b.
Proof.
  induction a as [|c a IH]; intros b Ha; [reflexivity|].
  unfold no_space in Ha. simpl in Ha. apply andb_prop in Ha as [Hc Ha].
  apply negb_true_iff in Hc.
  rewrite cat_cons. cbn [space_then_digit]. rewrite Hc, (IH b Ha).
  now destruct (a +.+ b).
Qed.

Lemma space_then_digit_cat a : forall x rest,
  space_then_digit (a +.+ String x rest)
  = space_then_digit (a +.+ String x EmptyString) || space_then_digit (String x rest).
Proof.
  induction a as [|c a IH]; intros x rest.
  - change (EmptyString +.+ String x rest) with (String x rest).
    change (EmptyString +.+ String x EmptyString) with (String x EmptyString).
    cbn [space_then_digit]. now rewrite orb_false_l.
  - rewrite !cat_cons. cbn [space_then_digit]. rewrite (IH x rest).
    destruct a as [|d a].
    + change (EmptyString +.+ String x rest) with (String x rest).
      change (EmptyString +.+ String x EmptyString) with (String x EmptyString).
      now rewrite orb_assoc.
    + rewrite !cat_cons. now rewrite orb_assoc.
Qed.


Lemma contains_skip sub a : forall b,
  PyStr.contains sub b = true -> PyStr.contains sub (a +.+ b) = true.
Proof.
  induction a as [|c a IH]; intros b Hb; [exact Hb|].
  rewrite cat_cons. cbn [PyStr.contains]. rewrite (IH b Hb). apply orb_true_r.
Qed.

Lemma contains_here sub s : String.prefix sub s = true -> PyStr.contains sub s = true.
Proof. intros H. destruct s; cbn [PyStr.contains]; now rewrite H. Qed.

Lemma contains_unexpected_message qualname key :
  PyStr.contains INVALID_ARG_MATCH (Call.unexpected_message qualname key) = true.
Proof.
  unfold Call.unexpected_message. apply contains_skip.
  change ("() got an unexpected keyword argument " +.+ Call.quote key)
    with ("() " +.+ INVALID_ARG_MATCH +.+ " " +.+ Call.quote key).
  apply contains_skip, contains_here, prefix_cat.
Qed.

End SearchFacts.

(** ** The call of a factory *)

Section InvokeFacts.

Variable host : Host.


Lemma invoke_handled factory kwargs prefix msg :
  outcome (Call.call host factory [] kwargs) = Raise (TypeError msg) ->
  outcome (ObjectFactorySetting.invoke host factory kwargs prefix)
  = outcome (ObjectFactorySetting.on_type_error prefix (TypeError msg)).
Proof.
  unfold ObjectFactorySetting.invoke, try_except.
  destruct (Call.call host factory [] kwargs) as [t [v|e]]; [discriminate|].
  cbn [outcome snd]. intros [= ->]. cbn [is_type_error].
  now destruct (ObjectFactorySetting.on_type_error prefix (TypeError msg)).
Qed.

Lemma combine_nil_r {A B} (l : list A) : combine l (@nil B) = [].
Proof. now destruct l. Qed.

Lemma call_missing f kwargs bound names :
  Call.bind_keywords f [] kwargs = Return bound ->
  Call.missing f bound = names -> names <> [] ->
  Call.call_function f [] kwargs
  = Raise (TypeError (Call.missing_message (fn_qualname f) names)).
Proof.
  intros Hb Hm Hne. unfold Call.call_function, Call.bind_arguments.
  rewrite combine_nil_r, Hb.
  change (length (fn_params f) <? length (@nil value))%nat with false.
  rewrite Hm. destruct names; [congruence|reflexivity].
Qed.

Lemma call_unexpected f kwargs e :
  Call.bind_keywords f [] kwargs = Raise e ->
  Call.call_function f [] kwargs = Raise e.
Proof.
  intros Hb. unfold Call.call_function, Call.bind_arguments.
  now rewrite combine_nil_r, Hb.
Qed.

End InvokeFacts.




(** ** The store is left as it was *)

Module StoreFacts.

Import stdpp.base stdpp.gmap.
Import Store.

Section WithHost.
Variable host : Host.

Lemma alloc_spec o h l h' :
  alloc o h = (Return l, h') -> h !! l = None /\ h' = <[l := o]> h.
Proof.
  unfold alloc. intros [= <- <-]. split; [|done].
  apply not_elem_of_dom. apply is_fresh.
Qed.









End WithHost.



End StoreFacts.

(** * Further properties of the code *)

(** ** [import_callable] *)

Section ResolverMore.

Variable host : Host.

Lemma find_module_raises k : forall parts attrs e,
  k < length parts ->
  (forall j, j < k -> not_found host (attempt parts j)) ->
  host_import_module host (attempt parts k) = Raise e ->
  is_module_not_found e = false ->
  find_module host parts attrs =
    (map EvImport (map (attempt parts) (seq 0 (S k))), Raise e).
Proof.
  induction k as [|k IH]; intros parts attrs e Hk Hnf He Hne.
  - rewrite find_module_step by (destruct parts; [simpl in Hk; lia|discriminate]).
    rewrite attempt_0 in He. rewrite He, Hne. simpl. now rewrite attempt_0.
  - assert (Hnil : parts <> []) by (destruct parts; [simpl in Hk; lia|discriminate]).
    pose proof (length_removelast parts) as Hl.
    rewrite find_module_step by exact Hnil.
    destruct (Hnf 0) as [msg H0]; [lia|].
    rewrite attempt_0 in H0. rewrite H0.
    simpl is_module_not_found. cbv iota.
    rewrite (IH (removelast parts) (last parts EmptyString :: attrs) e).
    + unfold prepend. cbn [fst snd]. now rewrite (attempts_shift parts (S k)) by lia.
    + lia.
    + intros j Hj. rewrite attempt_removelast by lia. apply Hnf. lia.
    + rewrite attempt_removelast by lia. exact He.
    + exact Hne.
Qed.

(** The loop of [import_callable] only imports, at most once per segment,
    and the attribute part it returns is no longer than the path. *)
Lemma find_module_shape n : forall parts attrs,
  length parts = n ->
  exists names,
    trace_of (find_module host parts attrs) = map EvImport names /\
    length names <= n /\
    forall found attrs',
      outcome (find_module host parts attrs) = Return (found, attrs') ->
      length attrs' <= n + length attrs.
Proof.
  induction n as [|n IH]; intros parts attrs Hlen.
  - destruct parts; [|discriminate]. rewrite find_module_equation_1.
    exists []. repeat split; [simpl; lia|].
    intros found attrs' [= _ <-]. lia.
  - assert (Hnil : parts <> []) by (destruct parts; discriminate).
    pose proof (length_removelast parts) as Hl.
    rewrite find_module_step by exact Hnil.
    destruct (host_import_module host (PyStr.join "." parts)) as [m|e].
    + exists [PyStr.join "." parts]. repeat split; [simpl; lia|].
      intros found attrs' [= _ <-]. lia.
    + destruct (is_module_not_found e).
      * destruct (IH (removelast parts) (last parts EmptyString :: attrs))
          as (names & Ht & Hn & Hattrs); [lia|].
        exists (PyStr.join "." parts :: names). unfold prepend. cbn [trace_of outcome fst snd].
        unfold trace_of in Ht. rewrite Ht. repeat split; [simpl; lia|].
        intros found attrs' Hout. apply Hattrs in Hout. simpl in Hout. lia.
      * exists [PyStr.join "." parts]. repeat split; [simpl; lia|].
        intros found attrs' Hout. discriminate Hout.
Qed.

Lemma reduce_getattr_shape parts : forall obj,
  Forall is_getattr (trace_of (reduce (getattr host) parts obj)) /\
  length (trace_of (reduce (getattr host) parts obj)) <= length parts.
Proof.
  induction parts as [|a parts IH]; intros obj; cbn [reduce].
  - split; [constructor|simpl; lia].
  - rewrite trace_bind. cbn [getattr perform trace_of outcome fst snd app].
    destruct (host_getattr host obj a) as [v|e].
    + destruct (IH v) as [Hall Hlen]. split.
      * constructor; [now exists obj, a|exact Hall].
      * simpl. lia.
    + split; [constructor; [now exists obj, a|constructor]|simpl; lia].
Qed.

End ResolverMore.

(** X1. An import attempt that fails with an exception other than
    [ModuleNotFoundError] ends the resolution at once: that exception is
    raised, and no shorter prefix is tried. *)
Theorem import_error_propagates (host : Host) (python_path : string) (k : nat) (e : exn) :
  let segments := PyStr.split "." python_path in
  k < length segments ->
  (forall j, j < k -> not_found host (attempt segments j)) ->
  host_import_module host (attempt segments k) = Raise e ->
  is_module_not_found e = false ->
  import_callable host python_path =
    (map EvImport (map (attempt segments) (seq 0 (S k))), Raise e).
Proof.
  intros segments Hk Hnf He Hne. unfold import_callable. fold segments.
  now rewrite (find_module_raises host k segments [] e Hk Hnf He Hne).
Qed.

Lemma import_error_propagates_witness :
  import_callable
    {| host_import_module name :=
         if String.eqb name "pkg.broken" then Raise (ImportError "cannot import name 'x'")
         else Raise (ModuleNotFoundError name);
       host_getattr := host_getattr Sample.host;
       host_function := Sample.functions;
       host_django_setting := host_django_setting Sample.host;
       host_update_from_sequence := host_update_from_sequence Sample.host;
       host_getitem := host_getitem Sample.host |}
    "pkg.broken.Class"
  = ([EvImport "pkg.broken.Class"; EvImport "pkg.broken"],
     Raise (ImportError "cannot import name 'x'")).
Proof.
  apply (import_error_propagates _ "pkg.broken.Class" 1).
  - simpl. lia.
  - intros [|j] Hj; [eexists; reflexivity|lia].
  - reflexivity.
  - reflexivity.
Defined.

(** X2. Whatever the host does, a resolution first imports and then looks
    attributes up, never the other way round: its log is a run of imports,
    at most one per segment of the path and one more, followed by a run of
    attribute lookups, at most one per segment. *)
Theorem import_callable_log_shape (host : Host) (python_path : string) :
  exists names lookups,
    trace_of (import_callable host python_path) = map EvImport names ++ lookups /\
    length names <= S (length (PyStr.split "." python_path)) /\
    Forall is_getattr lookups /\
    length lookups <= length (PyStr.split "." python_path).
Proof.
  unfold import_callable.
  set (segments := PyStr.split "." python_path).
  destruct (find_module_shape host (length segments) segments [] eq_refl)
    as (names & Ht & Hn & Hattrs).
  rewrite trace_bind, Ht.
  destruct (outcome (find_module host segments [])) as [[found attrs]|e] eqn:Hout.
  - specialize (Hattrs found attrs eq_refl). simpl in Hattrs.
    destruct found as [m|].
    + destruct (reduce_getattr_shape host attrs (VModule m)) as [Hall Hlen].
      exists names, (trace_of (reduce (getattr host) attrs (VModule m))).
      repeat split; [lia|exact Hall|lia].
    + rewrite trace_bind. cbn [import_module perform trace_of outcome fst snd].
      destruct (host_import_module host python_path) as [m|e].
      * destruct (reduce_getattr_shape host attrs VNone) as [Hall Hlen].
        exists (names ++ [python_path]), (trace_of (reduce (getattr host) attrs VNone)).
        rewrite map_app, length_app. cbn [map length app].
        rewrite <- app_assoc. repeat split; [lia|exact Hall|lia].
      * exists (names ++ [python_path]), [].
        rewrite map_app, length_app. cbn [map length app].
        rewrite app_nil_r. repeat split; [lia|constructor|lia].
  - exists names, []. rewrite app_nil_r. repeat split; [lia|constructor|simpl; lia].
Qed.

(** X3. A path that names an importable module resolves to the module
    itself, with one import and no attribute lookup. *)
Theorem import_callable_of_module (host : Host) (python_path m : string) :
  host_import_module host python_path = Return m ->
  import_callable host python_path = ([EvImport python_path], Return (VModule m)).
Proof.
  intros Hm. unfold import_callable.
  set (segments := PyStr.split "." python_path).
  assert (Hlen : 0 < length segments).
  { pose proof (split_not_nil "." python_path) as Hn. fold segments in Hn.
    destruct segments; [congruence|simpl; lia]. }
  assert (H0 : attempt segments 0 = python_path).
  { rewrite attempt_0. apply join_split. }
  rewrite (find_module_found host 0 segments [] m Hlen).
  - rewrite Nat.sub_0_r, skipn_all. cbn. now rewrite H0.
  - intros j Hj. lia.
  - now rewrite H0.
Qed.

Lemma import_callable_of_module_witness :
  import_callable Sample.host "pkg.mod" = ([EvImport "pkg.mod"], Return (VModule "pkg.mod")).
Proof. apply import_callable_of_module. reflexivity. Defined.

(** ** The accessors of the settings *)

(** X4. A key that is present in the raw mapping wins over the default: its
    value is returned as it is, [None] included, and nothing else happens;
    in particular a callable default is not called and a setting without
    default does not raise. *)
Theorem present_key_wins (host : Host) (self : Setting.t)
    (instance : SettingsObject.t) (d : dict) (v : value) :
  SettingsObject.user_settings instance = VDict d ->
  dict_get d (Setting.name self) = Some v ->
  Setting.__get__ host self (Some instance) = ([], Return v).
Proof. intros Hus Hv. now rewrite (Setting_get_present host self instance d v Hus Hv). Qed.

Lemma present_key_wins_witness :
  Setting.__get__ Sample.host
    {| Setting.name := "X"; Setting.default := Setting.Default (VCallable "seven") |}
    (Some (Sample.ROOT [("X", VNone)]))
  = ([], Return VNone).
Proof.
  apply (present_key_wins Sample.host _ (Sample.ROOT [("X", VNone)]) [("X", VNone)]);
    reflexivity.
Defined.

(** X5. Read on the class, that is without an instance, a setting raises
    the [TypeError] "Settings cannot be accessed as class attributes"; so do
    a merged-dictionary, an import-string and an object-factory setting.  A
    nested setting raises an [AttributeError] instead, because it reads the
    name of the instance before the inherited accessor runs. *)
Theorem class_access_raises (host : Host) :
  (forall self,
     Setting.__get__ host self None
     = ([], Raise (TypeError "Settings cannot be accessed as class attributes"))) /\
  (forall self,
     MergedDictSetting.__get__ host self None
     = ([], Raise (TypeError "Settings cannot be accessed as class attributes"))) /\
  (forall self,
     ImportStringSetting.__get__ host self None
     = ([], Raise (TypeError "Settings cannot be accessed as class attributes"))) /\
  (forall self,
     ObjectFactorySetting.__get__ host self None
     = ([], Raise (TypeError "Settings cannot be accessed as class attributes"))) /\
  (forall self,
     NestedSetting.__get__ host self None
     = ([], Raise (AttributeError "'NoneType' object has no attribute 'name'"))).
Proof. repeat split. Qed.

(** X6. An import-string setting resolves the path found under its key, or
    its default when the key is absent; without key or default it raises the
    required-setting error and imports nothing.  The result, log and errors
    are those of the resolver: they are not turned into configuration
    errors. *)
Theorem import_string_setting (host : Host) (self : Setting.t)
    (instance : SettingsObject.t) (d : dict) :
  SettingsObject.user_settings instance = VDict d ->
  let access := ImportStringSetting.__get__ host self (Some instance) in
  (forall python_path,
     dict_get d (Setting.name self) = Some (VStr python_path) ->
     access = import_callable host python_path) /\
  (forall python_path,
     dict_get d (Setting.name self) = None ->
     Setting.default self = Setting.Default (VStr python_path) ->
     access = import_callable host python_path) /\
  (dict_get d (Setting.name self) = None ->
   Setting.default self = Setting.NO_DEFAULT ->
   access = ([], Raise (ImproperlyConfigured (required_message instance self)))).
Proof.
  intros Hus access. unfold access, ImportStringSetting.__get__.
  split; [|split].
  - intros python_path Hp.
    now rewrite (Setting_get_present host self instance d _ Hus Hp), bind_ret.
  - intros python_path Habs Hd.
    rewrite (Setting_get_absent host self instance d Hus Habs).
    unfold Setting._get_default. rewrite Hd. cbn [Call.callable].
    now rewrite bind_ret.
  - intros Habs Hd.
    rewrite (Setting_get_absent host self instance d Hus Habs).
    unfold Setting._get_default. now rewrite Hd.
Qed.

Lemma import_string_setting_witness :
  ImportStringSetting.__get__ Sample.host
    {| Setting.name := "BACKEND"; Setting.default := Setting.Default (VStr "pkg.mod.Class") |}
    (Some (Sample.ROOT []))
  = import_callable Sample.host "pkg.mod.Class" /\
  ImportStringSetting.__get__ Sample.host
    {| Setting.name := "BACKEND"; Setting.default := Setting.NO_DEFAULT |}
    (Some (Sample.ROOT []))
  = ([], Raise (ImproperlyConfigured "Required setting: ROOT.BACKEND")).
Proof.
  split.
  - destruct (import_string_setting Sample.host
                {| Setting.name := "BACKEND";
                   Setting.default := Setting.Default (VStr "pkg.mod.Class") |}
                (Sample.ROOT []) [] eq_refl) as (_ & Hdefault & _).
    apply Hdefault; reflexivity.
  - destruct (import_string_setting Sample.host
                {| Setting.name := "BACKEND"; Setting.default := Setting.NO_DEFAULT |}
                (Sample.ROOT []) [] eq_refl) as (_ & _ & Hrequired).
    apply Hrequired; reflexivity.
Defined.

(** X7. A value under the key of a merged-dictionary setting that is
    [None], a Boolean or an integer makes the access raise the [TypeError]
    of [dict.update], "object is not iterable": unlike an absent key, such a
    value is not replaced by the empty mapping. *)
Theorem merged_dict_not_iterable (host : Host) (self : MergedDictSetting.t)
    (instance : SettingsObject.t) (d : dict) (raw : value) :
  SettingsObject.user_settings instance = VDict d ->
  dict_get d (MergedDictSetting.name self) = Some raw ->
  match raw with VNone | VBool _ | VInt _ => True | _ => False end ->
  MergedDictSetting.__get__ host self (Some instance)
  = ([], Raise (TypeError ("'" +.+ type_name raw +.+ "' object is not iterable"))).
Proof.
  intros Hus Hraw Hshape. unfold MergedDictSetting.__get__.
  rewrite (Setting_get_present host (MergedDictSetting.super self) instance d raw Hus Hraw).
  destruct raw; try contradiction; reflexivity.
Qed.

Lemma merged_dict_not_iterable_witness :
  MergedDictSetting.__get__ Sample.host
    {| MergedDictSetting.name := "M"; MergedDictSetting.defaults := [("A", VInt 1)] |}
    (Some (Sample.ROOT [("M", VNone)]))
  = ([], Raise (TypeError "'NoneType' object is not iterable")).
Proof.
  apply (merged_dict_not_iterable Sample.host _ (Sample.ROOT [("M", VNone)])
           [("M", VNone)] VNone); [reflexivity|reflexivity|exact I].
Defined.

(** X8. The names of nested settings objects add up, so that an error
    below a nested setting carries the whole path: a required setting that is
    absent from the mapping found under a nested setting is reported as the
    owner's name, the nested setting's name and its own name, joined by
    dots. *)
Theorem nested_required_path (host : Host) (nested : NestedSetting.t)
    (inner : Setting.t) (owner : SettingsObject.t) (d sub : dict) :
  SettingsObject.user_settings owner = VDict d ->
  dict_get d (NestedSetting.name nested) = Some (VDict sub) ->
  dict_get sub (Setting.name inner) = None ->
  Setting.default inner = Setting.NO_DEFAULT ->
  exists child,
    NestedSetting.__get__ host nested (Some owner)
      = ([], Return (SettingsObject.to_value child)) /\
    Setting.__get__ host inner (Some child)
      = ([], Raise (ImproperlyConfigured
                      ("Required setting: " +.+ SettingsObject.name owner +.+ "."
                       +.+ NestedSetting.name nested +.+ "." +.+ Setting.name inner))).
Proof.
  intros Hus Hsub Habs Hd.
  pose (child := {| SettingsObject.class := NestedSetting.settings_class nested;
                    SettingsObject.name :=
                      SettingsObject.name owner +.+ "." +.+ NestedSetting.name nested;
                    SettingsObject.user_settings := VDict sub |}).
  exists child. split.
  - unfold NestedSetting.__get__.
    now rewrite (Setting_get_present host (NestedSetting.super nested) owner d _ Hus Hsub).
  - rewrite (Setting_get_absent host inner child sub eq_refl Habs).
    unfold Setting._get_default. rewrite Hd. cbn [SettingsObject.name child].
    now rewrite !cat_assoc.
Qed.

Lemma nested_required_path_witness :
  exists child,
    NestedSetting.__get__ Sample.host
      {| NestedSetting.name := "SUB"; NestedSetting.settings_class := "SubSettings" |}
      (Some (Sample.ROOT [("SUB", VDict [("X", VInt 1)])]))
      = ([], Return (SettingsObject.to_value child)) /\
    Setting.__get__ Sample.host
      {| Setting.name := "Y"; Setting.default := Setting.NO_DEFAULT |} (Some child)
      = ([], Raise (ImproperlyConfigured "Required setting: ROOT.SUB.Y")).
Proof.
  apply (nested_required_path Sample.host
           {| NestedSetting.name := "SUB"; NestedSetting.settings_class := "SubSettings" |}
           {| Setting.name := "Y"; Setting.default := Setting.NO_DEFAULT |}
           (Sample.ROOT [("SUB", VDict [("X", VInt 1)])])
           [("SUB", VDict [("X", VInt 1)])] [("X", VInt 1)]); reflexivity.
Defined.

(** ** [_process_item], further *)

Section ProcessMore.

Variable host : Host.
Variable prefix : string.

Local Abbreviation process := (ObjectFactorySetting._process_item host).

Lemma bind_raises {A B} (m : M A) (k : A -> M B) t e :
  m = (t, Raise e) -> bind m k = (t, Raise e).
Proof. now intros ->. Qed.

Lemma process_values_results d : forall acc x,
  NoDup (map fst d) ->
  (forall k, In k (map fst d) -> ~ In k (map fst acc)) ->
  (outcome (process_values host prefix d acc) = Return x <->
   exists rs, x = acc ++ combine (map fst d) rs /\
              Forall2 (value_result host prefix) d rs).
Proof.
  induction d as [|[k v] d IH]; intros acc x Hnd Hfresh.
  - cbn [process_values map combine]. split.
    + intros [= <-]. exists []. split; [now rewrite app_nil_r|constructor].
    + intros (rs & -> & Hrs). inversion Hrs. cbn. now rewrite app_nil_r.
  - inversion Hnd as [|? ? Hnotin Hnd']; subst.
    cbn [process_values]. rewrite outcome_bind.
    assert (Hset : forall r, dict_set acc k r = acc ++ [(k, r)]).
    { intros r. apply dict_set_new. apply Hfresh. now left. }
    assert (Hfresh' : forall r k', In k' (map fst d) ->
                                   ~ In k' (map fst (dict_set acc k r))).
    { intros r k' Hin. rewrite Hset, map_app, in_app_iff. cbn.
      intros [Hacc|[<-|[]]]; [|exact (Hnotin Hin)].
      apply (Hfresh k'); [now right|exact Hacc]. }
    split.
    + destruct (outcome (process v (prefix +.+ "." +.+ k))) as [r|e] eqn:Hv; [|discriminate].
      intros Hrest. apply (IH _ _ Hnd' (Hfresh' r)) in Hrest as (rs & -> & Hrs).
      exists (r :: rs). split.
      * rewrite Hset, <- app_assoc. reflexivity.
      * constructor; [exact Hv|exact Hrs].
    + intros (rs & -> & Hrs).
      inversion Hrs as [|kv r d' rs' Hr Hrs']; subst.
      unfold value_result in Hr. cbn [fst snd] in Hr. rewrite Hr.
      apply (IH _ _ Hnd' (Hfresh' r)). exists rs'. split; [|exact Hrs'].
      rewrite Hset, <- app_assoc. reflexivity.
Qed.

Lemma process_params_app ps1 : forall ps2 acc,
  process_params host prefix (ps1 ++ ps2) acc =
  let* kwargs := process_params host prefix ps1 acc in
  process_params host prefix ps2 kwargs.
Proof.
  induction ps1 as [|[k v] ps1 IH]; intros ps2 acc.
  - cbn [app process_params]. now rewrite bind_ret.
  - cbn [app process_params].
    destruct (process v (prefix +.+ ".PARAMS." +.+ k)) as [t [r|e]] eqn:Hv.
    + rewrite !(bind_run _ _ t r eq_refl), IH.
      unfold prepend, bind.
      destruct (process_params host prefix ps1 _) as [t1 [a|e1]]; cbn [fst snd].
      * destruct (process_params host prefix ps2 a) as [t2 r2]. cbn [fst snd].
        now rewrite app_assoc.
      * reflexivity.
    + reflexivity.
Qed.

Lemma dict_set_keys_nodup (d : dict) k v :
  NoDup (map fst d) -> NoDup (map fst (dict_set d k v)).
Proof.
  induction d as [|[k0 v0] d IH]; cbn [dict_set map fst]; intros Hnd.
  - constructor; [intros []|constructor].
  - inversion Hnd as [|? ? Hnotin Hnd']; subst.
    destruct (String.eqb k0 k) eqn:E; cbn [map fst].
    + constructor; assumption.
    + constructor; [|now apply IH].
      intros Hin. apply Hnotin. clear - Hin E.
      induction d as [|[k1 v1] d IHd]; cbn [dict_set map fst] in *.
      * destruct Hin as [Hk|[]]. subst k0. now rewrite String.eqb_refl in E.
      * destruct (String.eqb k1 k); cbn [map fst] in *; [exact Hin|].
        destruct Hin as [Hk|Hin]; [now left|right; now apply IHd].
Qed.

Lemma process_params_nodup ps : forall acc t kwargs,
  process_params host prefix ps acc = (t, Return kwargs) ->
  NoDup (map fst acc) -> NoDup (map fst kwargs).
Proof.
  induction ps as [|[k v] ps IH]; intros acc t kwargs Hrun Hnd.
  - now injection Hrun as _ <-.
  - cbn [process_params] in Hrun.
    apply bind_returns in Hrun as (t1 & r & t2 & _ & Hrest & _).
    apply (IH _ _ _ Hrest). now apply dict_set_keys_nodup.
Qed.

End ProcessMore.

(** X9. A mapping without [FACTORY] whose keys are distinct is processed
    as the comprehension over its items: each value is processed under the
    prefix, a dot and its key, in the order of the mapping, and the result is
    the mapping of the same keys, in the same order, to the processed values.
    It is returned exactly when each value is; when a value fails, the values
    before it having been returned, the processing fails with that very
    error. *)
Theorem plain_mapping_keeps_keys (host : Host) (prefix : string) (d : dict) :
  let process := ObjectFactorySetting._process_item host in
  let label k := prefix +.+ "." +.+ k in
  dict_contains d "FACTORY" = false ->
  NoDup (map fst d) ->
  process (VDict d) prefix =
    (let* rs := comprehension (map (fun kv => process (snd kv) (label (fst kv))) d) in
     ret (VDict (combine (map fst d) rs))) /\
  (forall x,
     outcome (process (VDict d) prefix) = Return x <->
     exists rs, x = VDict (combine (map fst d) rs) /\
                Forall2 (value_result host prefix) d rs) /\
  (forall d1 k v d2 trs t e,
     d = d1 ++ (k, v) :: d2 ->
     Forall2 (fun kv tr => returns (process (snd kv) (label (fst kv))) tr) d1 trs ->
     process v (label k) = (t, Raise e) ->
     process (VDict d) prefix = (concat (map fst trs) ++ t, Raise e)).
Proof.
  intros process label Hf Hnd. split; [|split].
  - unfold process. rewrite (process_item_mapping_comprehension host prefix d Hf).
    apply bind_ext. intros rs Hrs.
    rewrite dict_of_items_nodup; [reflexivity|].
    rewrite keys_of_combine; [exact Hnd|].
    apply comprehension_length in Hrs. now rewrite length_map.
  - intros x. unfold process. rewrite (process_item_mapping host d prefix Hf), outcome_bind.
    pose proof (process_values_results host prefix d []) as Hv.
    split.
    + destruct (outcome (process_values host prefix d [])) as [processed|e] eqn:Hp;
        [|discriminate].
      intros [= <-].
      destruct (proj1 (Hv processed Hnd (fun _ _ H => H)) eq_refl) as (rs & -> & Hrs).
      now exists rs.
    + intros (rs & -> & Hrs).
      rewrite (proj2 (Hv (combine (map fst d) rs) Hnd (fun _ _ H => H))); [reflexivity|].
      now exists rs.
  - intros d1 k v d2 trs t e -> Hrs Hv.
    exact (process_mapping_value_raises host prefix d1 k v d2 trs t e Hf Hrs Hv).
Qed.

Lemma plain_mapping_keeps_keys_witness :
  ObjectFactorySetting._process_item Sample.host
    (VDict [("A", VInt 1); ("B", VDict [("FACTORY", VStr "pkg.make")]); ("C", VInt 2)])
    "ROOT.OBJ"
  = ([EvImport "pkg.make"; EvImport "pkg"; EvGetattr (VModule "pkg") "make";
      EvCall (VCallable "make") [] []],
     Raise (ImproperlyConfigured
              "Required setting(s): ROOT.OBJ.B.PARAMS.HOST, ROOT.OBJ.B.PARAMS.PORT")) /\
  outcome (ObjectFactorySetting._process_item Sample.host
             (VDict [("A", VTuple [VInt 1]); ("B", VDict [("FACTORY", VStr "pkg.Serializer")])])
             "ROOT.OBJ")
  = Return (VDict [("A", VList [VInt 1]); ("B", VInstance "Serializer" [])]).
Proof.
  split.
  - destruct (plain_mapping_keeps_keys Sample.host "ROOT.OBJ"
                [("A", VInt 1); ("B", VDict [("FACTORY", VStr "pkg.make")]); ("C", VInt 2)])
      as (_ & _ & Hfails).
    + reflexivity.
    + repeat constructor; simpl; intuition discriminate.
    + apply (Hfails [("A", VInt 1)] "B" (VDict [("FACTORY", VStr "pkg.make")])
                    [("C", VInt 2)] [([], VInt 1)]);
        [reflexivity|repeat constructor|reflexivity].
  - destruct (plain_mapping_keeps_keys Sample.host "ROOT.OBJ"
                [("A", VTuple [VInt 1]); ("B", VDict [("FACTORY", VStr "pkg.Serializer")])])
      as (_ & Hreturns & _).
    + reflexivity.
    + repeat constructor; simpl; intuition discriminate.
    + apply Hreturns. exists [VList [VInt 1]; VInstance "Serializer" []].
      split; [reflexivity|]. repeat constructor.
Defined.

(** X10. Nothing is built from a specification one ingredient of which
    fails.  When the import of [FACTORY] fails, its error is the outcome and
    no parameter is processed; when the processing of a parameter fails, its
    error is the outcome and the factory is not called. *)
Theorem factory_fails_fast (host : Host) (prefix : string) (d : dict)
    (python_path : value) :
  dict_get d "FACTORY" = Some python_path ->
  (forall t0 e,
     ImportStringSetting.import_value host python_path = (t0, Raise e) ->
     ObjectFactorySetting._process_item host (VDict d) prefix = (t0, Raise e)) /\
  (forall t0 factory ps t1 e,
     ImportStringSetting.import_value host python_path = (t0, Return factory) ->
     dict_get d "PARAMS" = Some (VDict ps) ->
     process_params host prefix ps [] = (t1, Raise e) ->
     ObjectFactorySetting._process_item host (VDict d) prefix = (t0 ++ t1, Raise e)).
Proof.
  intros Hf.
  assert (Hc : dict_contains d "FACTORY" = true) by (unfold dict_contains; now rewrite Hf).
  split.
  - intros t0 e Himp. rewrite (process_item_factory host d prefix Hc), Hf.
    now apply bind_raises.
  - intros t0 factory ps t1 e Himp Hp Hps.
    rewrite (process_item_factory host d prefix Hc), Hf, (bind_run _ _ _ _ Himp).
    unfold factory_kwargs. rewrite Hp, (bind_raises _ _ t1 e Hps). reflexivity.
Qed.

Lemma factory_fails_fast_witness :
  ObjectFactorySetting._process_item Sample.host
    (VDict [("FACTORY", VStr "nowhere.make"); ("PARAMS", VDict [("HOST", VStr "x")])])
    "ROOT.OBJ"
  = ([EvImport "nowhere.make"; EvImport "nowhere"; EvImport "nowhere.make"],
     Raise (ModuleNotFoundError "No module named 'nowhere.make'")).
Proof.
  destruct (factory_fails_fast Sample.host "ROOT.OBJ"
              [("FACTORY", VStr "nowhere.make"); ("PARAMS", VDict [("HOST", VStr "x")])]
              (VStr "nowhere.make") eq_refl) as [Himport _].
  apply Himport. reflexivity.
Defined.

(** X11. A specification without [PARAMS] calls the factory without
    arguments, whatever other keys it has; one whose [PARAMS] is [None] or a
    list raises the [AttributeError] of the missing [items] method, after the
    import of the factory and without calling it. *)
Theorem factory_params_edge (host : Host) (prefix : string) (d : dict)
    (python_path : value) (t0 : list event) (factory : value) :
  dict_get d "FACTORY" = Some python_path ->
  ImportStringSetting.import_value host python_path = (t0, Return factory) ->
  (dict_get d "PARAMS" = None ->
   ObjectFactorySetting._process_item host (VDict d) prefix =
     (t0 ++ [EvCall factory [] []],
      outcome (ObjectFactorySetting.invoke host factory [] prefix))) /\
  (forall other,
     dict_get d "PARAMS" = Some other ->
     match other with VNone | VList _ => True | _ => False end ->
     ObjectFactorySetting._process_item host (VDict d) prefix =
       (t0, Raise (AttributeError
                     ("'" +.+ type_name other +.+ "' object has no attribute 'items'")))).
Proof.
  intros Hf Himp. split.
  - intros Hp.
    rewrite (process_factory_run host prefix d python_path t0 factory [] [] Hf Himp).
    + reflexivity.
    + unfold factory_kwargs. now rewrite Hp.
  - intros other Hp Hshape.
    assert (Hc : dict_contains d "FACTORY" = true) by (unfold dict_contains; now rewrite Hf).
    rewrite (process_item_factory host d prefix Hc), Hf, (bind_run _ _ _ _ Himp).
    unfold factory_kwargs. rewrite Hp.
    destruct other; try contradiction; unfold prepend; cbn; now rewrite app_nil_r.
Qed.

Lemma factory_params_edge_witness :
  ObjectFactorySetting._process_item Sample.host
    (VDict [("FACTORY", VStr "pkg.Serializer"); ("COMMENT", VStr "ignored")]) "ROOT.OBJ"
  = ([EvImport "pkg.Serializer"; EvImport "pkg"; EvGetattr (VModule "pkg") "Serializer"]
     ++ [EvCall (VCallable "Serializer") [] []],
     Return (VInstance "Serializer" [])).
Proof.
  destruct (factory_params_edge Sample.host "ROOT.OBJ"
              [("FACTORY", VStr "pkg.Serializer"); ("COMMENT", VStr "ignored")]
              (VStr "pkg.Serializer")
              [EvImport "pkg.Serializer"; EvImport "pkg"; EvGetattr (VModule "pkg") "Serializer"]
              (VCallable "Serializer") eq_refl eq_refl) as [Habsent _].
  apply Habsent. reflexivity.
Defined.

(** X12. The keyword arguments a factory is called with never name an
    argument twice, and when several keys of [PARAMS] differ only by case the
    last one wins: when every value under [PARAMS] is returned, the factory is
    called once, after them, and in that call the argument named by a key in
    lower case is the processed value of the last key of that name.  The keys
    are taken to be ASCII. *)
Theorem params_case_collision (host : Host) (prefix : string) (d : dict)
    (python_path : value) (t0 : list event) (factory : value)
    (ps1 ps2 : dict) (k : string) (v : value) (trs : list (list event * value)) :
  let process := ObjectFactorySetting._process_item host in
  let ps := ps1 ++ (k, v) :: ps2 in
  dict_get d "FACTORY" = Some python_path ->
  dict_get d "PARAMS" = Some (VDict ps) ->
  ImportStringSetting.import_value host python_path = (t0, Return factory) ->
  ascii_keys ps = true ->
  Forall2 (fun kv tr => returns (process (snd kv) (prefix +.+ ".PARAMS." +.+ fst kv)) tr)
          ps trs ->
  (forall kv, In kv ps2 -> PyStr.lower (fst kv) <> PyStr.lower k) ->
  exists kwargs r,
    process (VDict d) prefix =
      (t0 ++ concat (map fst trs) ++ [EvCall factory [] kwargs],
       outcome (ObjectFactorySetting.invoke host factory kwargs prefix)) /\
    NoDup (map fst kwargs) /\
    outcome (process v (prefix +.+ ".PARAMS." +.+ k)) = Return r /\
    dict_get kwargs (PyStr.lower k) = Some r.
Proof.
  intros process ps Hf Hp Himp _ Hrs Hlast.
  pose proof (process_params_returns host prefix ps trs Hrs) as Hrun.
  set (kwargs := dict_of_items (combine (map (fun kv => PyStr.lower (fst kv)) ps)
                                        (map snd trs))) in *.
  assert (Hr : exists r,
             outcome (process v (prefix +.+ ".PARAMS." +.+ k)) = Return r /\
             dict_get kwargs (PyStr.lower k) = Some r).
  { pose proof Hrun as Hrun'. unfold ps in Hrun'. rewrite process_params_app in Hrun'.
    apply bind_returns in Hrun' as (t1 & a1 & t2 & _ & Hrest & _).
    cbn [process_params] in Hrest.
    apply bind_returns in Hrest as (t3 & r & t4 & Hv & Hps2 & _).
    exists r. split.
    - unfold process. now rewrite Hv.
    - rewrite (process_params_untouched host prefix ps2 _ _ _ (PyStr.lower k) Hps2).
      + now rewrite dict_get_set, String.eqb_refl.
      + intros Hin. apply in_map_iff in Hin as (kv & Heq & Hin).
        exact (Hlast kv Hin Heq). }
  destruct Hr as (r & Hv & Hget).
  exists kwargs, r. split; [|split; [|split]].
  - exact (process_factory_returns host prefix d python_path ps t0 factory trs
             Hf Hp Himp Hrs).
  - apply (process_params_nodup host prefix _ _ _ _ Hrun). constructor.
  - exact Hv.
  - exact Hget.
Qed.

Lemma params_case_collision_witness :
  exists kwargs r,
    ObjectFactorySetting._process_item Sample.host
      (VDict [("FACTORY", VStr "pkg.make");
              ("PARAMS", VDict [("Host", VInt 1); ("HOST", VInt 2); ("PORT", VInt 3)])])
      "ROOT.OBJ"
    = ([EvImport "pkg.make"; EvImport "pkg"; EvGetattr (VModule "pkg") "make";
        EvCall (VCallable "make") [] kwargs],
       outcome (ObjectFactorySetting.invoke Sample.host (VCallable "make") kwargs "ROOT.OBJ")) /\
    NoDup (map fst kwargs) /\
    outcome (ObjectFactorySetting._process_item Sample.host (VInt 2)
               ("ROOT.OBJ" +.+ ".PARAMS." +.+ "HOST")) = Return r /\
    dict_get kwargs (PyStr.lower "HOST") = Some r.
Proof.
  apply (params_case_collision Sample.host "ROOT.OBJ"
           [("FACTORY", VStr "pkg.make");
            ("PARAMS", VDict [("Host", VInt 1); ("HOST", VInt 2); ("PORT", VInt 3)])]
           (VStr "pkg.make")
           [EvImport "pkg.make"; EvImport "pkg"; EvGetattr (VModule "pkg") "make"]
           (VCallable "make")
           [("Host", VInt 1)] [("PORT", VInt 3)] "HOST" (VInt 2)
           [([], VInt 1); ([], VInt 2); ([], VInt 3)]);
    [reflexivity|reflexivity|reflexivity|reflexivity|repeat constructor|].
  intros kv [<-|[]]. discriminate.
Defined.

(** *** An unexpected keyword that is not a word *)

Module NamelessFacts.

Import ObjectFactorySetting.

Lemma scan_not_word key : forall acc,
  no_quote key = true ->
  all_chars PyStr.is_word key = false ->
  scan_arg_names (key +.+ "'") (Some acc) = [].
Proof.
  induction key as [|c key IH]; intros acc Hq Hw; [discriminate Hw|].
  unfold no_quote in Hq. cbn [all_chars] in Hq, Hw.
  apply andb_prop in Hq as [Hc Hq]. apply negb_true_iff in Hc.
  rewrite cat_cons. cbn [scan_arg_names].
  destruct (PyStr.is_word c) eqn:E.
  - apply IH; [exact Hq|exact Hw].
  - rewrite Hc. rewrite (TextFacts.scan_skip key "'" Hq). reflexivity.
Qed.

Lemma search_arg_name_nameless qualname key :
  no_quote qualname = true -> no_quote key = true -> identifier key = false ->
  search_arg_name (Call.unexpected_message qualname key) = None.
Proof.
  intros Hq Hk Hid.
  unfold search_arg_name, findall_arg_name, Call.unexpected_message, Call.quote.
  rewrite (TextFacts.scan_skip qualname) by exact Hq.
  rewrite (TextFacts.scan_skip "() got an unexpected keyword argument ") by reflexivity.
  change ("'" +.+ key +.+ "'") with (String "'" (key +.+ "'")).
  cbn [scan_arg_names]. change (Ascii.eqb "'" "'") with true. cbv iota.
  destruct key as [|c key]; [reflexivity|].
  now rewrite scan_not_word.
Qed.

Lemma search_missing_nameless qualname key :
  no_space qualname = true -> no_space key = true ->
  search_missing_arg (Call.unexpected_message qualname key) = false.
Proof.
  intros Hq Hk.
  destruct (search_missing_arg (Call.unexpected_message qualname key)) eqn:E;
    [|reflexivity].
  apply SearchFacts.search_space_then_digit in E.
  unfold Call.unexpected_message, Call.quote in E.
  rewrite (SearchFacts.space_then_digit_skip qualname) in E by exact Hq.
  change ("'" +.+ key +.+ "'") with (String "'" (key +.+ "'")) in E.
  rewrite SearchFacts.space_then_digit_cat in E.
  change (space_then_digit ("() got an unexpected keyword argument " +.+ String "'" EmptyString))
    with false in E.
  change (String "'" (key +.+ "'")) with (String "'" key +.+ "'") in E.
  rewrite (SearchFacts.space_then_digit_skip (String "'" key)) in E; [discriminate E|].
  unfold no_space. cbn [all_chars].
  change (negb (Ascii.eqb "'" " ")) with true. cbn [andb]. exact Hk.
Qed.

End NamelessFacts.

(** X13. A [TypeError] whose message, of ASCII characters, contains "got
    an unexpected keyword argument" but no quoted word, and does not match
    the pattern of missing arguments, is neither passed on nor turned into a
    configuration error: the handler fails on the absent match and an
    [AttributeError] comes out.  This is what happens when the factory is
    given a keyword it does not accept that is not a word, such as the one
    made from the key [MY-KEY]. *)
Theorem unexpected_without_name (host : Host) (factory : value) (kwargs : dict)
    (prefix : string) :
  let nameless :=
    Raise (AttributeError "'NoneType' object has no attribute 'group'") in
  (forall msg,
     outcome (Call.call host factory [] kwargs) = Raise (TypeError msg) ->
     PyStr.is_ascii msg = true ->
     ObjectFactorySetting.search_missing_arg msg = false ->
     PyStr.contains ObjectFactorySetting.INVALID_ARG_MATCH msg = true ->
     ObjectFactorySetting.search_arg_name msg = None ->
     outcome (ObjectFactorySetting.invoke host factory kwargs prefix) = nameless) /\
  (forall q key,
     factory = VCallable q ->
     Call.bind_keywords (host_function host q) [] kwargs
       = Raise (TypeError (Call.unexpected_message (fn_qualname (host_function host q)) key)) ->
     PyStr.is_ascii (Call.unexpected_message (fn_qualname (host_function host q)) key) = true ->
     plain_name (fn_qualname (host_function host q)) = true ->
     no_quote key = true -> no_space key = true -> identifier key = false ->
     outcome (ObjectFactorySetting.invoke host factory kwargs prefix) = nameless).
Proof.
  intros nameless.
  assert (Hgeneral : forall msg,
            outcome (Call.call host factory [] kwargs) = Raise (TypeError msg) ->
            ObjectFactorySetting.search_missing_arg msg = false ->
            PyStr.contains ObjectFactorySetting.INVALID_ARG_MATCH msg = true ->
            ObjectFactorySetting.search_arg_name msg = None ->
            outcome (ObjectFactorySetting.invoke host factory kwargs prefix) = nameless).
  { intros msg Hcall Hs Hc Hn. rewrite (invoke_handled host _ _ _ msg Hcall).
    unfold ObjectFactorySetting.on_type_error. now rewrite Hs, Hc, Hn. }
  split.
  - intros msg Hcall _. now apply Hgeneral.
  - intros q key -> Hb _ Hq Hkq Hks Hid.
    unfold plain_name in Hq. apply andb_prop in Hq as [Hq Hs].
    apply (Hgeneral (Call.unexpected_message (fn_qualname (host_function host q)) key)).
    + unfold Call.call, perform. cbn [outcome snd]. now apply call_unexpected.
    + now apply NamelessFacts.search_missing_nameless.
    + apply SearchFacts.contains_unexpected_message.
    + now apply NamelessFacts.search_arg_name_nameless.
Qed.

Lemma unexpected_without_name_witness :
  outcome (ObjectFactorySetting.invoke Sample.host (VCallable "make")
             [("host", VStr "x"); ("port", VInt 1); ("my-key", VInt 2)] "ROOT.OBJ")
  = Raise (AttributeError "'NoneType' object has no attribute 'group'") /\
  outcome (ObjectFactorySetting.invoke
             {| host_import_module := host_import_module Sample.host;
                host_getattr := host_getattr Sample.host;
                host_function _ :=
                  {| fn_qualname := "strict"; fn_params := []; fn_var_keyword := true;
                     fn_body _ := Raise (TypeError "got an unexpected keyword argument") |};
                host_django_setting := host_django_setting Sample.host;
                host_update_from_sequence := host_update_from_sequence Sample.host;
                host_getitem := host_getitem Sample.host |}
             (VCallable "strict") [("a", VInt 1)] "ROOT.OBJ")
  = Raise (AttributeError "'NoneType' object has no attribute 'group'").
Proof.
  split.
  - destruct (unexpected_without_name Sample.host (VCallable "make")
                [("host", VStr "x"); ("port", VInt 1); ("my-key", VInt 2)] "ROOT.OBJ")
      as [_ Hkey].
    apply (Hkey "make" "my-key"); reflexivity.
  - destruct (unexpected_without_name
                {| host_import_module := host_import_module Sample.host;
                   host_getattr := host_getattr Sample.host;
                   host_function _ :=
                     {| fn_qualname := "strict"; fn_params := []; fn_var_keyword := true;
                        fn_body _ := Raise (TypeError "got an unexpected keyword argument") |};
                   host_django_setting := host_django_setting Sample.host;
                   host_update_from_sequence := host_update_from_sequence Sample.host;
                   host_getitem := host_getitem Sample.host |}
                (VCallable "strict") [("a", VInt 1)] "ROOT.OBJ") as [Hmessage _].
    apply (Hmessage "got an unexpected keyword argument"); reflexivity.
Defined.

(** ** [ObjectFactorySetting.__get__] *)

(** X14. From the setting to the message: when the value of an
    object-factory setting is a factory specification whose parameters leave
    required parameters of the factory without a value, the access raises the
    required-setting error that lists each of them under the name of the
    owner, the name of the setting and [PARAMS], in upper case. *)
Theorem object_factory_required_params (host : Host) (self : Setting.t)
    (owner : SettingsObject.t) (d spec : dict) (python_path q : string)
    (t0 t1 : list event) (kwargs bound : dict) (names : list string) :
  let prefix := SettingsObject.name owner +.+ "." +.+ Setting.name self in
  SettingsObject.user_settings owner = VDict d ->
  dict_get d (Setting.name self) = Some (VDict spec) ->
  dict_get spec "FACTORY" = Some (VStr python_path) ->
  import_callable host python_path = (t0, Return (VCallable q)) ->
  factory_kwargs host prefix spec = (t1, Return kwargs) ->
  Call.bind_keywords (host_function host q) [] kwargs = Return bound ->
  Call.missing (host_function host q) bound = names ->
  names <> [] ->
  Forall (fun n => identifier n = true) names ->
  no_quote (fn_qualname (host_function host q)) = true ->
  outcome (ObjectFactorySetting.__get__ host self (Some owner))
  = Raise (ImproperlyConfigured
             ("Required setting(s): "
              +.+ PyStr.join ", "
                    (map (fun name => prefix +.+ ".PARAMS." +.+ PyStr.upper name) names))).
Proof.
  intros prefix Hus Hraw Hf Himp Hkw Hb Hm Hne Hids Hq.
  unfold ObjectFactorySetting.__get__.
  rewrite (Setting_get_present host self owner d _ Hus Hraw), bind_ret.
  fold prefix.
  rewrite (process_factory_run host prefix spec (VStr python_path) t0 (VCallable q)
             t1 kwargs Hf Himp Hkw).
  cbn [outcome snd].
  rewrite (invoke_handled host _ _ _
             (Call.missing_message (fn_qualname (host_function host q)) names)).
  - unfold ObjectFactorySetting.on_type_error.
    rewrite SearchFacts.search_missing_message.
    now rewrite TextFacts.findall_missing_message.
  - unfold Call.call, perform. cbn [outcome snd]. now apply (call_missing _ _ bound).
Qed.

Lemma object_factory_required_params_witness :
  outcome (ObjectFactorySetting.__get__ Sample.host
             {| Setting.name := "DATABASE"; Setting.default := Setting.NO_DEFAULT |}
             (Some (Sample.ROOT
                      [("DATABASE", VDict [("FACTORY", VStr "pkg.make");
                                           ("PARAMS", VDict [("TIMEOUT", VInt 5)])])])))
  = Raise (ImproperlyConfigured
             "Required setting(s): ROOT.DATABASE.PARAMS.HOST, ROOT.DATABASE.PARAMS.PORT").
Proof.
  apply (object_factory_required_params Sample.host
           {| Setting.name := "DATABASE"; Setting.default := Setting.NO_DEFAULT |}
           (Sample.ROOT
              [("DATABASE", VDict [("FACTORY", VStr "pkg.make");
                                   ("PARAMS", VDict [("TIMEOUT", VInt 5)])])])
           [("DATABASE", VDict [("FACTORY", VStr "pkg.make");
                                ("PARAMS", VDict [("TIMEOUT", VInt 5)])])]
           [("FACTORY", VStr "pkg.make"); ("PARAMS", VDict [("TIMEOUT", VInt 5)])]
           "pkg.make" "make"
           [EvImport "pkg.make"; EvImport "pkg"; EvGetattr (VModule "pkg") "make"] []
           [("timeout", VInt 5)] [("timeout", VInt 5)] ["host"; "port"]);
    try reflexivity.
  - discriminate.
  - repeat constructor.
Defined.

(** X15. The default of an object-factory setting is processed like a value
    from the settings: with the key absent, a default that is not callable is
    run through [_process_item] under the name of the owner and of the
    setting, so that a default specification is built and a default tuple
    comes out as a list; without a default the access raises the
    required-setting error and neither imports nor calls anything. *)
Theorem object_factory_default (host : Host) (self : Setting.t)
    (owner : SettingsObject.t) (d : dict) :
  SettingsObject.user_settings owner = VDict d ->
  dict_get d (Setting.name self) = None ->
  (forall v,
     Setting.default self = Setting.Default v -> Call.callable v = false ->
     ObjectFactorySetting.__get__ host self (Some owner)
     = ObjectFactorySetting._process_item host v
         (SettingsObject.name owner +.+ "." +.+ Setting.name self)) /\
  (Setting.default self = Setting.NO_DEFAULT ->
   ObjectFactorySetting.__get__ host self (Some owner)
   = ([], Raise (ImproperlyConfigured (required_message owner self)))).
Proof.
  intros Hus Habs. unfold ObjectFactorySetting.__get__.
  rewrite (Setting_get_absent host self owner d Hus Habs).
  unfold Setting._get_default. split.
  - intros v Hd Hc. now rewrite Hd, Hc, bind_ret.
  - intros Hd. now rewrite Hd.
Qed.

Lemma object_factory_default_witness :
  ObjectFactorySetting.__get__ Sample.host
    {| Setting.name := "CODEC";
       Setting.default := Setting.Default (VDict [("FACTORY", VStr "pkg.Serializer")]) |}
    (Some (Sample.ROOT []))
  = ObjectFactorySetting._process_item Sample.host
      (VDict [("FACTORY", VStr "pkg.Serializer")]) "ROOT.CODEC".
Proof.
  destruct (object_factory_default Sample.host
              {| Setting.name := "CODEC";
                 Setting.default :=
                   Setting.Default (VDict [("FACTORY", VStr "pkg.Serializer")]) |}
              (Sample.ROOT []) [] eq_refl eq_refl) as [Hdefault _].
  apply Hdefault; reflexivity.
Defined.

(** ** Data without factory specifications, processed twice *)

Lemma dict_get_map_values (f : value -> value) (d : dict) k :
  dict_get (map (fun kv => (fst kv, f (snd kv))) d) k
  = option_map f (dict_get d k).
Proof.
  induction d as [|[k0 v0] d IH]; [reflexivity|].
  cbn [map fst snd dict_get]. now destruct (String.eqb k0 k).
Qed.

Lemma keys_map_values (f : value -> value) (d : dict) :
  map fst (map (fun kv => (fst kv, f (snd kv))) d) = map fst d.
Proof. rewrite map_map. now apply map_ext. Qed.

Lemma tuples_to_lists_plain item :
  plain_data item = true ->
  plain_data (tuples_to_lists item) = true /\
  tuples_to_lists (tuples_to_lists item) = tuples_to_lists item.
Proof.
  induction item using value_nested_ind; intros Hp; try (split; reflexivity).
  - rewrite plain_data_mapping in Hp. apply andb_prop in Hp as [Hf Hk].
    rewrite tuples_to_lists_mapping.
    rewrite plain_data_mapping, tuples_to_lists_mapping.
    unfold dict_contains in *. rewrite dict_get_map_values.
    assert (Hitems :
      keys_once (map (fun kv => (fst kv, tuples_to_lists (snd kv))) items) = true /\
      map (fun kv => (fst kv, tuples_to_lists (snd kv)))
          (map (fun kv => (fst kv, tuples_to_lists (snd kv))) items)
      = map (fun kv => (fst kv, tuples_to_lists (snd kv))) items).
    { clear Hf. induction H as [|[k v] d Hv Hd IH]; [split; reflexivity|].
      cbn [keys_once] in Hk. apply andb_prop in Hk as [Hk Hkd].
      apply andb_prop in Hk as [Hnew Hpv].
      cbn [snd] in Hv.
      destruct (IH Hkd) as [IH1 IH2]. destruct (Hv Hpv) as [Hv1 Hv2].
      cbn [map fst snd keys_once]. rewrite keys_map_values, Hnew, Hv1, IH1, Hv2, IH2.
      split; reflexivity. }
    destruct Hitems as [Hk' Hm]. rewrite Hk', Hm.
    split; [|reflexivity].
    destruct (dict_get items "FACTORY"); [discriminate Hf|reflexivity].
  - rewrite (proj1 (plain_data_sequence items)) in Hp.
    rewrite (proj1 (tuples_to_lists_sequence items)).
    rewrite (proj1 (plain_data_sequence _)), (proj1 (tuples_to_lists_sequence _)).
    assert (Hitems : forallb plain_data (map tuples_to_lists items) = true /\
                     map tuples_to_lists (map tuples_to_lists items)
                     = map tuples_to_lists items).
    { induction H as [|v l Hv Hl IH]; [split; reflexivity|].
      cbn [forallb] in Hp. apply andb_prop in Hp as [Hpv Hpl].
      destruct (IH Hpl) as [IH1 IH2]. destruct (Hv Hpv) as [Hv1 Hv2].
      cbn [map forallb]. rewrite Hv1, IH1, Hv2, IH2. split; reflexivity. }
    destruct Hitems as [Hf Hm]. now rewrite Hf, Hm.
  - rewrite (proj2 (plain_data_sequence items)) in Hp.
    rewrite (proj2 (tuples_to_lists_sequence items)).
    rewrite (proj1 (plain_data_sequence _)), (proj1 (tuples_to_lists_sequence _)).
    assert (Hitems : forallb plain_data (map tuples_to_lists items) = true /\
                     map tuples_to_lists (map tuples_to_lists items)
                     = map tuples_to_lists items).
    { induction H as [|v l Hv Hl IH]; [split; reflexivity|].
      cbn [forallb] in Hp. apply andb_prop in Hp as [Hpv Hpl].
      destruct (IH Hpl) as [IH1 IH2]. destruct (Hv Hpv) as [Hv1 Hv2].
      cbn [map forallb]. rewrite Hv1, IH1, Hv2, IH2. split; reflexivity. }
    destruct Hitems as [Hf Hm]. now rewrite Hf, Hm.
Qed.

(** X16. On data without factory specifications the processing is
    idempotent: processing the result again returns it unchanged, under any
    prefix, and calls nothing. *)
Theorem process_plain_idempotent (host : Host) (item x : value) (prefix prefix' : string) :
  plain_data item = true ->
  outcome (ObjectFactorySetting._process_item host item prefix) = Return x ->
  ObjectFactorySetting._process_item host x prefix' = ([], Return x).
Proof.
  intros Hp Hx.
  rewrite (process_plain_data host item Hp prefix) in Hx. injection Hx as <-.
  destruct (tuples_to_lists_plain item Hp) as [Hp' Hfix].
  rewrite (process_plain_data host (tuples_to_lists item) Hp' prefix').
  now rewrite Hfix.
Qed.

Lemma process_plain_idempotent_witness :
  ObjectFactorySetting._process_item Sample.host
    (VDict [("A", VList [VInt 1; VList [VStr "a"]])]) "OTHER"
  = ([], Return (VDict [("A", VList [VInt 1; VList [VStr "a"]])])).
Proof.
  apply (process_plain_idempotent Sample.host
           (VDict [("A", VTuple [VInt 1; VTuple [VStr "a"]])]) _ "ROOT.OBJ" "OTHER");
    reflexivity.
Defined.

(** ** The store, further *)

Module StoreMore.

Import stdpp.base stdpp.gmap.
Import Store.

Lemma fresh_ne (h : store) l o : h !! l = Some o -> l <> fresh (dom h).
Proof.
  intros Hl ->. assert (h !! fresh (dom h) = None) as Hf; [|congruence].
  apply not_elem_of_dom, is_fresh.
Qed.

Lemma lookup_alloc (h : store) l o o' :
  h !! l = Some o -> <[fresh (dom h) := o']> h !! l = Some o.
Proof. intros Hl. rewrite lookup_insert_ne; [done|]. symmetry. by eapply fresh_ne. Qed.

(** X17. Over the store, the result of a merged-dictionary setting whose
    key holds a dictionary is one new dictionary with the items of the
    declared defaults updated by the items of the user's dictionary; the
    store is the old one with that dictionary added.  The items are copied as
    they are, so that a reference among them is shared with the defaults or
    with the user's dictionary: the copy is shallow. *)
Theorem merged_store_result (host : Host) (self : MergedDictSetting.t)
    (instance : loc) (h : store) (cls nm : string) (u r : loc)
    (uitems ritems ditems : list (string * sval)) :
  h !! instance = Some (OSettings cls nm (SRef u)) ->
  h !! u = Some (ODict uitems) ->
  dict_get uitems (MergedDictSetting.name self) = Some (SRef r) ->
  h !! r = Some (ODict ritems) ->
  h !! MergedDictSetting.defaults self = Some (ODict ditems) ->
  MergedDictSetting.__get__ host self (Some instance) h
  = (Return (SRef (fresh (dom h))),
     <[fresh (dom h) := ODict (dict_update ditems ritems)]> h).
Proof.
  intros Hi Hu Hk Hr Hd.
  unfold MergedDictSetting.__get__, bind, copy. rewrite Hd.
  unfold alloc at 1. cbn [Setting.__get__].
  unfold try_except, bind, user_settings_of.
  rewrite (lookup_alloc h instance _ _ Hi).
  unfold getitem. rewrite (lookup_alloc h u _ _ Hu).
  cbn [MergedDictSetting.super Setting.name]. rewrite Hk.
  unfold update. rewrite lookup_insert_eq, (lookup_alloc h r _ _ Hr).
  unfold ret. by rewrite insert_insert_eq.
Qed.

Lemma merged_store_result_witness :
  MergedDictSetting.__get__ SampleStore.host SampleStore.M_setting (Some 0%nat)
    SampleStore.objects
  = (Return (SRef (fresh (dom SampleStore.objects))),
     <[fresh (dom SampleStore.objects) :=
         ODict (dict_update [("A", SInt 1); ("B", SInt 2)] [("B", SInt 3); ("C", SInt 4)])]>
       SampleStore.objects).
Proof.
  apply (merged_store_result SampleStore.host SampleStore.M_setting 0%nat
           SampleStore.objects "SettingsObject" "ROOT" 1%nat 2%nat
           [("M", SRef 2)]); reflexivity.
Defined.

Section Nested.

Variable host : Host.
Variable django_import : store -> option exn.
Variable django_getattr : string -> sval -> store -> result sval.

Local Abbreviation nested_get :=
  (StoreNested.__get__ host django_import django_getattr).

Lemma nested_get_present self owner (h : store) cls nm u uitems raw :
  h !! owner = Some (OSettings cls nm (SRef u)) ->
  h !! u = Some (ODict uitems) ->
  dict_get uitems (StoreNested.name self) = Some raw ->
  raw <> SNone ->
  nested_get self (Some owner) h
  = (Return (SRef (fresh (dom h))),
     <[fresh (dom h) :=
         OSettings (StoreNested.settings_class self)
                   (nm +.+ "." +.+ StoreNested.name self) raw]> h).
Proof.
  intros Ho Hu Hk Hraw.
  unfold StoreNested.__get__, bind, name_of. rewrite Ho.
  cbn [Setting.__get__]. unfold try_except, bind, user_settings_of, getitem.
  rewrite Ho, Hu. cbn [StoreNested.super Setting.name]. rewrite Hk.
  unfold StoreNested.__init__, bind, ret, alloc.
  by destruct raw.
Qed.

End Nested.

(** X18. Over the store, an access to a nested setting whose key holds a
    value other than [None] allocates one new settings object of the declared
    class, named after the owner and the setting, whose raw mapping is that
    very value: a reference is handed over, the mapping is not copied.
    Nothing else changes, and nothing is remembered: the next access
    allocates another object on the same mapping. *)
Theorem nested_store_result (host : Host) (django_import : store -> option exn)
    (django_getattr : string -> sval -> store -> result sval)
    (self : StoreNested.t) (owner : loc) (h : store) (cls nm : string) (u : loc)
    (uitems : list (string * sval)) (raw : sval) :
  h !! owner = Some (OSettings cls nm (SRef u)) ->
  h !! u = Some (ODict uitems) ->
  dict_get uitems (StoreNested.name self) = Some raw ->
  raw <> SNone ->
  let child := OSettings (StoreNested.settings_class self)
                         (nm +.+ "." +.+ StoreNested.name self) raw in
  let first := fresh (dom h) in
  let h1 := <[first := child]> h in
  let second := fresh (dom h1) in
  StoreNested.__get__ host django_import django_getattr self (Some owner) h
    = (Return (SRef first), h1) /\
  StoreNested.__get__ host django_import django_getattr self (Some owner) h1
    = (Return (SRef second), <[second := child]> h1) /\
  first <> second.
Proof.
  intros Ho Hu Hk Hraw child first h1 second.
  split; [|split].
  - by apply (nested_get_present host django_import django_getattr self owner h cls nm u uitems).
  - apply (nested_get_present host django_import django_getattr self owner h1 cls nm u uitems);
      [by apply lookup_alloc|by apply lookup_alloc|done|done].
  - apply (fresh_ne h1 first child). apply lookup_insert_eq.
Qed.

Lemma nested_store_result_witness :
  StoreNested.__get__ SampleStore.host (fun _ => None) (fun _ d _ => Return d)
    StoreNested.SUB (Some 6%nat) StoreNested.objects
  = (Return (SRef (fresh (dom StoreNested.objects))),
     <[fresh (dom StoreNested.objects) := OSettings "SubSettings" "ROOT.SUB" (SRef 5)]>
       StoreNested.objects).
Proof.
  destruct (nested_store_result SampleStore.host (fun _ => None) (fun _ d _ => Return d)
              StoreNested.SUB 6%nat StoreNested.objects "SettingsObject" "ROOT" 4%nat
              [("SUB", SRef 5)] (SRef 5)) as [Hfirst _];
    [reflexivity|reflexivity|reflexivity|discriminate|exact Hfirst].
Defined.

End StoreMore.

(** ** Nested settings whose key holds [None] or is absent, over the store *)

Module StoreDjango.

Import stdpp.base stdpp.gmap.
Import Store.

(** X19. Over the store, a nested setting whose key holds [None] is read
    from the Django settings.  When the import of the Django settings fails,
    that exception is raised and the store is left as it is; otherwise one
    empty dictionary is allocated as the default of the lookup, the lookup is
    made under the dotted name of the nested object, and its result, be it a
    value or an exception, decides the access: a value becomes the raw
    mapping of one new settings object, an exception is raised with the empty
    dictionary still allocated. *)
Theorem nested_none_store (host : Host) (django_import : store -> option exn)
    (django_getattr : string -> sval -> store -> result sval)
    (self : StoreNested.t) (owner : loc) (h : store) (cls nm : string) (u : loc)
    (uitems : list (string * sval)) :
  h !! owner = Some (OSettings cls nm (SRef u)) ->
  h !! u = Some (ODict uitems) ->
  dict_get uitems (StoreNested.name self) = Some SNone ->
  let access := StoreNested.__get__ host django_import django_getattr self (Some owner) h in
  let dotted := nm +.+ "." +.+ StoreNested.name self in
  let empty := fresh (dom h) in
  let h1 := <[empty := ODict []]> h in
  (forall e, django_import h = Some e -> access = (Raise e, h)) /\
  (forall v,
     django_import h = None ->
     django_getattr dotted (SRef empty) h1 = Return v ->
     access = (Return (SRef (fresh (dom h1))),
               <[fresh (dom h1) := OSettings (StoreNested.settings_class self) dotted v]> h1)) /\
  (forall e,
     django_import h = None ->
     django_getattr dotted (SRef empty) h1 = Raise e ->
     access = (Raise e, h1)).
Proof.
  intros Ho Hu Hk access dotted empty h1.
  assert (Hget : access
                 = bind (StoreNested.__init__ django_import django_getattr
                           (StoreNested.settings_class self) dotted SNone)
                        (fun nested => ret (SRef nested)) h).
  { unfold access, StoreNested.__get__, bind, name_of. rewrite Ho.
    cbn [Setting.__get__]. unfold try_except, bind, user_settings_of, getitem.
    rewrite Ho, Hu. cbn [StoreNested.super Setting.name]. now rewrite Hk. }
  rewrite Hget. unfold StoreNested.__init__, bind, alloc, ret.
  split; [|split].
  - intros e He. now rewrite He.
  - intros v Hi Hv. rewrite Hi. fold empty h1. now rewrite Hv.
  - intros e Hi He. rewrite Hi. fold empty h1. now rewrite He.
Qed.

Lemma nested_none_store_witness :
  StoreNested.__get__ SampleStore.host
    (fun _ => Some (ImportError "No module named 'django'")) (fun _ d _ => Return d)
    StoreNested.SUB (Some 8%nat)
    (<[8%nat := OSettings "SettingsObject" "ROOT" (SRef 7)]>
       (<[7%nat := ODict [("SUB", SNone)]]> StoreNested.objects))
  = (Raise (ImportError "No module named 'django'"),
     <[8%nat := OSettings "SettingsObject" "ROOT" (SRef 7)]>
       (<[7%nat := ODict [("SUB", SNone)]]> StoreNested.objects)).
Proof.
  destruct (nested_none_store SampleStore.host
              (fun _ => Some (ImportError "No module named 'django'"))
              (fun _ d _ => Return d)
              StoreNested.SUB 8%nat
              (<[8%nat := OSettings "SettingsObject" "ROOT" (SRef 7)]>
                 (<[7%nat := ODict [("SUB", SNone)]]> StoreNested.objects))
              "SettingsObject" "ROOT" 7%nat [("SUB", SNone)])
    as [Hfail _]; [reflexivity|reflexivity|reflexivity|].
  apply Hfail. reflexivity.
Defined.

(** X20. Over the store, a nested setting whose key is absent never
    consults the Django settings: the new settings object is built on a new
    empty dictionary, which no other object refers to, and every object of
    the old store is kept as it was. *)
Theorem nested_absent_store (host : Host) (django_import : store -> option exn)
    (django_getattr : string -> sval -> store -> result sval)
    (self : StoreNested.t) (owner : loc) (h : store) (cls nm : string) (u : loc)
    (uitems : list (string * sval)) :
  h !! owner = Some (OSettings cls nm (SRef u)) ->
  h !! u = Some (ODict uitems) ->
  dict_get uitems (StoreNested.name self) = None ->
  exists (mapping nested : loc) (h' : store),
    StoreNested.__get__ host django_import django_getattr self (Some owner) h
      = (Return (SRef nested), h') /\
    h' !! nested = Some (OSettings (StoreNested.settings_class self)
                                   (nm +.+ "." +.+ StoreNested.name self) (SRef mapping)) /\
    h' !! mapping = Some (ODict []) /\
    h !! mapping = None /\ h !! nested = None /\ mapping <> nested /\
    h ⊆ h'.
Proof.
  intros Ho Hu Hk.
  set (l1 := fresh (dom h)). set (h1 := <[l1 := ODict []]> h).
  set (l2 := fresh (dom h1)). set (h2 := <[l2 := ODict []]> h1).
  set (l3 := fresh (dom h2)).
  assert (F1 : h !! l1 = None) by apply not_elem_of_dom, is_fresh.
  assert (F2 : h1 !! l2 = None) by apply not_elem_of_dom, is_fresh.
  assert (F3 : h2 !! l3 = None) by apply not_elem_of_dom, is_fresh.
  assert (Ho1 : h1 !! owner = Some (OSettings cls nm (SRef u))).
  { unfold h1. rewrite lookup_insert_ne; [done|]. intros <-. congruence. }
  exists l2, l3, (<[l3 := OSettings (StoreNested.settings_class self)
                           (nm +.+ "." +.+ StoreNested.name self) (SRef l2)]> h2).
  split; [|split; [|split; [|split; [|split; [|split]]]]].
  - unfold StoreNested.__get__, bind, name_of. rewrite Ho.
    cbn [Setting.__get__]. unfold try_except, bind, user_settings_of, getitem.
    rewrite Ho, Hu. cbn [StoreNested.super Setting.name]. rewrite Hk.
    assert (Hdef : Setting._get_default host (StoreNested.super self) owner h
                   = (Return (SRef l2), h2)).
    { unfold Setting._get_default, StoreNested.super.
      cbn [Setting.default callable call builtin_dict].
      unfold try_except, bind, alloc, update, ret. fold l1. fold h1.
      replace (h1 !! l1) with (Some (ODict [])) by (symmetry; apply lookup_insert_eq).
      rewrite Ho1. reflexivity. }
    rewrite Hdef. reflexivity.
  - by rewrite lookup_insert_eq.
  - rewrite lookup_insert_ne; [apply lookup_insert_eq|].
    intros E. symmetry in E. revert E.
    apply (StoreMore.fresh_ne h2 l2 (ODict [])), lookup_insert_eq.
  - destruct (h !! l2) eqn:E; [|done].
    apply (lookup_weaken _ h1) in E; [congruence|by apply insert_subseteq].
  - destruct (h !! l3) eqn:E; [|done].
    apply (lookup_weaken _ h1) in E; [|by apply insert_subseteq].
    apply (lookup_weaken _ h2) in E; [congruence|by apply insert_subseteq].
  - apply (StoreMore.fresh_ne h2 l2 (ODict [])), lookup_insert_eq.
  - transitivity h1; [by apply insert_subseteq|].
    transitivity h2; [by apply insert_subseteq|by apply insert_subseteq].
Qed.

Lemma nested_absent_store_witness :
  exists (mapping nested : loc) (h' : store),
    StoreNested.__get__ SampleStore.host (fun _ => None) (fun _ d _ => Return d)
      {| StoreNested.name := "OTHER"; StoreNested.settings_class := "SubSettings" |}
      (Some 6%nat) StoreNested.objects
      = (Return (SRef nested), h') /\
    h' !! nested = Some (OSettings "SubSettings" "ROOT.OTHER" (SRef mapping)) /\
    h' !! mapping = Some (ODict []) /\
    StoreNested.objects !! mapping = None /\ StoreNested.objects !! nested = None /\
    mapping <> nested /\
    StoreNested.objects ⊆ h'.
Proof.
  apply (nested_absent_store SampleStore.host (fun _ => None) (fun _ d _ => Return d)
           {| StoreNested.name := "OTHER"; StoreNested.settings_class := "SubSettings" |}
           6%nat StoreNested.objects "SettingsObject" "ROOT" 4%nat [("SUB", SRef 5)]);
    reflexivity.
Defined.

End StoreDjango.
